(** * LLGL: Vulkan transition engine, swap-chain lifecycle and D3D12 compute PSO

    A shallow embedding of the parts of the LLGL renderer back ends that the
    specification makes checkable statements about:

    - [VKDevice.cpp]: [TransitionImageLayout], [CopyImage], [ResolveImage],
      [GenerateMips], [WriteBuffer], [ReadBuffer];
    - [VKRenderContext.cpp]: [Present], [ResizeBuffersPrimary],
      [PickSwapChainSize] and the creation helpers they call;
    - [D3D12ComputePSO.cpp] and [D3D12Device.cpp]: the constructor of
      [D3D12ComputePSO] and [CreateDXComputePipelineState].

    Integers of the C++ code are [Z] with the wrap-around of their width written
    out.  A command buffer is the list of the commands recorded into it, oldest
    first.  Calls into the Vulkan or Direct3D driver are recorded in a trace and
    answered by an oracle that sees the whole history. *)

From Stdlib Require Import ZArith List Lia Bool String.
Import ListNotations.
Open Scope Z_scope.

(** ** Machine integers *)

Definition uint32_max : Z := 4294967295.
Definition uint32 (x : Z) : Z := x mod 2 ^ 32.
Definition uint64 (x : Z) : Z := x mod 2 ^ 64.
Definition is_uint32 (x : Z) : Prop := 0 <= x <= uint32_max.

(** [static_cast<std::int32_t>] of an unsigned 32 bit value. *)
Definition to_int32 (x : Z) : Z :=
  let y := uint32 x in if y <? 2 ^ 31 then y else y - 2 ^ 32.

(** [std::max] and [std::min] on unsigned operands. *)
Definition std_max (a b : Z) : Z := if a <? b then b else a.
Definition std_min (a b : Z) : Z := if b <? a then b else a.

(** [for (i = start; i < start + n; ++i) body] over a state [S]: the loops of
    the sources ([for_range], [for_subrange] of LLGL/Utils/ForRange.h and plain
    counting loops) run their body for consecutive values. *)
Fixpoint for_loop {S : Type} (n : nat) (i : Z) (body : Z -> S -> S) (s : S) : S :=
  match n with
  | O => s
  | Datatypes.S n' => for_loop n' (i + 1) body (body i s)
  end.

Definition for_subrange {S : Type} (first last : Z) (body : Z -> S -> S) (s : S) : S :=
  for_loop (Z.to_nat (last - first)) first body s.

Definition for_range {S : Type} (last : Z) (body : Z -> S -> S) (s : S) : S :=
  for_subrange 0 last body s.

(** ** The constants of [vulkan_core.h] that the sources mention *)

Module Vk.

Definition VkImageLayout := Z.
Definition VK_IMAGE_LAYOUT_UNDEFINED                : VkImageLayout := 0.
Definition VK_IMAGE_LAYOUT_GENERAL                  : VkImageLayout := 1.
Definition VK_IMAGE_LAYOUT_COLOR_ATTACHMENT_OPTIMAL : VkImageLayout := 2.
Definition VK_IMAGE_LAYOUT_SHADER_READ_ONLY_OPTIMAL : VkImageLayout := 5.
Definition VK_IMAGE_LAYOUT_TRANSFER_SRC_OPTIMAL     : VkImageLayout := 6.
Definition VK_IMAGE_LAYOUT_TRANSFER_DST_OPTIMAL     : VkImageLayout := 7.
Definition VK_IMAGE_LAYOUT_PRESENT_SRC_KHR          : VkImageLayout := 1000001002.

Definition VkAccessFlags := Z.
Definition VK_ACCESS_SHADER_READ_BIT    : VkAccessFlags := 32.
Definition VK_ACCESS_TRANSFER_READ_BIT  : VkAccessFlags := 2048.
Definition VK_ACCESS_TRANSFER_WRITE_BIT : VkAccessFlags := 4096.

Definition VkPipelineStageFlags := Z.
Definition VK_PIPELINE_STAGE_TOP_OF_PIPE_BIT             : VkPipelineStageFlags := 1.
Definition VK_PIPELINE_STAGE_FRAGMENT_SHADER_BIT         : VkPipelineStageFlags := 128.
Definition VK_PIPELINE_STAGE_COLOR_ATTACHMENT_OUTPUT_BIT : VkPipelineStageFlags := 1024.
Definition VK_PIPELINE_STAGE_TRANSFER_BIT                : VkPipelineStageFlags := 4096.
Definition VK_PIPELINE_STAGE_BOTTOM_OF_PIPE_BIT          : VkPipelineStageFlags := 8192.

Definition VkImageAspectFlags := Z.
Definition VK_IMAGE_ASPECT_COLOR_BIT   : VkImageAspectFlags := 1.
Definition VK_IMAGE_ASPECT_DEPTH_BIT   : VkImageAspectFlags := 2.
Definition VK_IMAGE_ASPECT_STENCIL_BIT : VkImageAspectFlags := 4.

Definition VK_STRUCTURE_TYPE_IMAGE_MEMORY_BARRIER : Z := 45.
Definition VK_QUEUE_FAMILY_IGNORED : Z := uint32_max.
Definition VK_FILTER_LINEAR : Z := 1.

Definition VkFormat := Z.
Definition VK_FORMAT_UNDEFINED      : VkFormat := 0.
Definition VK_FORMAT_B8G8R8A8_UNORM : VkFormat := 44.

Definition VkResult := Z.
Definition VK_SUCCESS : VkResult := 0.

(** Handles ([VkImage], [VkBuffer], [VkSemaphore], ...) are opaque numbers. *)
Definition Handle := Z.
Definition VK_NULL_HANDLE : Handle := 0.

Record VkOffset3D := { x : Z; y : Z; z : Z }.
Record VkExtent3D := { width : Z; height : Z; depth : Z }.
Record VkExtent2D := { width2 : Z; height2 : Z }.

Record VkImageSubresourceRange := {
  range_aspectMask     : VkImageAspectFlags;
  range_baseMipLevel   : Z;
  levelCount           : Z;
  range_baseArrayLayer : Z;
  range_layerCount     : Z
}.

Record VkImageSubresourceLayers := {
  aspectMask     : VkImageAspectFlags;
  mipLevel       : Z;
  baseArrayLayer : Z;
  layerCount     : Z
}.

Record VkImageMemoryBarrier := {
  sType               : Z;
  srcAccessMask       : VkAccessFlags;
  dstAccessMask       : VkAccessFlags;
  oldLayout           : VkImageLayout;
  newLayout           : VkImageLayout;
  srcQueueFamilyIndex : Z;
  dstQueueFamilyIndex : Z;
  image               : Handle;
  subresourceRange    : VkImageSubresourceRange
}.

(** [VkImageCopy] and [VkImageResolve] have the same members. *)
Record VkImageCopy := {
  srcSubresource : VkImageSubresourceLayers;
  srcOffset      : VkOffset3D;
  dstSubresource : VkImageSubresourceLayers;
  dstOffset      : VkOffset3D;
  extent         : VkExtent3D
}.
Definition VkImageResolve := VkImageCopy.

Record VkImageBlit := {
  blit_srcSubresource : VkImageSubresourceLayers;
  srcOffsets0         : VkOffset3D;
  srcOffsets1         : VkOffset3D;
  blit_dstSubresource : VkImageSubresourceLayers;
  dstOffsets0         : VkOffset3D;
  dstOffsets1         : VkOffset3D
}.

(** The [vkCmd*] calls of [VKDevice.cpp], as they are recorded. *)
Inductive Command :=
| CmdPipelineBarrier (srcStageMask dstStageMask : VkPipelineStageFlags)
                     (dependencyFlags : Z) (barrier : VkImageMemoryBarrier)
| CmdCopyImage (srcImage : Handle) (srcImageLayout : VkImageLayout)
               (dstImage : Handle) (dstImageLayout : VkImageLayout)
               (region : VkImageCopy)
| CmdResolveImage (srcImage : Handle) (srcImageLayout : VkImageLayout)
                  (dstImage : Handle) (dstImageLayout : VkImageLayout)
                  (region : VkImageResolve)
| CmdBlitImage (srcImage : Handle) (srcImageLayout : VkImageLayout)
               (dstImage : Handle) (dstImageLayout : VkImageLayout)
               (blit : VkImageBlit) (filter : Z).

Definition VkCommandBuffer := list Command.

(** The blits among the recorded commands, in order. *)
Definition BlitsOf (cb : VkCommandBuffer) : list VkImageBlit :=
  flat_map (fun c => match c with
                     | CmdBlitImage _ _ _ _ blit _ => [blit]
                     | _ => []
                     end) cb.

(** Member-wise assignments to a barrier that already exists. *)
Definition set_access (src dst : VkAccessFlags) (b : VkImageMemoryBarrier) :=
  {| sType := sType b; srcAccessMask := src; dstAccessMask := dst;
     oldLayout := oldLayout b; newLayout := newLayout b;
     srcQueueFamilyIndex := srcQueueFamilyIndex b;
     dstQueueFamilyIndex := dstQueueFamilyIndex b;
     image := image b; subresourceRange := subresourceRange b |}.

Definition set_layouts (old new : VkImageLayout) (b : VkImageMemoryBarrier) :=
  {| sType := sType b; srcAccessMask := srcAccessMask b;
     dstAccessMask := dstAccessMask b;
     oldLayout := old; newLayout := new;
     srcQueueFamilyIndex := srcQueueFamilyIndex b;
     dstQueueFamilyIndex := dstQueueFamilyIndex b;
     image := image b; subresourceRange := subresourceRange b |}.

Definition set_range (r : VkImageSubresourceRange) (b : VkImageMemoryBarrier) :=
  {| sType := sType b; srcAccessMask := srcAccessMask b;
     dstAccessMask := dstAccessMask b;
     oldLayout := oldLayout b; newLayout := newLayout b;
     srcQueueFamilyIndex := srcQueueFamilyIndex b;
     dstQueueFamilyIndex := dstQueueFamilyIndex b;
     image := image b; subresourceRange := r |}.

Definition set_baseMipLevel (m : Z) (b : VkImageMemoryBarrier) :=
  let r := subresourceRange b in
  set_range {| range_aspectMask := range_aspectMask r; range_baseMipLevel := m;
               levelCount := levelCount r;
               range_baseArrayLayer := range_baseArrayLayer r;
               range_layerCount := range_layerCount r |} b.

Definition set_baseArrayLayer (l : Z) (b : VkImageMemoryBarrier) :=
  let r := subresourceRange b in
  set_range {| range_aspectMask := range_aspectMask r;
               range_baseMipLevel := range_baseMipLevel r;
               levelCount := levelCount r;
               range_baseArrayLayer := l;
               range_layerCount := range_layerCount r |} b.

End Vk.
Import Vk.

(** ** [TextureSubresource] (LLGL) *)

Record TextureSubresource := {
  sub_baseArrayLayer : Z;
  numArrayLayers     : Z;
  sub_baseMipLevel   : Z;
  numMipLevels       : Z
}.

(** ** Tracking image layouts through recorded commands

    Vulkan keeps one layout per image subresource (mip level and array layer).
    An image memory barrier leaves every subresource of its range in
    [newLayout]; the other commands of this file do not change layouts. *)

Module LayoutTracker.

Definition Layouts := Handle -> Z -> Z -> VkImageLayout.

Definition in_range (r : VkImageSubresourceRange) (mip layer : Z) : bool :=
  (range_baseMipLevel r <=? mip) && (mip <? range_baseMipLevel r + levelCount r) &&
  (range_baseArrayLayer r <=? layer) &&
  (layer <? range_baseArrayLayer r + range_layerCount r).

Definition covers (b : VkImageMemoryBarrier) (img : Handle) (mip layer : Z) : bool :=
  (img =? image b) && in_range (subresourceRange b) mip layer.

Definition exec (c : Command) (st : Layouts) : Layouts :=
  match c with
  | CmdPipelineBarrier _ _ _ b =>
      fun img mip layer =>
        if covers b img mip layer then newLayout b else st img mip layer
  | _ => st
  end.

Definition run (cb : VkCommandBuffer) (st : Layouts) : Layouts :=
  fold_left (fun s c => exec c s) cb st.

(** The subresources a [TextureSubresource] names. *)
Definition in_subresource (s : TextureSubresource) (mip layer : Z) : bool :=
  (sub_baseMipLevel s <=? mip) && (mip <? sub_baseMipLevel s + numMipLevels s) &&
  (sub_baseArrayLayer s <=? layer) &&
  (layer <? sub_baseArrayLayer s + numArrayLayers s).

(** The subresources one side of a copy or resolve region names: the layers
    [baseArrayLayer .. baseArrayLayer + layerCount - 1] of the one level
    [mipLevel] (the meaning Vulkan gives to [VkImageSubresourceLayers]). *)
Definition in_layers (l : VkImageSubresourceLayers) (mip layer : Z) : bool :=
  (mip =? mipLevel l) && (baseArrayLayer l <=? layer) &&
  (layer <? baseArrayLayer l + layerCount l).

(** Whether a command is a barrier that moves exactly the subresources [s] of
    [img] from layout [old] to layout [new]. *)
Definition is_transition (c : Command) (img : Handle) (old new : VkImageLayout)
    (s : TextureSubresource) : bool :=
  match c with
  | CmdPipelineBarrier _ _ _ b =>
      (image b =? img) && (oldLayout b =? old) && (newLayout b =? new) &&
      (range_baseMipLevel (subresourceRange b) =? sub_baseMipLevel s) &&
      (levelCount (subresourceRange b) =? numMipLevels s) &&
      (range_baseArrayLayer (subresourceRange b) =? sub_baseArrayLayer s) &&
      (range_layerCount (subresourceRange b) =? numArrayLayers s)
  | _ => false
  end.

End LayoutTracker.

(** ** VKDevice.cpp *)

Module VKDevice.

Section Device.

(** [GetImageAspectForVkFormat] goes through [VKTypes::Unmap] and the format
    predicates of LLGL/Format.h, whose bodies are in other translation units. *)
Variable Format : Type.
Variable VKTypes_Unmap : VkFormat -> Format.
Variable IsDepthOrStencilFormat : Format -> bool.
Variable IsStencilFormat : Format -> bool.

Definition GetImageAspectForVkFormat (format : VkFormat) : VkImageAspectFlags :=
  let fmt := VKTypes_Unmap format in
  if IsDepthOrStencilFormat fmt then
    if IsStencilFormat fmt
    then Z.lor VK_IMAGE_ASPECT_DEPTH_BIT VK_IMAGE_ASPECT_STENCIL_BIT
    else VK_IMAGE_ASPECT_DEPTH_BIT
  else VK_IMAGE_ASPECT_COLOR_BIT.

(** The barrier and the two stage masks [TransitionImageLayout] hands to
    [vkCmdPipelineBarrier]. *)
Definition TransitionBarrier (image : Handle) (format : VkFormat)
    (oldLayout newLayout : VkImageLayout) (subresource : TextureSubresource)
  : VkPipelineStageFlags * VkPipelineStageFlags * VkImageMemoryBarrier :=
  let barrier :=
    {| sType := VK_STRUCTURE_TYPE_IMAGE_MEMORY_BARRIER;
       srcAccessMask := 0;
       dstAccessMask := 0;
       oldLayout := oldLayout;
       newLayout := newLayout;
       srcQueueFamilyIndex := VK_QUEUE_FAMILY_IGNORED;
       dstQueueFamilyIndex := VK_QUEUE_FAMILY_IGNORED;
       image := image;
       subresourceRange :=
         {| range_aspectMask := GetImageAspectForVkFormat format;
            range_baseMipLevel := sub_baseMipLevel subresource;
            levelCount := numMipLevels subresource;
            range_baseArrayLayer := sub_baseArrayLayer subresource;
            range_layerCount := numArrayLayers subresource |} |} in
  let srcStageMask := VK_PIPELINE_STAGE_TOP_OF_PIPE_BIT in
  let dstStageMask := VK_PIPELINE_STAGE_BOTTOM_OF_PIPE_BIT in
  if (oldLayout =? VK_IMAGE_LAYOUT_UNDEFINED) &&
     (newLayout =? VK_IMAGE_LAYOUT_TRANSFER_DST_OPTIMAL) then
    (VK_PIPELINE_STAGE_TOP_OF_PIPE_BIT, VK_PIPELINE_STAGE_TRANSFER_BIT,
     set_access 0 VK_ACCESS_TRANSFER_WRITE_BIT barrier)
  else if (oldLayout =? VK_IMAGE_LAYOUT_TRANSFER_DST_OPTIMAL) &&
          (newLayout =? VK_IMAGE_LAYOUT_SHADER_READ_ONLY_OPTIMAL) then
    (VK_PIPELINE_STAGE_TRANSFER_BIT, VK_PIPELINE_STAGE_FRAGMENT_SHADER_BIT,
     set_access VK_ACCESS_TRANSFER_WRITE_BIT VK_ACCESS_SHADER_READ_BIT barrier)
  else
    (srcStageMask, dstStageMask, barrier).

Definition TransitionImageLayout (commandBuffer : VkCommandBuffer)
    (image : Handle) (format : VkFormat)
    (oldLayout newLayout : VkImageLayout) (subresource : TextureSubresource)
  : VkCommandBuffer :=
  let '(srcStageMask, dstStageMask, barrier) :=
    TransitionBarrier image format oldLayout newLayout subresource in
  commandBuffer ++ [CmdPipelineBarrier srcStageMask dstStageMask 0 barrier].

(** The [TextureSubresource] that [CopyImage] and [ResolveImage] build from one
    side of the region: { baseArrayLayer, layerCount, mipLevel, 1u }. *)
Definition LayersSubresource (l : VkImageSubresourceLayers) : TextureSubresource :=
  {| sub_baseArrayLayer := baseArrayLayer l;
     numArrayLayers := layerCount l;
     sub_baseMipLevel := mipLevel l;
     numMipLevels := 1 |}.

Definition CopyImage (commandBuffer : VkCommandBuffer)
    (srcImage : Handle) (srcImageLayout : VkImageLayout)
    (dstImage : Handle) (dstImageLayout : VkImageLayout)
    (region : VkImageCopy) (format : VkFormat) : VkCommandBuffer :=
  let srcImageSubresource := LayersSubresource (srcSubresource region) in
  let dstImageSubresource := LayersSubresource (dstSubresource region) in
  let cb := TransitionImageLayout commandBuffer srcImage format srcImageLayout
              VK_IMAGE_LAYOUT_TRANSFER_SRC_OPTIMAL srcImageSubresource in
  let cb := TransitionImageLayout cb dstImage format dstImageLayout
              VK_IMAGE_LAYOUT_TRANSFER_DST_OPTIMAL dstImageSubresource in
  let cb := cb ++ [CmdCopyImage srcImage VK_IMAGE_LAYOUT_TRANSFER_SRC_OPTIMAL
                                dstImage VK_IMAGE_LAYOUT_TRANSFER_DST_OPTIMAL region] in
  let cb := TransitionImageLayout cb srcImage format
              VK_IMAGE_LAYOUT_TRANSFER_SRC_OPTIMAL srcImageLayout srcImageSubresource in
  TransitionImageLayout cb dstImage format
    VK_IMAGE_LAYOUT_TRANSFER_DST_OPTIMAL dstImageLayout dstImageSubresource.

Definition ResolveImage (commandBuffer : VkCommandBuffer)
    (srcImage : Handle) (srcImageLayout : VkImageLayout)
    (dstImage : Handle) (dstImageLayout : VkImageLayout)
    (region : VkImageResolve) (format : VkFormat) : VkCommandBuffer :=
  let srcImageSubresource := LayersSubresource (srcSubresource region) in
  let dstImageSubresource := LayersSubresource (dstSubresource region) in
  let cb := TransitionImageLayout commandBuffer srcImage format srcImageLayout
              VK_IMAGE_LAYOUT_TRANSFER_SRC_OPTIMAL srcImageSubresource in
  let cb := TransitionImageLayout cb dstImage format dstImageLayout
              VK_IMAGE_LAYOUT_TRANSFER_DST_OPTIMAL dstImageSubresource in
  let cb := cb ++ [CmdResolveImage srcImage VK_IMAGE_LAYOUT_TRANSFER_SRC_OPTIMAL
                                   dstImage VK_IMAGE_LAYOUT_TRANSFER_DST_OPTIMAL region] in
  let cb := TransitionImageLayout cb srcImage format
              VK_IMAGE_LAYOUT_TRANSFER_SRC_OPTIMAL srcImageLayout srcImageSubresource in
  TransitionImageLayout cb dstImage format
    VK_IMAGE_LAYOUT_TRANSFER_DST_OPTIMAL dstImageLayout dstImageSubresource.

(** The extent of the next MIP level, as the body of the inner loop of
    [GenerateMips] computes it from [currExtent]. *)
Definition NextMipExtent (currExtent : VkExtent3D) : VkExtent3D :=
  {| width  := std_max 1 (width  currExtent / 2);
     height := std_max 1 (height currExtent / 2);
     depth  := std_max 1 (depth  currExtent / 2) |}.


Definition MipBlit (aspectMask : VkImageAspectFlags) (subresource : TextureSubresource)
    (arrayLayer mipLevel : Z) (currExtent nextExtent : VkExtent3D) : VkImageBlit :=
  {| blit_srcSubresource :=
       {| aspectMask := aspectMask;
          mipLevel := uint32 (sub_baseMipLevel subresource + mipLevel - 1);
          baseArrayLayer := uint32 (sub_baseArrayLayer subresource + arrayLayer);
          layerCount := 1 |};
     srcOffsets0 := {| x := 0; y := 0; z := 0 |};
     srcOffsets1 := {| x := to_int32 (width currExtent);
                       y := to_int32 (height currExtent);
                       z := to_int32 (depth currExtent) |};
     blit_dstSubresource :=
       {| aspectMask := aspectMask;
          mipLevel := uint32 (sub_baseMipLevel subresource + mipLevel);
          baseArrayLayer := uint32 (sub_baseArrayLayer subresource + arrayLayer);
          layerCount := 1 |};
     dstOffsets0 := {| x := 0; y := 0; z := 0 |};
     dstOffsets1 := {| x := to_int32 (width nextExtent);
                       y := to_int32 (height nextExtent);
                       z := to_int32 (depth nextExtent) |} |}.

(** The state the two loops of [GenerateMips] work on: the one [barrier]
    variable that every iteration overwrites in part, the current extent and
    the command buffer. *)
Definition MipState : Type := VkImageMemoryBarrier * VkExtent3D * VkCommandBuffer.

(** Body of [for_subrange(mipLevel, 1, subresource.numMipLevels)]. *)
Definition MipLevelBody (image : Handle) (aspectMask : VkImageAspectFlags)
    (subresource : TextureSubresource) (arrayLayer mipLevel : Z) (st : MipState)
  : MipState :=
  let '(barrier, currExtent, cb) := st in
  (* Determine extent of next MIP level *)
  let nextExtent := NextMipExtent currExtent in
  (* Transition previous MIP level to VK_IMAGE_LAYOUT_TRANSFER_SRC_OPTIMAL *)
  let barrier := set_access VK_ACCESS_TRANSFER_WRITE_BIT VK_ACCESS_TRANSFER_READ_BIT barrier in
  let barrier := set_layouts VK_IMAGE_LAYOUT_TRANSFER_DST_OPTIMAL
                             VK_IMAGE_LAYOUT_TRANSFER_SRC_OPTIMAL barrier in
  let barrier := set_baseMipLevel (uint32 (sub_baseMipLevel subresource + mipLevel - 1)) barrier in
  let barrier := set_baseArrayLayer (uint32 (sub_baseArrayLayer subresource + arrayLayer)) barrier in
  let cb := cb ++ [CmdPipelineBarrier VK_PIPELINE_STAGE_TRANSFER_BIT
                                      VK_PIPELINE_STAGE_TRANSFER_BIT 0 barrier] in
  (* Blit previous MIP level into next higher MIP level *)
  let blit := MipBlit aspectMask subresource arrayLayer mipLevel currExtent nextExtent in
  let cb := cb ++ [CmdBlitImage image VK_IMAGE_LAYOUT_TRANSFER_SRC_OPTIMAL
                                image VK_IMAGE_LAYOUT_TRANSFER_DST_OPTIMAL
                                blit VK_FILTER_LINEAR] in
  (* Transition previous MIP level back to VK_IMAGE_LAYOUT_SHADER_READ_ONLY_OPTIMAL *)
  let barrier := set_access VK_ACCESS_TRANSFER_READ_BIT VK_ACCESS_SHADER_READ_BIT barrier in
  let barrier := set_layouts VK_IMAGE_LAYOUT_TRANSFER_SRC_OPTIMAL
                             VK_IMAGE_LAYOUT_SHADER_READ_ONLY_OPTIMAL barrier in
  let cb := cb ++ [CmdPipelineBarrier VK_PIPELINE_STAGE_TRANSFER_BIT
                                      VK_PIPELINE_STAGE_FRAGMENT_SHADER_BIT 0 barrier] in
  (* Reduce image extent to next MIP level *)
  (barrier, nextExtent, cb).

(** Body of [for_range(arrayLayer, subresource.numArrayLayers)]. *)
Definition MipLayerBody (image : Handle) (aspectMask : VkImageAspectFlags)
    (extent : VkExtent3D) (subresource : TextureSubresource) (arrayLayer : Z)
    (st : VkImageMemoryBarrier * VkCommandBuffer)
  : VkImageMemoryBarrier * VkCommandBuffer :=
  let '(barrier, cb) := st in
  let currExtent := extent in
  let '(barrier, _, cb) :=
    for_subrange 1 (numMipLevels subresource)
      (MipLevelBody image aspectMask subresource arrayLayer)
      (barrier, currExtent, cb) in
  (* Transition last MIP level back to VK_IMAGE_LAYOUT_SHADER_READ_ONLY_OPTIMAL *)
  let barrier := set_access VK_ACCESS_TRANSFER_WRITE_BIT VK_ACCESS_SHADER_READ_BIT barrier in
  let barrier := set_layouts VK_IMAGE_LAYOUT_TRANSFER_DST_OPTIMAL
                             VK_IMAGE_LAYOUT_SHADER_READ_ONLY_OPTIMAL barrier in
  let barrier := set_baseMipLevel (uint32 (numMipLevels subresource - 1)) barrier in
  let cb := cb ++ [CmdPipelineBarrier VK_PIPELINE_STAGE_TRANSFER_BIT
                                      VK_PIPELINE_STAGE_FRAGMENT_SHADER_BIT 0 barrier] in
  (barrier, cb).

Definition GenerateMips (commandBuffer : VkCommandBuffer) (image : Handle)
    (format : VkFormat) (extent : VkExtent3D) (subresource : TextureSubresource)
  : VkCommandBuffer :=
  let cb := TransitionImageLayout commandBuffer image VK_FORMAT_UNDEFINED
              VK_IMAGE_LAYOUT_SHADER_READ_ONLY_OPTIMAL
              VK_IMAGE_LAYOUT_TRANSFER_DST_OPTIMAL subresource in
  (* Initialize image memory barrier *)
  let aspectMask := GetImageAspectForVkFormat format in
  let barrier :=
    {| sType := VK_STRUCTURE_TYPE_IMAGE_MEMORY_BARRIER;
       srcAccessMask := 0;
       dstAccessMask := 0;
       oldLayout := VK_IMAGE_LAYOUT_UNDEFINED;
       newLayout := VK_IMAGE_LAYOUT_UNDEFINED;
       srcQueueFamilyIndex := VK_QUEUE_FAMILY_IGNORED;
       dstQueueFamilyIndex := VK_QUEUE_FAMILY_IGNORED;
       image := image;
       subresourceRange :=
         {| range_aspectMask := aspectMask;
            range_baseMipLevel := sub_baseMipLevel subresource;
            levelCount := 1;
            range_baseArrayLayer := sub_baseArrayLayer subresource;
            range_layerCount := 1 |} |} in
  (* Blit each MIP-map from previous (lower) MIP level *)
  snd (for_range (numArrayLayers subresource)
         (MipLayerBody image aspectMask extent subresource)
         (barrier, cb)).

(** *** Host access to buffer memory

    Device memory is a store of bytes per memory chunk; host memory is a store
    of bytes per address.  [memcpy] copies [size] bytes between the two. *)

Record VKDeviceMemoryRegion := {
  GetParentChunk : Handle;
  GetOffset      : Z;
  GetSize        : Z
}.

(** [GetMemoryRegion] of a buffer returns a pointer that may be null. *)
Record VKDeviceBuffer := { GetMemoryRegion : option VKDeviceMemoryRegion }.

Record Memory := {
  deviceBytes : Handle -> Z -> Byte.byte;
  hostBytes   : Z -> Byte.byte
}.

Inductive Outcome := Returned | Thrown (what : string).

(** [VKDeviceMemory::Map] is defined in Memory/VKDeviceMemory.cpp.  The callers
    here only test its result against null; a
    result that is not null addresses the bytes of the chunk from the offset
    passed in.  [Map chunk offset size] says whether the result is non-null. *)
Variable Map : Handle -> Z -> Z -> bool.

Definition memcpy_to_device (m : Memory) (chunk : Handle) (memory : Z)
    (data : Z) (size : Z) : Memory :=
  {| deviceBytes := fun c a =>
       if (c =? chunk) && (memory <=? a) && (a <? memory + size)
       then hostBytes m (data + (a - memory))
       else deviceBytes m c a;
     hostBytes := hostBytes m |}.

Definition memcpy_to_host (m : Memory) (data : Z) (chunk : Handle)
    (memory : Z) (size : Z) : Memory :=
  {| deviceBytes := deviceBytes m;
     hostBytes := fun a =>
       if (data <=? a) && (a <? data + size)
       then deviceBytes m chunk (memory + (a - data))
       else hostBytes m a |}.

Definition WriteBuffer (buffer : VKDeviceBuffer) (data : Z) (size offset : Z)
    (m : Memory) : Outcome * Memory :=
  match GetMemoryRegion buffer with
  | Some region =>
      (* Map buffer memory to host memory *)
      let deviceMemory := GetParentChunk region in
      let at_ := uint64 (GetOffset region + offset) in
      if Map deviceMemory at_ size then
        (* Copy input data to buffer memory *)
        (Returned, memcpy_to_device m deviceMemory at_ data size)
      else (Returned, m)
  | None => (Returned, m)
  end.

Definition ReadBuffer (buffer : VKDeviceBuffer) (data : Z) (size offset : Z)
    (m : Memory) : Outcome * Memory :=
  match GetMemoryRegion buffer with
  | Some region =>
      (* Map buffer memory to host memory *)
      let deviceMemory := GetParentChunk region in
      let at_ := uint64 (GetOffset region + offset) in
      if Map deviceMemory at_ size then
        (* Copy buffer memory to output data *)
        (Returned, memcpy_to_host m data deviceMemory at_ size)
      else (Returned, m)
  | None => (Returned, m)
  end.

End Device.




End VKDevice.

(** ** VKRenderContext.cpp *)

Module VKRenderContext.

Definition VK_PRESENT_MODE_IMMEDIATE_KHR : Z := 0.
Definition VK_PRESENT_MODE_MAILBOX_KHR   : Z := 1.
Definition VK_PRESENT_MODE_FIFO_KHR      : Z := 2.
Definition VK_COLOR_SPACE_SRGB_NONLINEAR_KHR : Z := 0.
Definition VK_SHARING_MODE_EXCLUSIVE  : Z := 0.
Definition VK_SHARING_MODE_CONCURRENT : Z := 1.
Definition VK_COMPOSITE_ALPHA_OPAQUE_BIT_KHR   : Z := 1.
Definition VK_IMAGE_USAGE_COLOR_ATTACHMENT_BIT : Z := 16.
Definition VK_QUEUE_GRAPHICS_BIT : Z := 1.
Definition VK_TRUE : Z := 1.
Definition UINT64_MAX : Z := 2 ^ 64 - 1.

(** LLGL's own extent type. *)
Record Extent2D := { res_width : Z; res_height : Z }.

Record VkSurfaceFormatKHR := { sf_format : VkFormat; colorSpace : Z }.

Record VkSurfaceCapabilitiesKHR := {
  minImageCount    : Z;
  maxImageCount    : Z;
  minImageExtent   : VkExtent2D;
  maxImageExtent   : VkExtent2D;
  currentTransform : Z
}.

Record SurfaceSupportDetails := {
  caps         : VkSurfaceCapabilitiesKHR;
  formats      : list VkSurfaceFormatKHR;
  presentModes : list Z
}.

Record QueueFamilyIndices := { graphicsFamily : Z; presentFamily : Z }.

Record VkSwapchainCreateInfoKHR := {
  ci_surface          : Handle;
  ci_minImageCount    : Z;
  imageFormat         : VkFormat;
  imageColorSpace     : Z;
  imageExtent         : VkExtent2D;
  imageArrayLayers    : Z;
  imageUsage          : Z;
  imageSharingMode    : Z;
  pQueueFamilyIndices : list Z;
  preTransform        : Z;
  compositeAlpha      : Z;
  ci_presentMode      : Z;
  clipped             : Z;
  oldSwapchain        : Handle
}.

Record VkSubmitInfo := {
  pWaitSemaphores   : list Handle;
  pWaitDstStageMask : list VkPipelineStageFlags;
  pCommandBuffers   : list Handle;
  pSignalSemaphores : list Handle
}.

Record VkPresentInfoKHR := {
  present_pWaitSemaphores : list Handle;
  pSwapchains             : list Handle;
  pImageIndices           : list Z
}.

Record VkFramebufferCreateInfo := {
  fb_renderPass : Handle;
  pAttachments  : list Handle;
  fb_width      : Z;
  fb_height     : Z;
  fb_layers     : Z
}.

(** Everything the render context asks of the outside: the Vulkan driver, the
    window surface, and the helper classes of other translation units
    ([VKDepthStencilBuffer], [VKColorBuffer], the functions of VKCore). *)
Inductive Call :=
| vkQueueWaitIdle (queue : Handle)
| vkDestroy (object : Handle)
| vkCreateSemaphore (device : Handle)
| GetNativeHandle
| vkCreateSurfaceKHR (instance window : Handle)
| VKQuerySurfaceSupport (physicalDevice surface : Handle)
| VKFindQueueFamilies (physicalDevice : Handle) (flags : Z) (surface : Handle)
| vkGetDeviceQueue (device : Handle) (queueFamilyIndex queueIndex : Z)
| vkCreateSwapchainKHR (device : Handle) (createInfo : VkSwapchainCreateInfoKHR)
| vkGetSwapchainImagesKHR (device swapchain : Handle) (count : Z) (withImages : bool)
| vkCreateImageView (device image : Handle) (format : VkFormat)
| vkAcquireNextImageKHR (device swapchain : Handle) (timeout : Z)
                        (semaphore fence : Handle)
| DepthStencilBuffer_Create (resolution : Extent2D) (format : VkFormat) (samples : Z)
| DepthStencilBuffer_Release
| ColorBuffer_Create (i : Z) (resolution : Extent2D) (format : VkFormat) (samples : Z)
| ColorBuffer_Release (i : Z)
| vkCreateFramebuffer (device : Handle) (createInfo : VkFramebufferCreateInfo)
| vkQueueSubmit (queue : Handle) (submit : VkSubmitInfo) (fence : Handle)
| vkQueuePresentKHR (queue : Handle) (presentInfo : VkPresentInfoKHR).

(** What comes back from a call: its [VkResult], and whatever it writes through
    its output parameters.  A call reads the members it has use for. *)
Record Answer := {
  result   : VkResult;
  object   : Handle;
  count    : Z;
  images   : Z -> Handle;
  families : QueueFamilyIndices;
  support  : SurfaceSupportDetails;
  index    : Z -> Z;
  thrown   : option string
}.

Record Context := {
  instance_                : Handle;
  physicalDevice_          : Handle;
  device_                  : Handle;
  surface_                 : Handle;
  surfaceSupportDetails_   : SurfaceSupportDetails;
  swapChain_               : Handle;
  swapChainRenderPass_     : Handle;
  swapChainFormat_         : VkSurfaceFormatKHR;
  swapChainSamples_        : Z;
  swapChainExtent_         : VkExtent2D;
  swapChainImages_         : Z -> Handle;
  swapChainImageViews_     : Z -> Handle;
  swapChainFramebuffers_   : Z -> Handle;
  numSwapChainBuffers_     : Z;
  presentImageIndex_       : Z;
  vsyncInterval_           : Z;
  depthStencilFormat_      : VkFormat;
  depthStencilBuffer_      : Handle;
  colorBuffers_            : Z -> Handle;
  graphicsQueue_           : Handle;
  presentQueue_            : Handle;
  imageAvailableSemaphore_ : Handle;
  renderFinishedSemaphore_ : Handle
}.

(** Assignments to single members of the context. *)
Definition set_surface_ (v : Handle) (c : Context) : Context :=
  {| instance_ := instance_ c; physicalDevice_ := physicalDevice_ c; device_ := device_ c;
     surface_ := v; surfaceSupportDetails_ := surfaceSupportDetails_ c;
     swapChain_ := swapChain_ c; swapChainRenderPass_ := swapChainRenderPass_ c;
     swapChainFormat_ := swapChainFormat_ c; swapChainSamples_ := swapChainSamples_ c;
     swapChainExtent_ := swapChainExtent_ c; swapChainImages_ := swapChainImages_ c;
     swapChainImageViews_ := swapChainImageViews_ c;
     swapChainFramebuffers_ := swapChainFramebuffers_ c;
     numSwapChainBuffers_ := numSwapChainBuffers_ c;
     presentImageIndex_ := presentImageIndex_ c; vsyncInterval_ := vsyncInterval_ c;
     depthStencilFormat_ := depthStencilFormat_ c;
     depthStencilBuffer_ := depthStencilBuffer_ c; colorBuffers_ := colorBuffers_ c;
     graphicsQueue_ := graphicsQueue_ c; presentQueue_ := presentQueue_ c;
     imageAvailableSemaphore_ := imageAvailableSemaphore_ c;
     renderFinishedSemaphore_ := renderFinishedSemaphore_ c |}.

Definition set_surfaceSupportDetails_ (v : SurfaceSupportDetails) (c : Context) : Context :=
  {| instance_ := instance_ c; physicalDevice_ := physicalDevice_ c; device_ := device_ c;
     surface_ := surface_ c; surfaceSupportDetails_ := v; swapChain_ := swapChain_ c;
     swapChainRenderPass_ := swapChainRenderPass_ c; swapChainFormat_ := swapChainFormat_ c;
     swapChainSamples_ := swapChainSamples_ c; swapChainExtent_ := swapChainExtent_ c;
     swapChainImages_ := swapChainImages_ c; swapChainImageViews_ := swapChainImageViews_ c;
     swapChainFramebuffers_ := swapChainFramebuffers_ c;
     numSwapChainBuffers_ := numSwapChainBuffers_ c;
     presentImageIndex_ := presentImageIndex_ c; vsyncInterval_ := vsyncInterval_ c;
     depthStencilFormat_ := depthStencilFormat_ c;
     depthStencilBuffer_ := depthStencilBuffer_ c; colorBuffers_ := colorBuffers_ c;
     graphicsQueue_ := graphicsQueue_ c; presentQueue_ := presentQueue_ c;
     imageAvailableSemaphore_ := imageAvailableSemaphore_ c;
     renderFinishedSemaphore_ := renderFinishedSemaphore_ c |}.

Definition set_swapChain_ (v : Handle) (c : Context) : Context :=
  {| instance_ := instance_ c; physicalDevice_ := physicalDevice_ c; device_ := device_ c;
     surface_ := surface_ c; surfaceSupportDetails_ := surfaceSupportDetails_ c;
     swapChain_ := v; swapChainRenderPass_ := swapChainRenderPass_ c;
     swapChainFormat_ := swapChainFormat_ c; swapChainSamples_ := swapChainSamples_ c;
     swapChainExtent_ := swapChainExtent_ c; swapChainImages_ := swapChainImages_ c;
     swapChainImageViews_ := swapChainImageViews_ c;
     swapChainFramebuffers_ := swapChainFramebuffers_ c;
     numSwapChainBuffers_ := numSwapChainBuffers_ c;
     presentImageIndex_ := presentImageIndex_ c; vsyncInterval_ := vsyncInterval_ c;
     depthStencilFormat_ := depthStencilFormat_ c;
     depthStencilBuffer_ := depthStencilBuffer_ c; colorBuffers_ := colorBuffers_ c;
     graphicsQueue_ := graphicsQueue_ c; presentQueue_ := presentQueue_ c;
     imageAvailableSemaphore_ := imageAvailableSemaphore_ c;
     renderFinishedSemaphore_ := renderFinishedSemaphore_ c |}.

Definition set_swapChainFormat_ (v : VkSurfaceFormatKHR) (c : Context) : Context :=
  {| instance_ := instance_ c; physicalDevice_ := physicalDevice_ c; device_ := device_ c;
     surface_ := surface_ c; surfaceSupportDetails_ := surfaceSupportDetails_ c;
     swapChain_ := swapChain_ c; swapChainRenderPass_ := swapChainRenderPass_ c;
     swapChainFormat_ := v; swapChainSamples_ := swapChainSamples_ c;
     swapChainExtent_ := swapChainExtent_ c; swapChainImages_ := swapChainImages_ c;
     swapChainImageViews_ := swapChainImageViews_ c;
     swapChainFramebuffers_ := swapChainFramebuffers_ c;
     numSwapChainBuffers_ := numSwapChainBuffers_ c;
     presentImageIndex_ := presentImageIndex_ c; vsyncInterval_ := vsyncInterval_ c;
     depthStencilFormat_ := depthStencilFormat_ c;
     depthStencilBuffer_ := depthStencilBuffer_ c; colorBuffers_ := colorBuffers_ c;
     graphicsQueue_ := graphicsQueue_ c; presentQueue_ := presentQueue_ c;
     imageAvailableSemaphore_ := imageAvailableSemaphore_ c;
     renderFinishedSemaphore_ := renderFinishedSemaphore_ c |}.

Definition set_swapChainExtent_ (v : VkExtent2D) (c : Context) : Context :=
  {| instance_ := instance_ c; physicalDevice_ := physicalDevice_ c; device_ := device_ c;
     surface_ := surface_ c; surfaceSupportDetails_ := surfaceSupportDetails_ c;
     swapChain_ := swapChain_ c; swapChainRenderPass_ := swapChainRenderPass_ c;
     swapChainFormat_ := swapChainFormat_ c; swapChainSamples_ := swapChainSamples_ c;
     swapChainExtent_ := v; swapChainImages_ := swapChainImages_ c;
     swapChainImageViews_ := swapChainImageViews_ c;
     swapChainFramebuffers_ := swapChainFramebuffers_ c;
     numSwapChainBuffers_ := numSwapChainBuffers_ c;
     presentImageIndex_ := presentImageIndex_ c; vsyncInterval_ := vsyncInterval_ c;
     depthStencilFormat_ := depthStencilFormat_ c;
     depthStencilBuffer_ := depthStencilBuffer_ c; colorBuffers_ := colorBuffers_ c;
     graphicsQueue_ := graphicsQueue_ c; presentQueue_ := presentQueue_ c;
     imageAvailableSemaphore_ := imageAvailableSemaphore_ c;
     renderFinishedSemaphore_ := renderFinishedSemaphore_ c |}.

Definition set_swapChainImages_ (v : Z -> Handle) (c : Context) : Context :=
  {| instance_ := instance_ c; physicalDevice_ := physicalDevice_ c; device_ := device_ c;
     surface_ := surface_ c; surfaceSupportDetails_ := surfaceSupportDetails_ c;
     swapChain_ := swapChain_ c; swapChainRenderPass_ := swapChainRenderPass_ c;
     swapChainFormat_ := swapChainFormat_ c; swapChainSamples_ := swapChainSamples_ c;
     swapChainExtent_ := swapChainExtent_ c; swapChainImages_ := v;
     swapChainImageViews_ := swapChainImageViews_ c;
     swapChainFramebuffers_ := swapChainFramebuffers_ c;
     numSwapChainBuffers_ := numSwapChainBuffers_ c;
     presentImageIndex_ := presentImageIndex_ c; vsyncInterval_ := vsyncInterval_ c;
     depthStencilFormat_ := depthStencilFormat_ c;
     depthStencilBuffer_ := depthStencilBuffer_ c; colorBuffers_ := colorBuffers_ c;
     graphicsQueue_ := graphicsQueue_ c; presentQueue_ := presentQueue_ c;
     imageAvailableSemaphore_ := imageAvailableSemaphore_ c;
     renderFinishedSemaphore_ := renderFinishedSemaphore_ c |}.

Definition set_swapChainImageViews_ (v : Z -> Handle) (c : Context) : Context :=
  {| instance_ := instance_ c; physicalDevice_ := physicalDevice_ c; device_ := device_ c;
     surface_ := surface_ c; surfaceSupportDetails_ := surfaceSupportDetails_ c;
     swapChain_ := swapChain_ c; swapChainRenderPass_ := swapChainRenderPass_ c;
     swapChainFormat_ := swapChainFormat_ c; swapChainSamples_ := swapChainSamples_ c;
     swapChainExtent_ := swapChainExtent_ c; swapChainImages_ := swapChainImages_ c;
     swapChainImageViews_ := v; swapChainFramebuffers_ := swapChainFramebuffers_ c;
     numSwapChainBuffers_ := numSwapChainBuffers_ c;
     presentImageIndex_ := presentImageIndex_ c; vsyncInterval_ := vsyncInterval_ c;
     depthStencilFormat_ := depthStencilFormat_ c;
     depthStencilBuffer_ := depthStencilBuffer_ c; colorBuffers_ := colorBuffers_ c;
     graphicsQueue_ := graphicsQueue_ c; presentQueue_ := presentQueue_ c;
     imageAvailableSemaphore_ := imageAvailableSemaphore_ c;
     renderFinishedSemaphore_ := renderFinishedSemaphore_ c |}.

Definition set_swapChainFramebuffers_ (v : Z -> Handle) (c : Context) : Context :=
  {| instance_ := instance_ c; physicalDevice_ := physicalDevice_ c; device_ := device_ c;
     surface_ := surface_ c; surfaceSupportDetails_ := surfaceSupportDetails_ c;
     swapChain_ := swapChain_ c; swapChainRenderPass_ := swapChainRenderPass_ c;
     swapChainFormat_ := swapChainFormat_ c; swapChainSamples_ := swapChainSamples_ c;
     swapChainExtent_ := swapChainExtent_ c; swapChainImages_ := swapChainImages_ c;
     swapChainImageViews_ := swapChainImageViews_ c; swapChainFramebuffers_ := v;
     numSwapChainBuffers_ := numSwapChainBuffers_ c;
     presentImageIndex_ := presentImageIndex_ c; vsyncInterval_ := vsyncInterval_ c;
     depthStencilFormat_ := depthStencilFormat_ c;
     depthStencilBuffer_ := depthStencilBuffer_ c; colorBuffers_ := colorBuffers_ c;
     graphicsQueue_ := graphicsQueue_ c; presentQueue_ := presentQueue_ c;
     imageAvailableSemaphore_ := imageAvailableSemaphore_ c;
     renderFinishedSemaphore_ := renderFinishedSemaphore_ c |}.

Definition set_numSwapChainBuffers_ (v : Z) (c : Context) : Context :=
  {| instance_ := instance_ c; physicalDevice_ := physicalDevice_ c; device_ := device_ c;
     surface_ := surface_ c; surfaceSupportDetails_ := surfaceSupportDetails_ c;
     swapChain_ := swapChain_ c; swapChainRenderPass_ := swapChainRenderPass_ c;
     swapChainFormat_ := swapChainFormat_ c; swapChainSamples_ := swapChainSamples_ c;
     swapChainExtent_ := swapChainExtent_ c; swapChainImages_ := swapChainImages_ c;
     swapChainImageViews_ := swapChainImageViews_ c;
     swapChainFramebuffers_ := swapChainFramebuffers_ c; numSwapChainBuffers_ := v;
     presentImageIndex_ := presentImageIndex_ c; vsyncInterval_ := vsyncInterval_ c;
     depthStencilFormat_ := depthStencilFormat_ c;
     depthStencilBuffer_ := depthStencilBuffer_ c; colorBuffers_ := colorBuffers_ c;
     graphicsQueue_ := graphicsQueue_ c; presentQueue_ := presentQueue_ c;
     imageAvailableSemaphore_ := imageAvailableSemaphore_ c;
     renderFinishedSemaphore_ := renderFinishedSemaphore_ c |}.

Definition set_presentImageIndex_ (v : Z) (c : Context) : Context :=
  {| instance_ := instance_ c; physicalDevice_ := physicalDevice_ c; device_ := device_ c;
     surface_ := surface_ c; surfaceSupportDetails_ := surfaceSupportDetails_ c;
     swapChain_ := swapChain_ c; swapChainRenderPass_ := swapChainRenderPass_ c;
     swapChainFormat_ := swapChainFormat_ c; swapChainSamples_ := swapChainSamples_ c;
     swapChainExtent_ := swapChainExtent_ c; swapChainImages_ := swapChainImages_ c;
     swapChainImageViews_ := swapChainImageViews_ c;
     swapChainFramebuffers_ := swapChainFramebuffers_ c;
     numSwapChainBuffers_ := numSwapChainBuffers_ c; presentImageIndex_ := v;
     vsyncInterval_ := vsyncInterval_ c; depthStencilFormat_ := depthStencilFormat_ c;
     depthStencilBuffer_ := depthStencilBuffer_ c; colorBuffers_ := colorBuffers_ c;
     graphicsQueue_ := graphicsQueue_ c; presentQueue_ := presentQueue_ c;
     imageAvailableSemaphore_ := imageAvailableSemaphore_ c;
     renderFinishedSemaphore_ := renderFinishedSemaphore_ c |}.

Definition set_vsyncInterval_ (v : Z) (c : Context) : Context :=
  {| instance_ := instance_ c; physicalDevice_ := physicalDevice_ c; device_ := device_ c;
     surface_ := surface_ c; surfaceSupportDetails_ := surfaceSupportDetails_ c;
     swapChain_ := swapChain_ c; swapChainRenderPass_ := swapChainRenderPass_ c;
     swapChainFormat_ := swapChainFormat_ c; swapChainSamples_ := swapChainSamples_ c;
     swapChainExtent_ := swapChainExtent_ c; swapChainImages_ := swapChainImages_ c;
     swapChainImageViews_ := swapChainImageViews_ c;
     swapChainFramebuffers_ := swapChainFramebuffers_ c;
     numSwapChainBuffers_ := numSwapChainBuffers_ c;
     presentImageIndex_ := presentImageIndex_ c; vsyncInterval_ := v;
     depthStencilFormat_ := depthStencilFormat_ c;
     depthStencilBuffer_ := depthStencilBuffer_ c; colorBuffers_ := colorBuffers_ c;
     graphicsQueue_ := graphicsQueue_ c; presentQueue_ := presentQueue_ c;
     imageAvailableSemaphore_ := imageAvailableSemaphore_ c;
     renderFinishedSemaphore_ := renderFinishedSemaphore_ c |}.

Definition set_depthStencilBuffer_ (v : Handle) (c : Context) : Context :=
  {| instance_ := instance_ c; physicalDevice_ := physicalDevice_ c; device_ := device_ c;
     surface_ := surface_ c; surfaceSupportDetails_ := surfaceSupportDetails_ c;
     swapChain_ := swapChain_ c; swapChainRenderPass_ := swapChainRenderPass_ c;
     swapChainFormat_ := swapChainFormat_ c; swapChainSamples_ := swapChainSamples_ c;
     swapChainExtent_ := swapChainExtent_ c; swapChainImages_ := swapChainImages_ c;
     swapChainImageViews_ := swapChainImageViews_ c;
     swapChainFramebuffers_ := swapChainFramebuffers_ c;
     numSwapChainBuffers_ := numSwapChainBuffers_ c;
     presentImageIndex_ := presentImageIndex_ c; vsyncInterval_ := vsyncInterval_ c;
     depthStencilFormat_ := depthStencilFormat_ c; depthStencilBuffer_ := v;
     colorBuffers_ := colorBuffers_ c; graphicsQueue_ := graphicsQueue_ c;
     presentQueue_ := presentQueue_ c;
     imageAvailableSemaphore_ := imageAvailableSemaphore_ c;
     renderFinishedSemaphore_ := renderFinishedSemaphore_ c |}.

Definition set_colorBuffers_ (v : Z -> Handle) (c : Context) : Context :=
  {| instance_ := instance_ c; physicalDevice_ := physicalDevice_ c; device_ := device_ c;
     surface_ := surface_ c; surfaceSupportDetails_ := surfaceSupportDetails_ c;
     swapChain_ := swapChain_ c; swapChainRenderPass_ := swapChainRenderPass_ c;
     swapChainFormat_ := swapChainFormat_ c; swapChainSamples_ := swapChainSamples_ c;
     swapChainExtent_ := swapChainExtent_ c; swapChainImages_ := swapChainImages_ c;
     swapChainImageViews_ := swapChainImageViews_ c;
     swapChainFramebuffers_ := swapChainFramebuffers_ c;
     numSwapChainBuffers_ := numSwapChainBuffers_ c;
     presentImageIndex_ := presentImageIndex_ c; vsyncInterval_ := vsyncInterval_ c;
     depthStencilFormat_ := depthStencilFormat_ c;
     depthStencilBuffer_ := depthStencilBuffer_ c; colorBuffers_ := v;
     graphicsQueue_ := graphicsQueue_ c; presentQueue_ := presentQueue_ c;
     imageAvailableSemaphore_ := imageAvailableSemaphore_ c;
     renderFinishedSemaphore_ := renderFinishedSemaphore_ c |}.

Definition set_graphicsQueue_ (v : Handle) (c : Context) : Context :=
  {| instance_ := instance_ c; physicalDevice_ := physicalDevice_ c; device_ := device_ c;
     surface_ := surface_ c; surfaceSupportDetails_ := surfaceSupportDetails_ c;
     swapChain_ := swapChain_ c; swapChainRenderPass_ := swapChainRenderPass_ c;
     swapChainFormat_ := swapChainFormat_ c; swapChainSamples_ := swapChainSamples_ c;
     swapChainExtent_ := swapChainExtent_ c; swapChainImages_ := swapChainImages_ c;
     swapChainImageViews_ := swapChainImageViews_ c;
     swapChainFramebuffers_ := swapChainFramebuffers_ c;
     numSwapChainBuffers_ := numSwapChainBuffers_ c;
     presentImageIndex_ := presentImageIndex_ c; vsyncInterval_ := vsyncInterval_ c;
     depthStencilFormat_ := depthStencilFormat_ c;
     depthStencilBuffer_ := depthStencilBuffer_ c; colorBuffers_ := colorBuffers_ c;
     graphicsQueue_ := v; presentQueue_ := presentQueue_ c;
     imageAvailableSemaphore_ := imageAvailableSemaphore_ c;
     renderFinishedSemaphore_ := renderFinishedSemaphore_ c |}.

Definition set_presentQueue_ (v : Handle) (c : Context) : Context :=
  {| instance_ := instance_ c; physicalDevice_ := physicalDevice_ c; device_ := device_ c;
     surface_ := surface_ c; surfaceSupportDetails_ := surfaceSupportDetails_ c;
     swapChain_ := swapChain_ c; swapChainRenderPass_ := swapChainRenderPass_ c;
     swapChainFormat_ := swapChainFormat_ c; swapChainSamples_ := swapChainSamples_ c;
     swapChainExtent_ := swapChainExtent_ c; swapChainImages_ := swapChainImages_ c;
     swapChainImageViews_ := swapChainImageViews_ c;
     swapChainFramebuffers_ := swapChainFramebuffers_ c;
     numSwapChainBuffers_ := numSwapChainBuffers_ c;
     presentImageIndex_ := presentImageIndex_ c; vsyncInterval_ := vsyncInterval_ c;
     depthStencilFormat_ := depthStencilFormat_ c;
     depthStencilBuffer_ := depthStencilBuffer_ c; colorBuffers_ := colorBuffers_ c;
     graphicsQueue_ := graphicsQueue_ c; presentQueue_ := v;
     imageAvailableSemaphore_ := imageAvailableSemaphore_ c;
     renderFinishedSemaphore_ := renderFinishedSemaphore_ c |}.

Definition set_imageAvailableSemaphore_ (v : Handle) (c : Context) : Context :=
  {| instance_ := instance_ c; physicalDevice_ := physicalDevice_ c; device_ := device_ c;
     surface_ := surface_ c; surfaceSupportDetails_ := surfaceSupportDetails_ c;
     swapChain_ := swapChain_ c; swapChainRenderPass_ := swapChainRenderPass_ c;
     swapChainFormat_ := swapChainFormat_ c; swapChainSamples_ := swapChainSamples_ c;
     swapChainExtent_ := swapChainExtent_ c; swapChainImages_ := swapChainImages_ c;
     swapChainImageViews_ := swapChainImageViews_ c;
     swapChainFramebuffers_ := swapChainFramebuffers_ c;
     numSwapChainBuffers_ := numSwapChainBuffers_ c;
     presentImageIndex_ := presentImageIndex_ c; vsyncInterval_ := vsyncInterval_ c;
     depthStencilFormat_ := depthStencilFormat_ c;
     depthStencilBuffer_ := depthStencilBuffer_ c; colorBuffers_ := colorBuffers_ c;
     graphicsQueue_ := graphicsQueue_ c; presentQueue_ := presentQueue_ c;
     imageAvailableSemaphore_ := v; renderFinishedSemaphore_ := renderFinishedSemaphore_ c |}.

Definition set_renderFinishedSemaphore_ (v : Handle) (c : Context) : Context :=
  {| instance_ := instance_ c; physicalDevice_ := physicalDevice_ c; device_ := device_ c;
     surface_ := surface_ c; surfaceSupportDetails_ := surfaceSupportDetails_ c;
     swapChain_ := swapChain_ c; swapChainRenderPass_ := swapChainRenderPass_ c;
     swapChainFormat_ := swapChainFormat_ c; swapChainSamples_ := swapChainSamples_ c;
     swapChainExtent_ := swapChainExtent_ c; swapChainImages_ := swapChainImages_ c;
     swapChainImageViews_ := swapChainImageViews_ c;
     swapChainFramebuffers_ := swapChainFramebuffers_ c;
     numSwapChainBuffers_ := numSwapChainBuffers_ c;
     presentImageIndex_ := presentImageIndex_ c; vsyncInterval_ := vsyncInterval_ c;
     depthStencilFormat_ := depthStencilFormat_ c;
     depthStencilBuffer_ := depthStencilBuffer_ c; colorBuffers_ := colorBuffers_ c;
     graphicsQueue_ := graphicsQueue_ c; presentQueue_ := presentQueue_ c;
     imageAvailableSemaphore_ := imageAvailableSemaphore_ c; renderFinishedSemaphore_ := v |}.

Definition upd (a : Z -> Handle) (i : Z) (v : Handle) : Z -> Handle :=
  fun j => if j =? i then v else a j.

(** The arrays [swapChainImages_], [swapChainImageViews_],
    [swapChainFramebuffers_] and [colorBuffers_] have this many entries
    (VKRenderContext.h); the maps above stand for them at the indices below
    it, and no code reads or writes them anywhere else. *)
Definition g_maxNumColorBuffers : Z := 3.

(** The context together with the calls made so far, oldest first. *)
Record World := { ctx : Context; trace : list Call }.

(** How code ends: it returns, it throws, or it indexes an array past its end,
    from where on the behaviour of the program is undefined. *)
Inductive Result (A : Type) :=
| Ok (a : A)
| Throw (what : string)
| Undefined.
Arguments Ok {A} a.
Arguments Throw {A} what.
Arguments Undefined {A}.

(** Code that changes the context, calls out, and may throw.  An exception
    leaves the context as far as it had been changed; where the behaviour
    becomes undefined the run is followed no further. *)
Definition M (A : Type) : Type := World -> Result A * World.

Definition ret {A} (a : A) : M A := fun w => (Ok a, w).

Definition bind {A B} (m : M A) (k : A -> M B) : M B :=
  fun w => match m w with
           | (Ok a, w') => k a w'
           | (Throw what, w') => (Throw what, w')
           | (Undefined, w') => (Undefined, w')
           end.

Notation "x <- m ;; k" := (bind m (fun x => k))
  (at level 61, m at next level, right associativity).
Notation "m ;; k" := (bind m (fun _ => k))
  (at level 61, right associativity).

Definition throw {A} (what : string) : M A := fun w => (Throw what, w).

Definition undefined {A} : M A := fun w => (Undefined, w).

Definition this : M Context := fun w => (Ok (ctx w), w).

Definition assign (f : Context -> Context) : M unit :=
  fun w => (Ok tt, {| ctx := f (ctx w); trace := trace w |}).

(** Entry [i] of one of the arrays of [g_maxNumColorBuffers] entries is about
    to be read or written. *)
Definition at_index (i : Z) : M unit :=
  if i <? g_maxNumColorBuffers then ret tt else undefined.

(** The first [n] entries of an array are written from [new]. *)
Definition write_first (n : Z) (new old : Z -> Handle) : Z -> Handle :=
  fun i => if i <? n then new i else old i.

Fixpoint for_loopM (n : nat) (i : Z) (body : Z -> M unit) : M unit :=
  match n with
  | O => ret tt
  | S n' => body i ;; for_loopM n' (i + 1) body
  end.

(** [for (std::uint32_t i = 0; i < last; ++i) body] *)
Definition for_each_index (last : Z) (body : Z -> M unit) : M unit :=
  for_loopM (Z.to_nat last) 0 body.

(** Code only ever adds calls at the end of the trace. *)
Definition extends {A} (m : M A) : Prop :=
  forall w, exists t, trace (snd (m w)) = trace w ++ t.

(** Every call code adds to the trace passes the test [p]. *)
Definition emits {A} (p : Call -> bool) (m : M A) : Prop :=
  forall w, exists t, trace (snd (m w)) = trace w ++ t /\ forallb p t = true.

(** How many calls of a trace pass the test [p]. *)
Definition tally (p : Call -> bool) (t : list Call) : nat :=
  List.length (filter p t).

Definition creates_image_view (c : Call) : bool :=
  match c with vkCreateImageView _ _ _ => true | _ => false end.

Definition creates_framebuffer (c : Call) : bool :=
  match c with vkCreateFramebuffer _ _ => true | _ => false end.

(** The context code ends in is related by [R] to the one it starts in,
    however it ends. *)
Definition relates {A} (R : Context -> Context -> Prop) (m : M A) : Prop :=
  forall w, R (ctx w) (ctx (snd (m w))).

(** Calls that idle the queue, recreate the surface or touch the depth-stencil
    and multi-sampled colour buffers. *)
Definition heavy (c : Call) : bool :=
  match c with
  | vkQueueWaitIdle _ | vkCreateSurfaceKHR _ _ | vkCreateSemaphore _
  | DepthStencilBuffer_Create _ _ _ | DepthStencilBuffer_Release
  | ColorBuffer_Create _ _ _ _ | ColorBuffer_Release _ => true
  | _ => false
  end.

Definition within (lo hi : VkExtent2D) (resolution : Extent2D) : Prop :=
  width2 lo <= res_width resolution <= width2 hi /\
  height2 lo <= res_height resolution <= height2 hi.

Inductive Platform := LLGL_OS_WIN32 | LLGL_OS_LINUX | LLGL_OS_OTHER.

Definition VK_FORMAT_D16_UNORM          : VkFormat := 124.
Definition VK_FORMAT_D32_SFLOAT         : VkFormat := 126.
Definition VK_FORMAT_D16_UNORM_S8_UINT  : VkFormat := 128.
Definition VK_FORMAT_D24_UNORM_S8_UINT  : VkFormat := 129.
Definition VK_FORMAT_D32_SFLOAT_S8_UINT : VkFormat := 130.

(** The formats of the list above that have a stencil part. *)
Definition has_stencil (f : VkFormat) : bool :=
  (f =? VK_FORMAT_D16_UNORM_S8_UINT) || (f =? VK_FORMAT_D24_UNORM_S8_UINT) ||
  (f =? VK_FORMAT_D32_SFLOAT_S8_UINT).

Definition GetDepthStencilFormatPreference (depthBits stencilBits : Z) : list VkFormat :=
  let fallback := [VK_FORMAT_D24_UNORM_S8_UINT; VK_FORMAT_D16_UNORM_S8_UINT;
                   VK_FORMAT_D32_SFLOAT; VK_FORMAT_D16_UNORM] in
  if stencilBits =? 0 then
    if depthBits =? 32
    then [VK_FORMAT_D32_SFLOAT; VK_FORMAT_D24_UNORM_S8_UINT;
          VK_FORMAT_D16_UNORM_S8_UINT; VK_FORMAT_D16_UNORM]
    else fallback
  else
    if depthBits =? 32
    then [VK_FORMAT_D32_SFLOAT_S8_UINT; VK_FORMAT_D24_UNORM_S8_UINT;
          VK_FORMAT_D16_UNORM_S8_UINT]
    else fallback.

(** *** Picking swap-chain parameters (no effects) *)

Definition PickSwapSurfaceFormat (surfaceFormats : list VkSurfaceFormatKHR)
  : Result VkSurfaceFormatKHR :=
  match surfaceFormats with
  | [] => Throw "no Vulkan surface formats available"
  | front :: rest =>
      if (Z.of_nat (List.length surfaceFormats) =? 1) && (sf_format front =? VK_FORMAT_UNDEFINED)
      then Ok {| sf_format := VK_FORMAT_B8G8R8A8_UNORM;
                 colorSpace := VK_COLOR_SPACE_SRGB_NONLINEAR_KHR |}
      else
        match find (fun f => (sf_format f =? VK_FORMAT_B8G8R8A8_UNORM) &&
                             (colorSpace f =? VK_COLOR_SPACE_SRGB_NONLINEAR_KHR))
                   surfaceFormats with
        | Some f => Ok f
        | None => Ok front
        end
  end.

Definition PickSwapPresentMode (presentModes : list Z) (vsyncInterval : Z) : Z :=
  if vsyncInterval =? 0 then
    match find (fun mode => (mode =? VK_PRESENT_MODE_MAILBOX_KHR) ||
                            (mode =? VK_PRESENT_MODE_IMMEDIATE_KHR)) presentModes with
    | Some mode => mode
    | None => VK_PRESENT_MODE_FIFO_KHR
    end
  else VK_PRESENT_MODE_FIFO_KHR.

Definition PickSwapExtent (surfaceCaps : VkSurfaceCapabilitiesKHR) (resolution : Extent2D)
  : VkExtent2D :=
  {| width2 := std_max (width2 (minImageExtent surfaceCaps))
                 (std_min (width2 (maxImageExtent surfaceCaps)) (res_width resolution));
     height2 := std_max (height2 (minImageExtent surfaceCaps))
                  (std_min (height2 (maxImageExtent surfaceCaps)) (res_height resolution)) |}.

Definition PickSwapChainSize (c : Context) (swapBuffers : Z) : Z :=
  std_max (minImageCount (caps (surfaceSupportDetails_ c)))
          (std_min swapBuffers (maxImageCount (caps (surfaceSupportDetails_ c)))).

Definition HasDepthStencilBuffer (c : Context) : bool :=
  negb (depthStencilFormat_ c =? VK_FORMAT_UNDEFINED).

Definition HasMultiSampling (c : Context) : bool :=
  1 <? swapChainSamples_ c.

Section Context.

(** The outside world answers a call knowing all calls made so far, the one it
    answers being the last of them. *)
Variable outside : list Call -> Answer.
Variable platform : Platform.

Definition call (c : Call) : M Answer :=
  fun w => let t := trace w ++ [c] in
           (Ok (outside t), {| ctx := ctx w; trace := t |}).

(** [VKThrowIfFailed] (VKCore.cpp) throws a [std::runtime_error] built from
    [info] unless the result is [VK_SUCCESS]. *)
Definition VKThrowIfFailed (r : VkResult) (info : string) : M unit :=
  if r =? VK_SUCCESS then ret tt else throw info.

(** [VKPtr::Release] (VKPtr.h) runs the deleter on the object it holds, if it
    holds one; [ReleaseAndGetAddressOf] does so before the handle is written
    anew. *)
Definition Release (held : Handle) : M unit :=
  if held =? VK_NULL_HANDLE then ret tt else (call (vkDestroy held) ;; ret tt).

Definition CreateGpuSemaphore (semaphore : Context -> Handle)
    (set_semaphore : Handle -> Context -> Context) : M unit :=
  c <- this ;;
  Release (semaphore c) ;;
  a <- call (vkCreateSemaphore (device_ c)) ;;
  assign (set_semaphore (object a)) ;;
  VKThrowIfFailed (result a) "failed to create Vulkan semaphore".

Definition CreatePresentSemaphores : M unit :=
  CreateGpuSemaphore imageAvailableSemaphore_ set_imageAvailableSemaphore_ ;;
  CreateGpuSemaphore renderFinishedSemaphore_ set_renderFinishedSemaphore_.

Definition CreateGpuSurface : M unit :=
  (* All previous swap-chains must be destroyed before VkSurfaceKHR can be destroyed *)
  c <- this ;;
  Release (swapChain_ c) ;;
  assign (set_swapChain_ VK_NULL_HANDLE) ;;
  nativeHandle <- call GetNativeHandle ;;
  match platform with
  | LLGL_OS_WIN32 =>
      Release (surface_ c) ;;
      a <- call (vkCreateSurfaceKHR (instance_ c) (object nativeHandle)) ;;
      assign (set_surface_ (object a)) ;;
      VKThrowIfFailed (result a) "failed to create Win32 surface for Vulkan render context"
  | LLGL_OS_LINUX =>
      Release (surface_ c) ;;
      a <- call (vkCreateSurfaceKHR (instance_ c) (object nativeHandle)) ;;
      assign (set_surface_ (object a)) ;;
      VKThrowIfFailed (result a) "failed to create Xlib surface for Vulkan render context"
  | LLGL_OS_OTHER => ret tt
  end ;;
  (* Query surface support details and pick surface format *)
  c <- this ;;
  a <- call (VKQuerySurfaceSupport (physicalDevice_ c) (surface_ c)) ;;
  assign (set_surfaceSupportDetails_ (support a)) ;;
  match PickSwapSurfaceFormat (formats (support a)) with
  | Ok f => assign (set_swapChainFormat_ f)
  | Throw what => throw what
  | Undefined => undefined
  end.

Definition AcquireNextPresentImage : M unit :=
  c <- this ;;
  a <- call (vkAcquireNextImageKHR (device_ c) (swapChain_ c) UINT64_MAX
               (imageAvailableSemaphore_ c) VK_NULL_HANDLE) ;;
  assign (set_presentImageIndex_ (index a (presentImageIndex_ c))).

Definition CreateSwapChainImageViews : M unit :=
  c <- this ;;
  for_each_index (numSwapChainBuffers_ c) (fun i =>
    c <- this ;;
    (* Update image handle in Vulkan descriptor *)
    at_index i ;;
    a <- call (vkCreateImageView (device_ c) (swapChainImages_ c i)
                 (sf_format (swapChainFormat_ c))) ;;
    (* an exception unwinds the local VKPtr that holds the new view *)
    (if result a =? VK_SUCCESS then ret tt
     else Release (object a) ;; throw "failed to create Vulkan swap-chain image view") ;;
    (* move assignment releases the view held so far *)
    Release (swapChainImageViews_ c i) ;;
    assign (fun c => set_swapChainImageViews_ (upd (swapChainImageViews_ c) i (object a)) c)).

Definition CreateSwapChain (resolution : Extent2D) (vsyncInterval : Z) : M unit :=
  (* Pick swap-chain extent by resolution *)
  assign (fun c => set_swapChainExtent_
                     (PickSwapExtent (caps (surfaceSupportDetails_ c)) resolution) c) ;;
  (* Get device queues for graphics and presentation *)
  c <- this ;;
  q <- call (VKFindQueueFamilies (physicalDevice_ c) VK_QUEUE_GRAPHICS_BIT (surface_ c)) ;;
  let queueFamilyIndices := families q in
  a <- call (vkGetDeviceQueue (device_ c) (graphicsFamily queueFamilyIndices) 0) ;;
  assign (set_graphicsQueue_ (object a)) ;;
  a <- call (vkGetDeviceQueue (device_ c) (presentFamily queueFamilyIndices) 0) ;;
  assign (set_presentQueue_ (object a)) ;;
  (* Pick swap-chain presentation mode (with v-sync parameters) *)
  let presentMode :=
    PickSwapPresentMode (presentModes (surfaceSupportDetails_ c)) vsyncInterval in
  (* Create swap-chain *)
  let shared := negb (graphicsFamily queueFamilyIndices =? presentFamily queueFamilyIndices) in
  let createInfo :=
    {| ci_surface := surface_ c;
       ci_minImageCount := numSwapChainBuffers_ c;
       imageFormat := sf_format (swapChainFormat_ c);
       imageColorSpace := colorSpace (swapChainFormat_ c);
       imageExtent := swapChainExtent_ c;
       imageArrayLayers := 1;
       imageUsage := VK_IMAGE_USAGE_COLOR_ATTACHMENT_BIT;
       imageSharingMode :=
         if shared then VK_SHARING_MODE_CONCURRENT else VK_SHARING_MODE_EXCLUSIVE;
       pQueueFamilyIndices :=
         if shared
         then [graphicsFamily queueFamilyIndices; presentFamily queueFamilyIndices]
         else [];
       preTransform := currentTransform (caps (surfaceSupportDetails_ c));
       compositeAlpha := VK_COMPOSITE_ALPHA_OPAQUE_BIT_KHR;
       ci_presentMode := presentMode;
       clipped := VK_TRUE;
       oldSwapchain := VK_NULL_HANDLE |} in
  Release (swapChain_ c) ;;
  a <- call (vkCreateSwapchainKHR (device_ c) createInfo) ;;
  assign (set_swapChain_ (object a)) ;;
  VKThrowIfFailed (result a) "failed to create Vulkan swap-chain" ;;
  (* Query swap-chain images *)
  c <- this ;;
  a <- call (vkGetSwapchainImagesKHR (device_ c) (swapChain_ c)
               (numSwapChainBuffers_ c) false) ;;
  assign (set_numSwapChainBuffers_ (count a)) ;;
  VKThrowIfFailed (result a) "failed to query number of Vulkan swap-chain images" ;;
  c <- this ;;
  a <- call (vkGetSwapchainImagesKHR (device_ c) (swapChain_ c)
               (numSwapChainBuffers_ c) true) ;;
  assign (set_numSwapChainBuffers_ (count a)) ;;
  (* the driver has written that many images into [swapChainImages_] *)
  (if count a <=? g_maxNumColorBuffers
   then assign (fun c => set_swapChainImages_
                           (write_first (count a) (images a) (swapChainImages_ c)) c)
   else undefined) ;;
  VKThrowIfFailed (result a) "failed to query Vulkan swap-chain images" ;;
  (* Create swap-chain image views *)
  CreateSwapChainImageViews ;;
  (* Acquire first image for presentation *)
  AcquireNextPresentImage.

(** The attachment array is filled in the order colour view, depth-stencil
    view, multi-sampled colour view; [numAttachments] counts the slots in use. *)
Definition CreateSwapChainFramebuffers : M unit :=
  c <- this ;;
  for_each_index (numSwapChainBuffers_ c) (fun i =>
    c <- this ;;
    (* Update image view in Vulkan descriptor *)
    at_index i ;;
    let attachments :=
      [swapChainImageViews_ c i]
      ++ (if HasDepthStencilBuffer c then [depthStencilBuffer_ c] else [])
      ++ (if HasMultiSampling c then [colorBuffers_ c i] else []) in
    let createInfo :=
      {| fb_renderPass := swapChainRenderPass_ c;
         pAttachments := attachments;
         fb_width := width2 (swapChainExtent_ c);
         fb_height := height2 (swapChainExtent_ c);
         fb_layers := 1 |} in
    a <- call (vkCreateFramebuffer (device_ c) createInfo) ;;
    (if result a =? VK_SUCCESS then ret tt
     else Release (object a) ;; throw "failed to create Vulkan swap-chain framebuffer") ;;
    Release (swapChainFramebuffers_ c i) ;;
    assign (fun c => set_swapChainFramebuffers_
                       (upd (swapChainFramebuffers_ c) i (object a)) c)).

(** [VKDepthStencilBuffer] and [VKColorBuffer] live in Texture/; creating one
    may throw, releasing one leaves it empty. *)
Definition CreateDepthStencilBuffer (resolution : Extent2D) : M unit :=
  c <- this ;;
  a <- call (DepthStencilBuffer_Create resolution (depthStencilFormat_ c)
               (swapChainSamples_ c)) ;;
  match thrown a with
  | Some what => throw what
  | None => assign (set_depthStencilBuffer_ (object a))
  end.

Definition CreateColorBuffers (resolution : Extent2D) : M unit :=
  c <- this ;;
  for_each_index (numSwapChainBuffers_ c) (fun i =>
    at_index i ;;
    a <- call (ColorBuffer_Create i resolution (sf_format (swapChainFormat_ c))
                 (swapChainSamples_ c)) ;;
    match thrown a with
    | Some what => throw what
    | None => assign (fun c => set_colorBuffers_ (upd (colorBuffers_ c) i (object a)) c)
    end).

Definition ReleaseRenderBuffers : M unit :=
  call DepthStencilBuffer_Release ;;
  assign (set_depthStencilBuffer_ VK_NULL_HANDLE) ;;
  c <- this ;;
  if HasMultiSampling c then
    for_each_index (numSwapChainBuffers_ c) (fun i =>
      at_index i ;;
      call (ColorBuffer_Release i) ;;
      assign (fun c => set_colorBuffers_ (upd (colorBuffers_ c) i VK_NULL_HANDLE) c))
  else ret tt.

Definition CreateResolutionDependentResources (resolution : Extent2D) : M unit :=
  c <- this ;;
  CreateSwapChain resolution (vsyncInterval_ c) ;;
  (if HasMultiSampling c then CreateColorBuffers resolution else ret tt) ;;
  (if negb (depthStencilFormat_ c =? VK_FORMAT_UNDEFINED)
   then CreateDepthStencilBuffer resolution else ret tt) ;;
  CreateSwapChainFramebuffers.

Definition ResizeBuffersPrimary (resolution : Extent2D) : M bool :=
  c <- this ;;
  (* Check if new resolution would actually change the swap-chain extent *)
  (if negb (width2 (swapChainExtent_ c) =? res_width resolution) ||
      negb (height2 (swapChainExtent_ c) =? res_height resolution)
   then
     (* Wait until graphics queue is idle before resources are destroyed and recreated *)
     call (vkQueueWaitIdle (graphicsQueue_ c)) ;;
     (* Recreate presenting semaphores and Vulkan surface *)
     CreatePresentSemaphores ;;
     CreateGpuSurface ;;
     (* Recreate color and depth-stencil buffers *)
     ReleaseRenderBuffers ;;
     CreateResolutionDependentResources resolution
   else ret tt) ;;
  ret true.

Definition PresentSubmitInfo (c : Context) : VkSubmitInfo :=
  {| pWaitSemaphores := [imageAvailableSemaphore_ c];
     pWaitDstStageMask := [VK_PIPELINE_STAGE_COLOR_ATTACHMENT_OUTPUT_BIT];
     pCommandBuffers := [];
     pSignalSemaphores := [renderFinishedSemaphore_ c] |}.

Definition PresentInfo (c : Context) : VkPresentInfoKHR :=
  {| present_pWaitSemaphores := [renderFinishedSemaphore_ c];
     pSwapchains := [swapChain_ c];
     pImageIndices := [presentImageIndex_ c] |}.

Definition Present : M unit :=
  c <- this ;;
  (* Submit signal semaphore to graphics queue *)
  a <- call (vkQueueSubmit (graphicsQueue_ c) (PresentSubmitInfo c) VK_NULL_HANDLE) ;;
  VKThrowIfFailed (result a) "failed to submit semaphore to Vulkan graphics queue" ;;
  (* Present result on screen *)
  a <- call (vkQueuePresentKHR (presentQueue_ c) (PresentInfo c)) ;;
  VKThrowIfFailed (result a) "failed to present Vulkan graphics queue" ;;
  (* Get image index for next presentation *)
  AcquireNextPresentImage.

(** [GetResolution] belongs to the base class [RenderContext]; it reports the
    resolution the context was last given. *)
Variable GetResolution : Extent2D.

Definition SetVsyncInterval (vsyncInterval : Z) : M bool :=
  c <- this ;;
  (* Recreate swap-chain with new vsnyc settings *)
  (if negb (vsyncInterval_ c =? vsyncInterval)
   then
     CreateSwapChain GetResolution vsyncInterval ;;
     CreateSwapChainFramebuffers ;;
     assign (set_vsyncInterval_ vsyncInterval)
   else ret tt) ;;
  ret true.

End Context.

End VKRenderContext.

(** ** VKDevice.cpp: the device, its command pool and one-off command buffers *)

Module VKDeviceCalls.

Definition VK_COMMAND_POOL_CREATE_TRANSIENT_BIT            : Z := 1.
Definition VK_COMMAND_POOL_CREATE_RESET_COMMAND_BUFFER_BIT : Z := 2.
Definition VK_COMMAND_BUFFER_USAGE_ONE_TIME_SUBMIT_BIT     : Z := 1.
Definition VK_QUEUE_GRAPHICS_BIT : Z := 1.
Definition VK_QUEUE_COMPUTE_BIT  : Z := 2.
Definition VK_QUEUE_TRANSFER_BIT : Z := 4.
Definition ULLONG_MAX : Z := 2 ^ 64 - 1.

Record QueueFamilyIndices := { graphicsFamily : Z; presentFamily : Z }.

Record VkBufferCopy := { bc_srcOffset : Z; bc_dstOffset : Z; bc_size : Z }.

Record VkDeviceCreateInfo := {
  queueFamilies         : list Z;
  enabledLayerCount     : Z;
  enabledExtensionCount : Z;
  pEnabledFeatures      : Z
}.

Record VkMappedMemoryRange := { mr_memory : Handle; mr_offset : Z; mr_size : Z }.

(** The members of [VKDevice]. *)
Record Device := {
  device_             : Handle;
  queueFamilyIndices_ : QueueFamilyIndices;
  graphicsQueue_      : Handle;
  commandPool_        : Handle
}.

Inductive Call :=
| vkDeviceWaitIdle (device : Handle)
| VKFindQueueFamilies (physicalDevice : Handle) (flags : Z)
| vkDestroy (object : Handle)
| vkCreateDevice (physicalDevice : Handle) (createInfo : VkDeviceCreateInfo)
| vkGetDeviceQueue (device : Handle) (queueFamilyIndex queueIndex : Z)
| vkCreateCommandPool (device : Handle) (flags : Z) (queueFamilyIndex : Z)
| vkAllocateCommandBuffers (device commandPool : Handle) (commandBufferCount : Z)
| vkBeginCommandBuffer (commandBuffer : Handle) (flags : Z)
| vkEndCommandBuffer (commandBuffer : Handle)
| VKFence_create (device : Handle)
| vkQueueSubmit (queue : Handle) (commandBuffers : list Handle) (fence : Handle)
| VKFence_Wait (fence : Handle) (device : Handle) (timeout : Z)
| vkFreeCommandBuffers (device commandPool commandBuffer : Handle)
| vkCmdCopyBuffer (commandBuffer srcBuffer dstBuffer : Handle) (region : VkBufferCopy)
| vkFlushMappedMemoryRanges (device : Handle) (memoryRange : VkMappedMemoryRange).

Record Answer := {
  result   : VkResult;
  object   : Handle;
  families : QueueFamilyIndices;
  thrown   : option string
}.

Record World := { dev : Device; trace : list Call }.

Inductive Result (A : Type) :=
| Ok (a : A)
| Throw (what : string).
Arguments Ok {A} a.
Arguments Throw {A} what.

Definition M (A : Type) : Type := World -> Result A * World.

Definition ret {A} (a : A) : M A := fun w => (Ok a, w).

Definition bind {A B} (m : M A) (k : A -> M B) : M B :=
  fun w => match m w with
           | (Ok a, w') => k a w'
           | (Throw what, w') => (Throw what, w')
           end.

Notation "x <- m ;; k" := (bind m (fun x => k))
  (at level 61, m at next level, right associativity).
Notation "m ;; k" := (bind m (fun _ => k))
  (at level 61, right associativity).

Definition throw {A} (what : string) : M A := fun w => (Throw what, w).

Definition this : M Device := fun w => (Ok (dev w), w).

Definition assign (f : Device -> Device) : M unit :=
  fun w => (Ok tt, {| dev := f (dev w); trace := trace w |}).

(** Run [body], then [last] whether [body] returned or threw: the destructor
    of an object of the enclosing block. *)
Definition finally {A} (body : M A) (last : M unit) : M A :=
  fun w => match body w with
           | (Ok a, w') => (Ok a, snd (last w'))
           | (Throw what, w') => (Throw what, snd (last w'))
           end.

(** Calls other than handing a command buffer back to its pool. *)
Definition not_free (c : Call) : bool :=
  match c with vkFreeCommandBuffers _ _ _ => false | _ => true end.

Section Device.

Variable outside : list Call -> Answer.

(** The default arguments of [AllocCommandBuffer] and [FlushCommandBuffer]
    are declared in VKDevice.h. *)
Variable default_begin default_release : bool.

Definition call (c : Call) : M Answer :=
  fun w => let t := trace w ++ [c] in
           (Ok (outside t), {| dev := dev w; trace := t |}).

Definition VKThrowIfFailed (r : VkResult) (info : string) : M unit :=
  if r =? VK_SUCCESS then ret tt else throw info.

Definition Release (held : Handle) : M unit :=
  if held =? VK_NULL_HANDLE then ret tt else (call (vkDestroy held) ;; ret tt).

Definition WaitIdle : M unit :=
  d <- this ;;
  call (vkDeviceWaitIdle (device_ d)) ;;
  ret tt.

Definition CreateCommandPool : M Handle :=
  d <- this ;;
  (* Create staging command pool *)
  a <- call (vkCreateCommandPool (device_ d)
               (Z.lor VK_COMMAND_POOL_CREATE_TRANSIENT_BIT
                      VK_COMMAND_POOL_CREATE_RESET_COMMAND_BUFFER_BIT)
               (graphicsFamily (queueFamilyIndices_ d))) ;;
  (* an exception unwinds the local VKPtr that holds the new pool *)
  (if result a =? VK_SUCCESS then ret tt
   else Release (object a) ;; throw "failed to create Vulkan command pool") ;;
  ret (object a).

Definition CreateLogicalDevice (physicalDevice : Handle) (features : Z)
    (numExtensions : Z) : M unit :=
  (* Initialize queue create description *)
  q <- call (VKFindQueueFamilies physicalDevice
               (Z.lor (Z.lor VK_QUEUE_GRAPHICS_BIT VK_QUEUE_COMPUTE_BIT)
                      VK_QUEUE_TRANSFER_BIT)) ;;
  assign (fun d => {| device_ := device_ d; queueFamilyIndices_ := families q;
                      graphicsQueue_ := graphicsQueue_ d;
                      commandPool_ := commandPool_ d |}) ;;
  let queueCreateInfos :=
    [graphicsFamily (families q)]
    ++ (if negb (graphicsFamily (families q) =? presentFamily (families q))
        then [presentFamily (families q)] else []) in
  (* Create logical device *)
  let createInfo :=
    {| queueFamilies := queueCreateInfos;
       enabledLayerCount := 0;
       enabledExtensionCount := numExtensions;
       pEnabledFeatures := features |} in
  d <- this ;;
  Release (device_ d) ;;
  a <- call (vkCreateDevice physicalDevice createInfo) ;;
  assign (fun d => {| device_ := object a; queueFamilyIndices_ := queueFamilyIndices_ d;
                      graphicsQueue_ := graphicsQueue_ d;
                      commandPool_ := commandPool_ d |}) ;;
  VKThrowIfFailed (result a) "failed to create Vulkan logical device" ;;
  (* Query device graphics queue *)
  g <- call (vkGetDeviceQueue (object a) (graphicsFamily (families q)) 0) ;;
  assign (fun d => {| device_ := device_ d; queueFamilyIndices_ := queueFamilyIndices_ d;
                      graphicsQueue_ := object g;
                      commandPool_ := commandPool_ d |}) ;;
  (* Create default command pool *)
  pool <- CreateCommandPool ;;
  d <- this ;;
  Release (commandPool_ d) ;;
  assign (fun d => {| device_ := device_ d; queueFamilyIndices_ := queueFamilyIndices_ d;
                      graphicsQueue_ := graphicsQueue_ d;
                      commandPool_ := pool |}).

Definition AllocCommandBuffer (begin : bool) : M Handle :=
  d <- this ;;
  (* Allocate new primary level command buffer via staging command pool *)
  a <- call (vkAllocateCommandBuffers (device_ d) (commandPool_ d) 1) ;;
  let cmdBuffer := object a in
  VKThrowIfFailed (result a) "failed to allocate Vulkan command buffer" ;;
  (* Begin command buffer recording (if enabled) *)
  (if begin then
     b <- call (vkBeginCommandBuffer cmdBuffer
                  VK_COMMAND_BUFFER_USAGE_ONE_TIME_SUBMIT_BIT) ;;
     VKThrowIfFailed (result b) "failed to begin recording Vulkan command buffer"
   else ret tt) ;;
  ret cmdBuffer.

(** [VKFence] (RenderState/VKFence.h) creates its fence when constructed, which
    may throw, and destroys it when it goes out of scope. *)
Definition FlushCommandBuffer (cmdBuffer : Handle) (release : bool) : M unit :=
  d <- this ;;
  (* End command buffer record *)
  e <- call (vkEndCommandBuffer cmdBuffer) ;;
  VKThrowIfFailed (result e) "failed to end recording Vulkan command buffer" ;;
  (* Create fence to ensure the command buffer has finished execution *)
  f <- call (VKFence_create (device_ d)) ;;
  match thrown f with
  | Some what => throw what
  | None =>
      finally
        ((* Submit command buffer to queue *)
         call (vkQueueSubmit (graphicsQueue_ d) [cmdBuffer] (object f)) ;;
         (* Wait for fence to be signaled *)
         call (VKFence_Wait (object f) (device_ d) ULLONG_MAX) ;;
         ret tt)
        (Release (object f))
  end ;;
  (* Release command buffer (if enabled) *)
  if release
  then call (vkFreeCommandBuffers (device_ d) (commandPool_ d) cmdBuffer) ;; ret tt
  else ret tt.

(** [CopyBuffer] into a command buffer that is being recorded. *)
Definition CopyBuffer_into (commandBuffer srcBuffer dstBuffer : Handle)
    (size srcOffset dstOffset : Z) : M unit :=
  let region := {| bc_srcOffset := srcOffset; bc_dstOffset := dstOffset;
                   bc_size := size |} in
  call (vkCmdCopyBuffer commandBuffer srcBuffer dstBuffer region) ;; ret tt.

(** [CopyBuffer] on its own: allocate, record, flush. *)
Definition CopyBuffer (srcBuffer dstBuffer : Handle) (size srcOffset dstOffset : Z)
  : M unit :=
  cmdBuffer <- AllocCommandBuffer default_begin ;;
  CopyBuffer_into cmdBuffer srcBuffer dstBuffer size srcOffset dstOffset ;;
  FlushCommandBuffer cmdBuffer default_release.

(** [FlushMappedBuffer] for a buffer whose memory region, if it has one, lies
    in [chunk] at [regionOffset]. *)
Definition FlushMappedBuffer (region : option (Handle * Z)) (size offset : Z) : M unit :=
  match region with
  | Some (chunk, regionOffset) =>
      d <- this ;;
      (* Flush mapped memory to make it visible on the device *)
      let memoryRange := {| mr_memory := chunk;
                            mr_offset := uint64 (regionOffset + offset);
                            mr_size := size |} in
      a <- call (vkFlushMappedMemoryRanges (device_ d) memoryRange) ;;
      VKThrowIfFailed (result a) "failed to flush mapped memory range"
  | None => ret tt
  end.

End Device.

End VKDeviceCalls.

(** ** D3D12Device.cpp and RenderState/D3D12ComputePSO.cpp *)

Module D3D12.

Definition HRESULT := Z.
Definition S_OK : HRESULT := 0.

(** The [FAILED] macro of the Windows headers: negative results are failures. *)
Definition FAILED (hr : HRESULT) : bool := hr <? 0.

Record D3D12_SHADER_BYTECODE := { pShaderBytecode : Z; BytecodeLength : Z }.

Record D3D12_CACHED_PIPELINE_STATE := {
  pCachedBlob           : Z;
  CachedBlobSizeInBytes : Z
}.

Record D3D12_COMPUTE_PIPELINE_STATE_DESC := {
  pRootSignature : Z;
  CS             : D3D12_SHADER_BYTECODE;
  CachedPSO      : D3D12_CACHED_PIPELINE_STATE
}.

(** A descriptor filled with [= {}]. *)
Definition zero_desc : D3D12_COMPUTE_PIPELINE_STATE_DESC :=
  {| pRootSignature := 0;
     CS := {| pShaderBytecode := 0; BytecodeLength := 0 |};
     CachedPSO := {| pCachedBlob := 0; CachedBlobSizeInBytes := 0 |} |}.

Record D3D12Shader := { GetByteCode : D3D12_SHADER_BYTECODE }.

Record D3D12PipelineCache := { GetCachedPSO : D3D12_CACHED_PIPELINE_STATE }.

(** The members of [ComputePipelineDescriptor] the constructor reads; both are
    pointers that may be null. *)
Record ComputePipelineDescriptor := {
  pipelineLayout : option Z;
  computeShader  : option D3D12Shader
}.

(** What the constructor asks of the device and of its base class. *)
Inductive Call :=
| CreateComputePipelineState (desc : D3D12_COMPUTE_PIPELINE_STATE_DESC)
| SetNativeAndUpdateCache (native : Z) (pipelineCache : option D3D12PipelineCache).

Inductive Result (A : Type) :=
| Ok (a : A)
| Throw (what : string).
Arguments Ok {A} a.
Arguments Throw {A} what.

(** The object under construction: the root signature its base class settled
    on, and the native pipeline state once there is one. *)
Record D3D12ComputePSO := {
  GetRootSignature : Z;
  GetNative        : Z
}.

Section Device.

(** [ID3D12Device::CreateComputePipelineState]: result code and the object
    written on success. *)
Variable device : D3D12_COMPUTE_PIPELINE_STATE_DESC -> HRESULT * Z.

(** The root signature the base class [D3D12PipelineState] (another
    translation unit) chooses from the pipeline layout of the descriptor and
    the default pipeline layout. *)
Variable ChooseRootSignature : option Z -> Z -> Z.

(** [D3D12Device::CreateDXComputePipelineState]; [DXThrowIfCreateFailed]
    (DXCore) throws when the result is a failure, naming the interface. *)
Definition CreateDXComputePipelineState (desc : D3D12_COMPUTE_PIPELINE_STATE_DESC)
    (calls : list Call) : Result Z * list Call :=
  let '(hr, pipelineState) := device desc in
  let calls := calls ++ [CreateComputePipelineState desc] in
  if FAILED hr
  then (Throw "ID3D12PipelineState", calls)
  else (Ok pipelineState, calls).

Definition CreateNativePSO (this : D3D12ComputePSO)
    (csBytecode : D3D12_SHADER_BYTECODE) (pipelineCache : option D3D12PipelineCache)
    (calls : list Call) : Result D3D12ComputePSO * list Call :=
  let stateDesc :=
    {| pRootSignature := GetRootSignature this;
       CS := csBytecode;
       CachedPSO := CachedPSO zero_desc |} in
  (* Set PSO cache if specified *)
  let stateDesc :=
    match pipelineCache with
    | Some cache => {| pRootSignature := pRootSignature stateDesc;
                       CS := CS stateDesc;
                       CachedPSO := GetCachedPSO cache |}
    | None => stateDesc
    end in
  (* Create native PSO *)
  match CreateDXComputePipelineState stateDesc calls with
  | (Ok native, calls) =>
      (Ok {| GetRootSignature := GetRootSignature this; GetNative := native |},
       calls ++ [SetNativeAndUpdateCache native pipelineCache])
  | (Throw what, calls) => (Throw what, calls)
  end.

(** The constructor [D3D12ComputePSO::D3D12ComputePSO], from the point where
    its base class is initialised. *)
Definition D3D12ComputePSO_new (defaultPipelineLayout : Z)
    (desc : ComputePipelineDescriptor) (pipelineCache : option D3D12PipelineCache)
    (calls : list Call) : Result D3D12ComputePSO * list Call :=
  let this := {| GetRootSignature :=
                   ChooseRootSignature (pipelineLayout desc) defaultPipelineLayout;
                 GetNative := 0 |} in
  match computeShader desc with
  | None => (Throw "cannot create D3D compute pipeline without compute shader", calls)
  | Some computeShaderD3D =>
      (* Create native compute PSO *)
      match pipelineCache with
      | Some pipelineCacheD3D =>
          CreateNativePSO this (GetByteCode computeShaderD3D) (Some pipelineCacheD3D) calls
      | None =>
          CreateNativePSO this (GetByteCode computeShaderD3D) None calls
      end
  end.

End Device.

End D3D12.

(** ** D3D12Device.cpp: creating the device and choosing a sample count *)

Module D3D12Device.

Import D3D12.

Definition SUCCEEDED (hr : HRESULT) : bool := 0 <=? hr.
Definition DXGI_FORMAT_UNKNOWN : Z := 0.

Record DXGI_SAMPLE_DESC := { Count : Z; Quality : Z }.

(** The members of [D3D12Device] that creating the device writes. *)
Record Device := { device_ : Z; featureLevel_ : Z }.

Section Driver.

(** [D3D12CreateDevice] for an adapter and a feature level: the result code
    and the device written. *)
Variable D3D12CreateDevice : Z -> Z -> HRESULT * Z.

(** [ID3D12Device::CheckFeatureSupport] for multisample quality levels of a
    format at a sample count: the result code and the number of quality
    levels written. *)
Variable CheckFeatureSupport : Z -> Z -> HRESULT * Z.

(** The loop of [CreateDXDevice] over the feature levels left to try, with
    the result so far; the levels tried are collected in order. *)
Fixpoint TryFeatureLevels (adapter : Z) (levels : list Z) (hr : HRESULT)
    (d : Device) (tried : list Z) : HRESULT * Device * list Z :=
  match levels with
  | [] => (hr, d, tried)
  | level :: rest =>
      (* Try to create D3D12 device with current feature level *)
      let '(hr, created) := D3D12CreateDevice adapter level in
      let d := {| device_ := created; featureLevel_ := featureLevel_ d |} in
      if SUCCEEDED hr
      then (* Store selected feature level *)
           (hr, {| device_ := device_ d; featureLevel_ := level |}, tried ++ [level])
      else TryFeatureLevels adapter rest hr d (tried ++ [level])
  end.

Definition CreateDXDevice (featureLevels : list Z) (adapter : Z) (d : Device)
  : HRESULT * Device * list Z :=
  TryFeatureLevels adapter featureLevels S_OK d [].

(** The loop [for (; maxSampleCount > 1u; --maxSampleCount)] with at most
    [rounds] rounds left. *)
Fixpoint SampleDescLoop (rounds : nat) (format : Z) (maxSampleCount : Z)
  : DXGI_SAMPLE_DESC :=
  match rounds with
  | O => {| Count := 1; Quality := 0 |}
  | S rounds' =>
      if 1 <? maxSampleCount then
        let '(hr, NumQualityLevels) := CheckFeatureSupport format maxSampleCount in
        if (hr =? S_OK) && (0 <? NumQualityLevels)
        then {| Count := maxSampleCount; Quality := uint32 (NumQualityLevels - 1) |}
        else SampleDescLoop rounds' format (uint32 (maxSampleCount - 1))
      else {| Count := 1; Quality := 0 |}
  end.

(** The counter falls by one each round and the loop ends at 1, so
    [maxSampleCount] rounds are enough. *)
Definition FindSuitableSampleDesc (format : Z) (maxSampleCount : Z) : DXGI_SAMPLE_DESC :=
  SampleDescLoop (Z.to_nat maxSampleCount) format maxSampleCount.

Definition FindSuitableSampleDescForFormats (formats : list Z) (maxSampleCount : Z)
  : DXGI_SAMPLE_DESC :=
  fold_left (fun sampleDesc format =>
               if negb (format =? DXGI_FORMAT_UNKNOWN)
               then FindSuitableSampleDesc format (Count sampleDesc)
               else sampleDesc)
            formats {| Count := maxSampleCount; Quality := 0 |}.

End Driver.

End D3D12Device.

(** ** Concrete inputs for the device code *)

Module DeviceExamples.

Import LayoutTracker VKDevice.

(** A device whose formats are all colour formats. *)
Definition aspect_unit (_ : VkFormat) : unit := tt.
Definition never (_ : unit) : bool := false.

Definition layers01 : VkImageSubresourceLayers :=
  {| aspectMask := VK_IMAGE_ASPECT_COLOR_BIT; mipLevel := 0;
     baseArrayLayer := 0; layerCount := 1 |}.

Definition region0 : VkImageCopy :=
  {| srcSubresource := layers01;
     srcOffset := {| x := 0; y := 0; z := 0 |};
     dstSubresource := layers01;
     dstOffset := {| x := 0; y := 0; z := 0 |};
     extent := {| width := 4; height := 4; depth := 1 |} |}.

(** Image 1 is in shader-read-only layout, every other image is a colour
    attachment. *)
Definition layouts0 : Layouts :=
  fun img _ _ => if img =? 1 then VK_IMAGE_LAYOUT_SHADER_READ_ONLY_OPTIMAL
                 else VK_IMAGE_LAYOUT_COLOR_ATTACHMENT_OPTIMAL.

(** Levels 1 and 2 of one layer: a range whose base level is not 0. *)
Definition levels_1_2 : TextureSubresource :=
  {| sub_baseArrayLayer := 0; numArrayLayers := 1;
     sub_baseMipLevel := 1; numMipLevels := 2 |}.

Definition all_shader_read_only : Layouts :=
  fun _ _ _ => VK_IMAGE_LAYOUT_SHADER_READ_ONLY_OPTIMAL.

Definition nine_levels : TextureSubresource :=
  {| sub_baseArrayLayer := 0; numArrayLayers := 1;
     sub_baseMipLevel := 0; numMipLevels := 9 |}.

Definition one_level_two_layers : TextureSubresource :=
  {| sub_baseArrayLayer := 0; numArrayLayers := 2;
     sub_baseMipLevel := 0; numMipLevels := 1 |}.

(** A buffer whose region lies at offset 64 of chunk 5. *)
Definition region_5_64 : VKDeviceBuffer :=
  {| GetMemoryRegion := Some {| GetParentChunk := 5; GetOffset := 64; GetSize := 256 |} |}.

Definition no_region : VKDeviceBuffer := {| GetMemoryRegion := None |}.

Definition memory0 : Memory :=
  {| deviceBytes := fun _ _ => Byte.x00; hostBytes := fun _ => Byte.xff |}.

End DeviceExamples.

(** ** Concrete inputs for the render context *)

Module ContextExamples.

Import VKRenderContext.

(** What "n clamped into the interval [lo, hi]" asks of the value [r]. *)
Definition clamped_into (lo hi n r : Z) : Prop :=
  lo <= r <= hi /\
  (lo <= n <= hi -> r = n) /\ (n < lo -> r = lo) /\ (hi < n -> r = hi).

Definition caps_2_3 : VkSurfaceCapabilitiesKHR :=
  {| minImageCount := 2; maxImageCount := 3;
     minImageExtent := {| width2 := 1; height2 := 1 |};
     maxImageExtent := {| width2 := 4096; height2 := 4096 |};
     currentTransform := 1 |}.

(** A surface without an upper limit on the number of images. *)
Definition caps_2_unlimited : VkSurfaceCapabilitiesKHR :=
  {| minImageCount := 2; maxImageCount := 0;
     minImageExtent := {| width2 := 1; height2 := 1 |};
     maxImageExtent := {| width2 := 4096; height2 := 4096 |};
     currentTransform := 1 |}.

Definition details (c : VkSurfaceCapabilitiesKHR) : SurfaceSupportDetails :=
  {| caps := c;
     formats := [{| sf_format := VK_FORMAT_B8G8R8A8_UNORM;
                    colorSpace := VK_COLOR_SPACE_SRGB_NONLINEAR_KHR |}];
     presentModes := [VK_PRESENT_MODE_FIFO_KHR] |}.

(** A context presenting 800 x 600 through two buffers. *)
Definition context_800_600 (c : VkSurfaceCapabilitiesKHR) : Context :=
  {| instance_ := 1; physicalDevice_ := 2; device_ := 3;
     surface_ := 4; surfaceSupportDetails_ := details c;
     swapChain_ := 5; swapChainRenderPass_ := 6;
     swapChainFormat_ := {| sf_format := VK_FORMAT_B8G8R8A8_UNORM;
                            colorSpace := VK_COLOR_SPACE_SRGB_NONLINEAR_KHR |};
     swapChainSamples_ := 1;
     swapChainExtent_ := {| width2 := 800; height2 := 600 |};
     swapChainImages_ := fun i => 10 + i;
     swapChainImageViews_ := fun i => 20 + i;
     swapChainFramebuffers_ := fun i => 30 + i;
     numSwapChainBuffers_ := 2; presentImageIndex_ := 0; vsyncInterval_ := 1;
     depthStencilFormat_ := VK_FORMAT_UNDEFINED; depthStencilBuffer_ := VK_NULL_HANDLE;
     colorBuffers_ := fun _ => VK_NULL_HANDLE;
     graphicsQueue_ := 7; presentQueue_ := 7;
     imageAvailableSemaphore_ := 8; renderFinishedSemaphore_ := 9 |}.

Definition world_800_600 : World :=
  {| ctx := context_800_600 caps_2_3; trace := [] |}.

(** A driver that succeeds at everything, numbers new objects by the length of
    the history, offers two images and hands them out in turn. *)
Definition willing (history : list Call) : Answer :=
  {| result := VK_SUCCESS;
     object := 100 + Z.of_nat (List.length history);
     count := 2;
     images := fun i => 40 + i;
     families := {| graphicsFamily := 0; presentFamily := 0 |};
     support := details caps_2_3;
     index := fun old => (old + 1) mod 2;
     thrown := None |}.

(** A driver that fails every call with VK_ERROR_DEVICE_LOST. *)
Definition lost (history : list Call) : Answer :=
  {| result := -4;
     object := VK_NULL_HANDLE;
     count := 0;
     images := fun _ => VK_NULL_HANDLE;
     families := {| graphicsFamily := 0; presentFamily := 0 |};
     support := details caps_2_3;
     index := fun old => old;
     thrown := Some "device lost"%string |}.

(** A driver like [willing] whose swap chains have four images, one more
    than the arrays of the context hold. *)
Definition four_images (history : list Call) : Answer :=
  {| result := VK_SUCCESS;
     object := 100 + Z.of_nat (List.length history);
     count := 4;
     images := fun i => 40 + i;
     families := {| graphicsFamily := 0; presentFamily := 0 |};
     support := details caps_2_3;
     index := fun old => (old + 1) mod 4;
     thrown := None |}.

End ContextExamples.

(** ** Concrete inputs for the compute pipeline state *)

Module D3D12Examples.

Import D3D12.

Definition no_shader : ComputePipelineDescriptor :=
  {| pipelineLayout := None; computeShader := None |}.

Definition some_shader : ComputePipelineDescriptor :=
  {| pipelineLayout := None;
     computeShader :=
       Some {| GetByteCode := {| pShaderBytecode := 4096; BytecodeLength := 512 |} |} |}.

(** A device that creates every pipeline state asked of it. *)
Definition creating (_ : D3D12_COMPUTE_PIPELINE_STATE_DESC) : HRESULT * Z := (S_OK, 77).

Definition default_root (layout : option Z) (defaultLayout : Z) : Z :=
  match layout with Some l => l | None => defaultLayout end.

End D3D12Examples.

(** ** Concrete inputs for the one-off command buffers *)

Module DeviceCallExamples.

Import VKDeviceCalls.

Definition device0 : Device :=
  {| device_ := 3;
     queueFamilyIndices_ := {| graphicsFamily := 0; presentFamily := 0 |};
     graphicsQueue_ := 7;
     commandPool_ := 11 |}.

Definition world0 : World := {| dev := device0; trace := [] |}.

(** A driver that succeeds at everything except ending a recording, which it
    fails with VK_ERROR_DEVICE_LOST; new objects are numbered by the length of
    the history. *)
Definition cannot_end (history : list Call) : Answer :=
  {| result := match last history (vkDeviceWaitIdle 0) with
               | vkEndCommandBuffer _ => -4
               | _ => VK_SUCCESS
               end;
     object := 100 + Z.of_nat (List.length history);
     families := {| graphicsFamily := 0; presentFamily := 1 |};
     thrown := None |}.

End DeviceCallExamples.

(** ** Concrete inputs for buffers and sample counts *)

Module SampleExamples.

Import VKDevice D3D12 D3D12Device.

(** Host memory that holds 42 at address 1003. *)
Definition marked_host : Memory :=
  {| deviceBytes := fun _ _ => Byte.x00;
     hostBytes := fun a => if a =? 1003 then Byte.x2a else Byte.xff |}.

(** A device with three quality levels at 2 and 4 samples for every format,
    and at 8 samples for format 28 (DXGI_FORMAT_R8G8B8A8_UNORM) only. *)
Definition quality_levels (format count : Z) : HRESULT * Z :=
  if (count =? 2) || (count =? 4) || ((count =? 8) && (format =? 28))
  then (S_OK, 3) else (S_OK, 0).

End SampleExamples.

(** * Properties *)

(** ** Arithmetic of the machine integers *)

Lemma std_max_spec a b : std_max a b = Z.max a b.
Proof. unfold std_max. destruct (Z.ltb_spec a b); lia. Qed.

Lemma std_min_spec a b : std_min a b = Z.min a b.
Proof. unfold std_min. destruct (Z.ltb_spec b a); lia. Qed.




(** A loop of at least one round ends with its body. *)
Lemma for_loop_last {S : Type} (body : Z -> S -> S) n i s :
  for_loop (Datatypes.S n) i body s = body (i + Z.of_nat n) (for_loop n i body s).
Proof.
  revert i s. induction n as [| n IH]; intros i s.
  - cbn. now rewrite Z.add_0_r.
  - change (for_loop (Datatypes.S (Datatypes.S n)) i body s)
      with (for_loop (Datatypes.S n) (i + 1) body (body i s)).
    rewrite IH. cbn [for_loop]. f_equal. lia.
Qed.

(** ** Image layout transitions, copies and resolves *)

Section TransitionProperties.

Import LayoutTracker VKDevice.

Variable Format : Type.
Variable VKTypes_Unmap : VkFormat -> Format.
Variable IsDepthOrStencilFormat : Format -> bool.
Variable IsStencilFormat : Format -> bool.

Abbreviation TransitionBarrier :=
  (TransitionBarrier Format VKTypes_Unmap IsDepthOrStencilFormat IsStencilFormat).
Abbreviation TransitionImageLayout :=
  (TransitionImageLayout Format VKTypes_Unmap IsDepthOrStencilFormat IsStencilFormat).
Abbreviation CopyImage :=
  (CopyImage Format VKTypes_Unmap IsDepthOrStencilFormat IsStencilFormat).
Abbreviation ResolveImage :=
  (ResolveImage Format VKTypes_Unmap IsDepthOrStencilFormat IsStencilFormat).

(** Whatever masks are chosen, the barrier names the image, the two layouts and
    the subresource range it was asked for. *)
Lemma TransitionBarrier_target img format old new sub :
  let b := snd (TransitionBarrier img format old new sub) in
  image b = img /\ oldLayout b = old /\ newLayout b = new /\
  range_baseMipLevel (subresourceRange b) = sub_baseMipLevel sub /\
  levelCount (subresourceRange b) = numMipLevels sub /\
  range_baseArrayLayer (subresourceRange b) = sub_baseArrayLayer sub /\
  range_layerCount (subresourceRange b) = numArrayLayers sub.
Proof.
  unfold VKDevice.TransitionBarrier.
  destruct ((old =? _) && (new =? _)); [| destruct ((old =? _) && (new =? _))];
    cbn; repeat split.
Qed.

Lemma TransitionImageLayout_records cb img format old new sub :
  exists c,
    TransitionImageLayout cb img format old new sub = cb ++ [c] /\
    is_transition c img old new sub = true /\
    (forall st i mip layer,
        exec c st i mip layer =
        if (i =? img) && in_subresource sub mip layer then new else st i mip layer).
Proof.
  unfold VKDevice.TransitionImageLayout.
  pose proof (TransitionBarrier_target img format old new sub) as T.
  destruct (TransitionBarrier img format old new sub) as [[s d] b]. cbn in T.
  destruct T as (Ti & To & Tn & Tm & Tc & Tl & Tk).
  exists (CmdPipelineBarrier s d 0 b). split; [reflexivity | split].
  - unfold is_transition. rewrite Ti, To, Tn, Tm, Tc, Tl, Tk.
    now rewrite !Z.eqb_refl.
  - intros st i mip layer. unfold exec, covers, in_range, in_subresource.
    now rewrite Ti, Tn, Tm, Tc, Tl, Tk.
Qed.

Lemma run_app cb1 cb2 st : run (cb1 ++ cb2) st = run cb2 (run cb1 st).
Proof. unfold run. apply fold_left_app. Qed.

(** The shape both bracketing operations record, given the native command in
    the middle, and its effect on the layouts. *)
Lemma bracket_restores cb native srcImage Ls dstImage Ld srcSub dstSub format st :
  (forall s, exec native s = s) ->
  (forall mip layer, in_subresource srcSub mip layer = true ->
                     run cb st srcImage mip layer = Ls) ->
  (forall mip layer, in_subresource dstSub mip layer = true ->
                     run cb st dstImage mip layer = Ld) ->
  let cb1 := TransitionImageLayout cb srcImage format Ls
               VK_IMAGE_LAYOUT_TRANSFER_SRC_OPTIMAL srcSub in
  let cb2 := TransitionImageLayout cb1 dstImage format Ld
               VK_IMAGE_LAYOUT_TRANSFER_DST_OPTIMAL dstSub in
  let cb3 := cb2 ++ [native] in
  let cb4 := TransitionImageLayout cb3 srcImage format
               VK_IMAGE_LAYOUT_TRANSFER_SRC_OPTIMAL Ls srcSub in
  let cb5 := TransitionImageLayout cb4 dstImage format
               VK_IMAGE_LAYOUT_TRANSFER_DST_OPTIMAL Ld dstSub in
  exists c1 c2 c3 c4,
    cb5 = cb ++ [c1; c2; native; c3; c4] /\
    is_transition c1 srcImage Ls VK_IMAGE_LAYOUT_TRANSFER_SRC_OPTIMAL srcSub = true /\
    is_transition c2 dstImage Ld VK_IMAGE_LAYOUT_TRANSFER_DST_OPTIMAL dstSub = true /\
    is_transition c3 srcImage VK_IMAGE_LAYOUT_TRANSFER_SRC_OPTIMAL Ls srcSub = true /\
    is_transition c4 dstImage VK_IMAGE_LAYOUT_TRANSFER_DST_OPTIMAL Ld dstSub = true /\
    (forall mip layer,
        in_subresource dstSub mip layer = true ->
        run (cb ++ [c1; c2]) st dstImage mip layer =
        VK_IMAGE_LAYOUT_TRANSFER_DST_OPTIMAL) /\
    (forall mip layer,
        in_subresource srcSub mip layer = true ->
        srcImage <> dstImage \/ in_subresource dstSub mip layer = false ->
        run (cb ++ [c1; c2]) st srcImage mip layer =
        VK_IMAGE_LAYOUT_TRANSFER_SRC_OPTIMAL) /\
    (forall img mip layer, run cb5 st img mip layer = run cb st img mip layer).
Proof.
  intros Hnative Hsrc Hdst cb1 cb2 cb3 cb4 cb5.
  destruct (TransitionImageLayout_records cb srcImage format Ls
              VK_IMAGE_LAYOUT_TRANSFER_SRC_OPTIMAL srcSub) as (c1 & E1 & T1 & X1).
  destruct (TransitionImageLayout_records cb1 dstImage format Ld
              VK_IMAGE_LAYOUT_TRANSFER_DST_OPTIMAL dstSub) as (c2 & E2 & T2 & X2).
  destruct (TransitionImageLayout_records cb3 srcImage format
              VK_IMAGE_LAYOUT_TRANSFER_SRC_OPTIMAL Ls srcSub) as (c3 & E3 & T3 & X3).
  destruct (TransitionImageLayout_records cb4 dstImage format
              VK_IMAGE_LAYOUT_TRANSFER_DST_OPTIMAL Ld dstSub) as (c4 & E4 & T4 & X4).
  assert (E : cb5 = cb ++ [c1; c2; native; c3; c4]).
  { subst cb5. rewrite E4. subst cb4. rewrite E3. subst cb3 cb2. rewrite E2.
    subst cb1. rewrite E1. now rewrite <- !app_assoc. }
  exists c1, c2, c3, c4. repeat split; try assumption.
  - intros mip layer Hin. rewrite run_app. cbn [run fold_left].
    now rewrite X2, Z.eqb_refl, Hin.
  - intros mip layer Hin Hapart. rewrite run_app. cbn [run fold_left].
    rewrite X2, X1, Z.eqb_refl, Hin. cbn [andb].
    destruct Hapart as [Hne | Hout].
    + apply Z.eqb_neq in Hne. now rewrite Hne.
    + rewrite Hout. now rewrite andb_false_r.
  - intros img mip layer. rewrite E, run_app. cbn [run fold_left].
    rewrite X4, X3, Hnative, X2, X1.
    destruct ((img =? dstImage) && in_subresource dstSub mip layer) eqn:Cd.
    + apply andb_prop in Cd as [Ci Cr]. apply Z.eqb_eq in Ci. subst img.
      symmetry. now apply Hdst.
    + destruct ((img =? srcImage) && in_subresource srcSub mip layer) eqn:Cs.
      * apply andb_prop in Cs as [Ci Cr]. apply Z.eqb_eq in Ci. subst img.
        symmetry. now apply Hsrc.
      * reflexivity.
Qed.

(** C3. [TransitionImageLayout] records one pipeline barrier for the pair
    (oldLayout, newLayout).  Exactly two pairs get masks of their own:
    undefined -> transfer-dst gets source access 0, destination access
    transfer-write and the stages top-of-pipe -> transfer; transfer-dst ->
    shader-read-only gets source access transfer-write, destination access
    shader-read and the stages transfer -> fragment-shader.  Every other pair
    gets access masks 0 and the stages top-of-pipe -> bottom-of-pipe. *)
Theorem TransitionImageLayout_masks cb img format old new sub :
  exists srcStageMask dstStageMask b,
    TransitionImageLayout cb img format old new sub =
      cb ++ [CmdPipelineBarrier srcStageMask dstStageMask 0 b] /\
    oldLayout b = old /\ newLayout b = new /\
    ((old = VK_IMAGE_LAYOUT_UNDEFINED /\ new = VK_IMAGE_LAYOUT_TRANSFER_DST_OPTIMAL /\
      srcAccessMask b = 0 /\ dstAccessMask b = VK_ACCESS_TRANSFER_WRITE_BIT /\
      srcStageMask = VK_PIPELINE_STAGE_TOP_OF_PIPE_BIT /\
      dstStageMask = VK_PIPELINE_STAGE_TRANSFER_BIT)
     \/
     (old = VK_IMAGE_LAYOUT_TRANSFER_DST_OPTIMAL /\
      new = VK_IMAGE_LAYOUT_SHADER_READ_ONLY_OPTIMAL /\
      srcAccessMask b = VK_ACCESS_TRANSFER_WRITE_BIT /\
      dstAccessMask b = VK_ACCESS_SHADER_READ_BIT /\
      srcStageMask = VK_PIPELINE_STAGE_TRANSFER_BIT /\
      dstStageMask = VK_PIPELINE_STAGE_FRAGMENT_SHADER_BIT)
     \/
     (~ (old = VK_IMAGE_LAYOUT_UNDEFINED /\ new = VK_IMAGE_LAYOUT_TRANSFER_DST_OPTIMAL) /\
      ~ (old = VK_IMAGE_LAYOUT_TRANSFER_DST_OPTIMAL /\
         new = VK_IMAGE_LAYOUT_SHADER_READ_ONLY_OPTIMAL) /\
      srcAccessMask b = 0 /\ dstAccessMask b = 0 /\
      srcStageMask = VK_PIPELINE_STAGE_TOP_OF_PIPE_BIT /\
      dstStageMask = VK_PIPELINE_STAGE_BOTTOM_OF_PIPE_BIT)).
Proof.
  unfold VKDevice.TransitionImageLayout, VKDevice.TransitionBarrier.
  destruct (Z.eqb_spec old VK_IMAGE_LAYOUT_UNDEFINED) as [Ho | Ho];
    destruct (Z.eqb_spec new VK_IMAGE_LAYOUT_TRANSFER_DST_OPTIMAL) as [Hn | Hn];
    cbn [andb].
  1: { do 3 eexists. split; [reflexivity |]. cbn. repeat split. left. now repeat split. }
  all: destruct (Z.eqb_spec old VK_IMAGE_LAYOUT_TRANSFER_DST_OPTIMAL) as [Ho' | Ho'];
    destruct (Z.eqb_spec new VK_IMAGE_LAYOUT_SHADER_READ_ONLY_OPTIMAL) as [Hn' | Hn'];
    cbn [andb].
  all: do 3 eexists; (split; [reflexivity |]); cbn; repeat split.
  all: try (right; left; now repeat split).
  all: right; right; repeat split; intros [A B]; subst; try contradiction;
    try discriminate.
Qed.

Lemma in_subresource_layers l mip layer :
  in_subresource (LayersSubresource l) mip layer = in_layers l mip layer.
Proof.
  unfold in_subresource, in_layers, LayersSubresource. cbn.
  destruct (Z.eqb_spec mip (mipLevel l)); destruct (Z.leb_spec (mipLevel l) mip);
    destruct (Z.ltb_spec mip (mipLevel l + 1)); cbn [andb]; try reflexivity; lia.
Qed.

(** What [is_transition] says, field by field, and what such a barrier does. *)
Lemma is_transition_fields c img old new sub :
  is_transition c img old new sub = true ->
  exists srcStageMask dstStageMask dependencyFlags b,
    c = CmdPipelineBarrier srcStageMask dstStageMask dependencyFlags b /\
    image b = img /\ oldLayout b = old /\ newLayout b = new /\
    range_baseMipLevel (subresourceRange b) = sub_baseMipLevel sub /\
    levelCount (subresourceRange b) = numMipLevels sub /\
    range_baseArrayLayer (subresourceRange b) = sub_baseArrayLayer sub /\
    range_layerCount (subresourceRange b) = numArrayLayers sub.
Proof.
  destruct c as [s d f b | | |]; try discriminate. unfold is_transition. intros T.
  repeat (apply andb_prop in T as [T ?]).
  repeat match goal with H : (_ =? _) = true |- _ => apply Z.eqb_eq in H end.
  exists s, d, f, b. now repeat split.
Qed.

Lemma is_transition_exec c img old new sub st i mip layer :
  is_transition c img old new sub = true ->
  exec c st i mip layer =
  if (i =? img) && in_subresource sub mip layer then new else st i mip layer.
Proof.
  intros T. apply is_transition_fields in T
    as (s & d & f & b & -> & Ti & _ & Tn & Tm & Tc & Tl & Tk).
  unfold exec, covers, in_range, in_subresource. now rewrite Ti, Tn, Tm, Tc, Tl, Tk.
Qed.

(** C1. [CopyImage] and [ResolveImage], called with source layout Ls and
    destination layout Ld, record five commands in this order: a barrier on
    the source image from Ls to transfer-src over the subresources the region
    copies from (its level [mipLevel], one level, its layers from
    [baseArrayLayer], [layerCount] of them), a barrier on the destination
    image from Ld to transfer-dst over the subresources the region copies to,
    the native copy (resolve) between the two transfer layouts, a barrier on
    the source back to Ls and one on the destination back to Ld, over the same
    subresources.  When Ls and Ld are the layouts the copied subresources are
    in before the operation, the native command finds every subresource it
    writes in transfer-dst and every subresource it reads (where it is not
    written as well) in transfer-src, everything else as it was, and after the
    operation every subresource of every image has the layout it had
    before. *)
Theorem CopyImage_ResolveImage_restore_layouts
    cb srcImage Ls dstImage Ld (region : VkImageCopy) format (st : Layouts) :
  let src := srcSubresource region in
  let dst := dstSubresource region in
  let moves (c : Command) (img : Handle) (old new : VkImageLayout)
            (l : VkImageSubresourceLayers) :=
    exists srcStageMask dstStageMask dependencyFlags b,
      c = CmdPipelineBarrier srcStageMask dstStageMask dependencyFlags b /\
      image b = img /\ oldLayout b = old /\ newLayout b = new /\
      range_baseMipLevel (subresourceRange b) = mipLevel l /\
      levelCount (subresourceRange b) = 1 /\
      range_baseArrayLayer (subresourceRange b) = baseArrayLayer l /\
      range_layerCount (subresourceRange b) = layerCount l in
  let brackets (native : Command) (recorded : VkCommandBuffer) :=
    exists c1 c2 c3 c4,
      recorded = cb ++ [c1; c2; native; c3; c4] /\
      moves c1 srcImage Ls VK_IMAGE_LAYOUT_TRANSFER_SRC_OPTIMAL src /\
      moves c2 dstImage Ld VK_IMAGE_LAYOUT_TRANSFER_DST_OPTIMAL dst /\
      moves c3 srcImage VK_IMAGE_LAYOUT_TRANSFER_SRC_OPTIMAL Ls src /\
      moves c4 dstImage VK_IMAGE_LAYOUT_TRANSFER_DST_OPTIMAL Ld dst /\
      (forall mip layer,
          in_layers dst mip layer = true ->
          run (cb ++ [c1; c2]) st dstImage mip layer =
          VK_IMAGE_LAYOUT_TRANSFER_DST_OPTIMAL) /\
      (forall mip layer,
          in_layers src mip layer = true ->
          srcImage <> dstImage \/ in_layers dst mip layer = false ->
          run (cb ++ [c1; c2]) st srcImage mip layer =
          VK_IMAGE_LAYOUT_TRANSFER_SRC_OPTIMAL) /\
      (forall img mip layer,
          (img =? srcImage) && in_layers src mip layer = false ->
          (img =? dstImage) && in_layers dst mip layer = false ->
          run (cb ++ [c1; c2]) st img mip layer = run cb st img mip layer) /\
      (forall img mip layer, run recorded st img mip layer = run cb st img mip layer) in
  (forall mip layer, in_layers src mip layer = true ->
                     run cb st srcImage mip layer = Ls) ->
  (forall mip layer, in_layers dst mip layer = true ->
                     run cb st dstImage mip layer = Ld) ->
  brackets (CmdCopyImage srcImage VK_IMAGE_LAYOUT_TRANSFER_SRC_OPTIMAL
                         dstImage VK_IMAGE_LAYOUT_TRANSFER_DST_OPTIMAL region)
           (CopyImage cb srcImage Ls dstImage Ld region format) /\
  brackets (CmdResolveImage srcImage VK_IMAGE_LAYOUT_TRANSFER_SRC_OPTIMAL
                            dstImage VK_IMAGE_LAYOUT_TRANSFER_DST_OPTIMAL region)
           (ResolveImage cb srcImage Ls dstImage Ld region format).
Proof.
  intros src dst moves brackets Hsrc Hdst. subst brackets. cbv beta.
  assert (Moves : forall c img old new l,
             is_transition c img old new (LayersSubresource l) = true ->
             moves c img old new l).
  { intros c img old new l T. apply is_transition_fields in T. exact T. }
  assert (Bracket : forall native recorded,
             (forall s, exec native s = s) ->
             recorded =
               (let cb1 := TransitionImageLayout cb srcImage format Ls
                             VK_IMAGE_LAYOUT_TRANSFER_SRC_OPTIMAL (LayersSubresource src) in
                let cb2 := TransitionImageLayout cb1 dstImage format Ld
                             VK_IMAGE_LAYOUT_TRANSFER_DST_OPTIMAL (LayersSubresource dst) in
                let cb3 := cb2 ++ [native] in
                let cb4 := TransitionImageLayout cb3 srcImage format
                             VK_IMAGE_LAYOUT_TRANSFER_SRC_OPTIMAL Ls (LayersSubresource src) in
                TransitionImageLayout cb4 dstImage format
                  VK_IMAGE_LAYOUT_TRANSFER_DST_OPTIMAL Ld (LayersSubresource dst)) ->
             exists c1 c2 c3 c4,
               recorded = cb ++ [c1; c2; native; c3; c4] /\
               moves c1 srcImage Ls VK_IMAGE_LAYOUT_TRANSFER_SRC_OPTIMAL src /\
               moves c2 dstImage Ld VK_IMAGE_LAYOUT_TRANSFER_DST_OPTIMAL dst /\
               moves c3 srcImage VK_IMAGE_LAYOUT_TRANSFER_SRC_OPTIMAL Ls src /\
               moves c4 dstImage VK_IMAGE_LAYOUT_TRANSFER_DST_OPTIMAL Ld dst /\
               (forall mip layer,
                   in_layers dst mip layer = true ->
                   run (cb ++ [c1; c2]) st dstImage mip layer =
                   VK_IMAGE_LAYOUT_TRANSFER_DST_OPTIMAL) /\
               (forall mip layer,
                   in_layers src mip layer = true ->
                   srcImage <> dstImage \/ in_layers dst mip layer = false ->
                   run (cb ++ [c1; c2]) st srcImage mip layer =
                   VK_IMAGE_LAYOUT_TRANSFER_SRC_OPTIMAL) /\
               (forall img mip layer,
                   (img =? srcImage) && in_layers src mip layer = false ->
                   (img =? dstImage) && in_layers dst mip layer = false ->
                   run (cb ++ [c1; c2]) st img mip layer = run cb st img mip layer) /\
               (forall img mip layer,
                   run recorded st img mip layer = run cb st img mip layer)).
  2: { split; apply Bracket; reflexivity. }
  intros native recorded Hnative ->.
  destruct (bracket_restores cb native srcImage Ls dstImage Ld
              (LayersSubresource src) (LayersSubresource dst) format st)
    as (c1 & c2 & c3 & c4 & E & T1 & T2 & T3 & T4 & Hd & Hs & Hall);
    [exact Hnative
    | intros mip layer; rewrite in_subresource_layers; apply Hsrc
    | intros mip layer; rewrite in_subresource_layers; apply Hdst
    | ].
  all: exists c1, c2, c3, c4.
  all: split; [exact E |].
  all: do 4 (split; [now apply Moves |]).
  all: split; [intros mip layer; rewrite <- in_subresource_layers; apply Hd |].
  all: split; [intros mip layer; rewrite <- !in_subresource_layers; apply Hs |].
  all: split; [| exact Hall].
  all: intros img mip layer Os Od; rewrite run_app; cbn [run fold_left].
  all: rewrite (is_transition_exec _ _ _ _ _ _ _ _ _ T2),
         (is_transition_exec _ _ _ _ _ _ _ _ _ T1), !in_subresource_layers.
  all: now rewrite Os, Od.
Qed.

End TransitionProperties.

(** ** MIP-map generation *)

Section GenerateMipsProperties.

Import LayoutTracker VKDevice.

Variable Format : Type.
Variable VKTypes_Unmap : VkFormat -> Format.
Variable IsDepthOrStencilFormat : Format -> bool.
Variable IsStencilFormat : Format -> bool.

Abbreviation GetImageAspectForVkFormat :=
  (GetImageAspectForVkFormat Format VKTypes_Unmap IsDepthOrStencilFormat IsStencilFormat).
Abbreviation GenerateMips :=
  (GenerateMips Format VKTypes_Unmap IsDepthOrStencilFormat IsStencilFormat).













(** *** The last barrier of a layer *)

Lemma MipLayerBody_last img aspect extent sub layer b cb :
  exists b' cb',
    MipLayerBody img aspect extent sub layer (b, cb) =
      (b', cb' ++ [CmdPipelineBarrier VK_PIPELINE_STAGE_TRANSFER_BIT
                                      VK_PIPELINE_STAGE_FRAGMENT_SHADER_BIT 0 b']) /\
    image b' = image b /\
    oldLayout b' = VK_IMAGE_LAYOUT_TRANSFER_DST_OPTIMAL /\
    newLayout b' = VK_IMAGE_LAYOUT_SHADER_READ_ONLY_OPTIMAL /\
    range_baseMipLevel (subresourceRange b') = uint32 (numMipLevels sub - 1).
Proof.
  unfold MipLayerBody, for_subrange.
  assert (I : forall n i st,
             image (fst (fst (for_loop n i (MipLevelBody img aspect sub layer) st))) =
             image (fst (fst st))).
  { induction n as [| n IH]; intros i st; [reflexivity |].
    cbn [for_loop]. rewrite IH. now destruct st as [[b0 e0] cb0]. }
  specialize (I (Z.to_nat (numMipLevels sub - 1)) 1 (b, extent, cb)).
  destruct (for_loop _ _ _ _) as [[b1 e1] cb1]. cbn in I.
  do 2 eexists. split; [reflexivity |]. cbn. now repeat split.
Qed.

(** Whenever there is at least one array layer, the command [GenerateMips]
    records last is a barrier from transfer-dst to shader-read-only whose base
    MIP level is [numMipLevels - 1], without the base level of the range. *)
Lemma GenerateMips_last_barrier cb img format extent sub :
  1 <= numArrayLayers sub ->
  exists cb' b,
    GenerateMips cb img format extent sub =
      cb' ++ [CmdPipelineBarrier VK_PIPELINE_STAGE_TRANSFER_BIT
                                 VK_PIPELINE_STAGE_FRAGMENT_SHADER_BIT 0 b] /\
    image b = img /\
    oldLayout b = VK_IMAGE_LAYOUT_TRANSFER_DST_OPTIMAL /\
    newLayout b = VK_IMAGE_LAYOUT_SHADER_READ_ONLY_OPTIMAL /\
    range_baseMipLevel (subresourceRange b) = uint32 (numMipLevels sub - 1).
Proof.
  intros HL. unfold VKDevice.GenerateMips, for_range, for_subrange.
  rewrite Z.sub_0_r.
  destruct (Z.to_nat (numArrayLayers sub)) as [| n] eqn:En; [lia |].
  rewrite for_loop_last.
  match goal with
  | |- context [MipLayerBody ?i ?a ?e ?s ?l (for_loop n 0 ?body ?st)] =>
      assert (I : image (fst (for_loop n 0 body st)) = img);
      [| destruct (for_loop n 0 body st) as [b0 cb0] ]
  end.
  { clear En. generalize 0 at 1. 
    match goal with
    | |- forall z, image (fst (for_loop n z ?body (?b0, ?c0))) = _ =>
        assert (G : forall m z b c, image b = img ->
                                    image (fst (for_loop m z body (b, c))) = img)
    end.
    { induction m as [| m IH]; intros z b c Hb; [exact Hb |].
      cbn [for_loop].
      destruct (MipLayerBody_last img
                  (GetImageAspectForVkFormat format) extent sub z b c)
        as (b' & cb' & E & Ei & _).
      rewrite E. apply IH. congruence. }
    intros z. now apply G. }
  cbn [fst] in I.
  destruct (MipLayerBody_last img (GetImageAspectForVkFormat format) extent sub
              (0 + Z.of_nat n) b0 cb0) as (b' & cb' & E & Ei & Eo & En' & Em).
  rewrite E. cbn [snd]. exists cb', b'. repeat split; congruence.
Qed.

End GenerateMipsProperties.

(** ** Host access to buffers *)

Section BufferProperties.

Import VKDevice.

Variable Map : Handle -> Z -> Z -> bool.

(** C10. When the buffer has no memory region, or when mapping the region's
    memory at the requested offset yields null, [WriteBuffer] and [ReadBuffer]
    return without raising an error and leave device memory and host memory as
    they were: no byte is copied in either direction. *)
Theorem WriteBuffer_ReadBuffer_silent_noop
    (buffer : VKDeviceBuffer) (data size offset : Z) (m : Memory) :
  (GetMemoryRegion buffer = None \/
   exists region,
     GetMemoryRegion buffer = Some region /\
     Map (GetParentChunk region) (uint64 (GetOffset region + offset)) size = false) ->
  WriteBuffer Map buffer data size offset m = (Returned, m) /\
  ReadBuffer Map buffer data size offset m = (Returned, m).
Proof.
  unfold WriteBuffer, ReadBuffer.
  intros [E | (region & E & F)]; rewrite E; [| rewrite F]; now split.
Qed.

(** With a region and a successful mapping the bytes do travel: [size] bytes of
    [data] end up in the chunk at the region's offset plus [offset]. *)
Lemma WriteBuffer_copies (buffer : VKDeviceBuffer) (data size offset : Z)
    (m : Memory) region k :
  GetMemoryRegion buffer = Some region ->
  Map (GetParentChunk region) (uint64 (GetOffset region + offset)) size = true ->
  0 <= k < size ->
  deviceBytes (snd (WriteBuffer Map buffer data size offset m))
    (GetParentChunk region) (uint64 (GetOffset region + offset) + k) =
  hostBytes m (data + k).
Proof.
  intros E F Hk. unfold WriteBuffer. rewrite E, F. cbn.
  rewrite Z.eqb_refl. cbn [andb].
  destruct (Z.leb_spec (uint64 (GetOffset region + offset))
              (uint64 (GetOffset region + offset) + k)); [| lia].
  destruct (Z.ltb_spec (uint64 (GetOffset region + offset) + k)
              (uint64 (GetOffset region + offset) + size)); [| lia].
  cbn. f_equal. lia.
Qed.

End BufferProperties.

(** ** Concrete runs of the device code *)

Section DeviceRuns.

Import LayoutTracker VKDevice DeviceExamples.

(** C4, on the code.  [GenerateMips] over the levels 1 and 2 of an image
    (base level 1, two levels) blits level 1 into level 2, so level 2 is the
    last level generated; but the barrier recorded last, from transfer-dst to
    shader-read-only, names level 1 ([numMipLevels - 1]), and level 2 is left
    in transfer-dst layout. *)
Theorem GenerateMips_last_transition_misses_base_level :
  let cb := GenerateMips unit aspect_unit never never [] 7 VK_FORMAT_B8G8R8A8_UNORM
              {| width := 4; height := 4; depth := 1 |} levels_1_2 in
  map (fun blit => (mipLevel (blit_srcSubresource blit),
                    mipLevel (blit_dstSubresource blit))) (BlitsOf cb) = [(1, 2)] /\
  (exists cb' b,
      cb = cb' ++ [CmdPipelineBarrier VK_PIPELINE_STAGE_TRANSFER_BIT
                                      VK_PIPELINE_STAGE_FRAGMENT_SHADER_BIT 0 b] /\
      oldLayout b = VK_IMAGE_LAYOUT_TRANSFER_DST_OPTIMAL /\
      newLayout b = VK_IMAGE_LAYOUT_SHADER_READ_ONLY_OPTIMAL /\
      range_baseMipLevel (subresourceRange b) = 1 /\
      levelCount (subresourceRange b) = 1) /\
  run cb all_shader_read_only 7 1 0 = VK_IMAGE_LAYOUT_SHADER_READ_ONLY_OPTIMAL /\
  run cb all_shader_read_only 7 2 0 = VK_IMAGE_LAYOUT_TRANSFER_DST_OPTIMAL.
Proof.
  cbv zeta. split; [reflexivity |]. split; [| split; reflexivity].
  destruct (GenerateMips_last_barrier unit aspect_unit never never [] 7
              VK_FORMAT_B8G8R8A8_UNORM {| width := 4; height := 4; depth := 1 |}
              levels_1_2) as (cb' & b & E & _ & Eo & En & Em); [cbn; lia |].
  exists cb', b. repeat split; try assumption.
  assert (L : last (GenerateMips unit aspect_unit never never [] 7
                      VK_FORMAT_B8G8R8A8_UNORM
                      {| width := 4; height := 4; depth := 1 |} levels_1_2)
                   (CmdPipelineBarrier 0 0 0 b) =
              CmdPipelineBarrier VK_PIPELINE_STAGE_TRANSFER_BIT
                VK_PIPELINE_STAGE_FRAGMENT_SHADER_BIT 0 b).
  { rewrite E. apply last_last. }
  vm_compute in L. injection L as <-. reflexivity.
Qed.

Lemma CopyImage_ResolveImage_restore_layouts_witness :
  run (CopyImage unit aspect_unit never never [] 1
         VK_IMAGE_LAYOUT_SHADER_READ_ONLY_OPTIMAL 2
         VK_IMAGE_LAYOUT_COLOR_ATTACHMENT_OPTIMAL region0 VK_FORMAT_B8G8R8A8_UNORM)
      layouts0 1 0 0 = VK_IMAGE_LAYOUT_SHADER_READ_ONLY_OPTIMAL /\
  run (ResolveImage unit aspect_unit never never [] 1
         VK_IMAGE_LAYOUT_SHADER_READ_ONLY_OPTIMAL 2
         VK_IMAGE_LAYOUT_COLOR_ATTACHMENT_OPTIMAL region0 VK_FORMAT_B8G8R8A8_UNORM)
      layouts0 2 0 0 = VK_IMAGE_LAYOUT_COLOR_ATTACHMENT_OPTIMAL.
Proof.
  assert (Hs : forall mip layer,
             in_layers (srcSubresource region0) mip layer = true ->
             run [] layouts0 1 mip layer = VK_IMAGE_LAYOUT_SHADER_READ_ONLY_OPTIMAL)
    by (intros; reflexivity).
  assert (Hd : forall mip layer,
             in_layers (dstSubresource region0) mip layer = true ->
             run [] layouts0 2 mip layer = VK_IMAGE_LAYOUT_COLOR_ATTACHMENT_OPTIMAL)
    by (intros; reflexivity).
  destruct (CopyImage_ResolveImage_restore_layouts unit aspect_unit never never
              [] 1 VK_IMAGE_LAYOUT_SHADER_READ_ONLY_OPTIMAL
              2 VK_IMAGE_LAYOUT_COLOR_ATTACHMENT_OPTIMAL region0
              VK_FORMAT_B8G8R8A8_UNORM layouts0 Hs Hd)
    as [(c1 & c2 & c3 & c4 & _ & _ & _ & _ & _ & _ & _ & _ & Hc)
        (d1 & d2 & d3 & d4 & _ & _ & _ & _ & _ & _ & _ & _ & Hr)].
  split; [apply (Hc 1 0 0) | apply (Hr 2 0 0)].
Defined.


Lemma WriteBuffer_ReadBuffer_silent_noop_witness :
  WriteBuffer (fun _ _ _ => true) no_region 0 16 0 memory0 = (Returned, memory0) /\
  ReadBuffer (fun _ _ _ => true) no_region 0 16 0 memory0 = (Returned, memory0).
Proof.
  apply (WriteBuffer_ReadBuffer_silent_noop (fun _ _ _ => true) no_region 0 16 0 memory0).
  left. reflexivity.
Defined.

End DeviceRuns.

(** ** The swap chain *)

Section SwapChainProperties.

Import VKRenderContext ContextExamples.

(** C5. [PickSwapChainSize] returns the requested count n clamped by the
    bounds the surface reports: the value is max(minImageCount, min(n,
    maxImageCount)) and never below minImageCount.  Whenever minImageCount <=
    maxImageCount it is n clamped into the interval [minImageCount,
    maxImageCount]: it lies in the interval, a request inside the interval is
    returned as it is, a request below yields the minimum and a request above
    yields the maximum.  Requesting 1 when the minimum is 2 yields 2, and
    requesting 10 when the maximum is 3 yields 3. *)
Theorem PickSwapChainSize_clamps (c : Context) (n : Z) :
  let lo := minImageCount (caps (surfaceSupportDetails_ c)) in
  let hi := maxImageCount (caps (surfaceSupportDetails_ c)) in
  PickSwapChainSize c n = Z.max lo (Z.min n hi) /\
  lo <= PickSwapChainSize c n /\
  (lo = 2 -> PickSwapChainSize c 1 = 2) /\
  (lo <= hi ->
   clamped_into lo hi n (PickSwapChainSize c n) /\
   (hi = 3 -> PickSwapChainSize c 10 = 3)).
Proof.
  intros lo hi. unfold clamped_into, PickSwapChainSize.
  fold lo hi. rewrite !std_max_spec, !std_min_spec. repeat split; lia.
Qed.

(** C9. When the surface reports maxImageCount = 0, the convention for "no
    upper limit", [PickSwapChainSize] returns minImageCount whatever count is
    requested: the clamp computes max(minImageCount, min(n, 0)). *)
Theorem PickSwapChainSize_without_upper_limit (c : Context) (n : Z) :
  is_uint32 n ->
  is_uint32 (minImageCount (caps (surfaceSupportDetails_ c))) ->
  maxImageCount (caps (surfaceSupportDetails_ c)) = 0 ->
  PickSwapChainSize c n = minImageCount (caps (surfaceSupportDetails_ c)) /\
  PickSwapChainSize c n =
    Z.max (minImageCount (caps (surfaceSupportDetails_ c))) (Z.min n 0).
Proof.
  unfold is_uint32, PickSwapChainSize. intros Hn Hlo ->.
  rewrite std_max_spec, std_min_spec. lia.
Qed.

Variable outside : list Call -> Answer.
Variable platform : Platform.

Abbreviation ResizeBuffersPrimary := (ResizeBuffersPrimary outside platform).
Abbreviation Present := (Present outside).

(** C6. [ResizeBuffersPrimary] with the resolution the swap chain already has
    makes no call at all (no queue idle, nothing destroyed or created), leaves
    every member of the context as it is and returns true.  So whenever a call
    is made or a member changes, the requested resolution differed from the
    current extent. *)
Theorem ResizeBuffersPrimary_same_resolution (resolution : Extent2D) (w : World) :
  (width2 (swapChainExtent_ (ctx w)) = res_width resolution ->
   height2 (swapChainExtent_ (ctx w)) = res_height resolution ->
   ResizeBuffersPrimary resolution w = (Ok true, w)) /\
  (snd (ResizeBuffersPrimary resolution w) <> w ->
   width2 (swapChainExtent_ (ctx w)) <> res_width resolution \/
   height2 (swapChainExtent_ (ctx w)) <> res_height resolution).
Proof.
  assert (Same : width2 (swapChainExtent_ (ctx w)) = res_width resolution ->
                 height2 (swapChainExtent_ (ctx w)) = res_height resolution ->
                 ResizeBuffersPrimary resolution w = (Ok true, w)).
  { intros Hw Hh. unfold VKRenderContext.ResizeBuffersPrimary, bind, this, ret.
    rewrite Hw, Hh, !Z.eqb_refl. reflexivity. }
  split; [exact Same |].
  intros Hchanged.
  destruct (Z.eq_dec (width2 (swapChainExtent_ (ctx w))) (res_width resolution))
    as [Hw | Hw]; [| now left].
  destruct (Z.eq_dec (height2 (swapChainExtent_ (ctx w))) (res_height resolution))
    as [Hh | Hh]; [| now right].
  exfalso. apply Hchanged. now rewrite (Same Hw Hh).
Qed.



(** *** What a resize does when the resolution differs *)

Lemma extends_ret {A} (a : A) : extends (ret a).
Proof. intros w. exists []. cbn. now rewrite app_nil_r. Qed.

Lemma extends_throw {A} what : extends (@throw A what).
Proof. intros w. exists []. cbn. now rewrite app_nil_r. Qed.

Lemma extends_this : extends this.
Proof. intros w. exists []. cbn. now rewrite app_nil_r. Qed.

Lemma extends_assign f : extends (assign f).
Proof. intros w. exists []. cbn. now rewrite app_nil_r. Qed.

Lemma extends_call c : extends (call outside c).
Proof. intros w. exists [c]. reflexivity. Qed.

Lemma extends_bind {A B} (m : M A) (k : A -> M B) :
  extends m -> (forall a, extends (k a)) -> extends (bind m k).
Proof.
  intros Hm Hk w. unfold bind. destruct (Hm w) as [t1 E1].
  destruct (m w) as [[a | what |] w1]; cbn [snd] in E1.
  - destruct (Hk a w1) as [t2 E2]. exists (t1 ++ t2).
    now rewrite E2, E1, app_assoc.
  - exists t1. exact E1.
  - exists t1. exact E1.
Qed.

Lemma extends_for_loopM body n :
  (forall i, extends (body i)) -> forall i, extends (for_loopM n i body).
Proof.
  intros Hb. induction n as [| n IH]; intros i; cbn [for_loopM].
  - apply extends_ret.
  - apply extends_bind; [apply Hb | intros _; apply IH].
Qed.

Create HintDb trace_extension.

Lemma extends_undefined {A} : extends (@undefined A).
Proof. intros w. exists []. cbn. now rewrite app_nil_r. Qed.

Lemma extends_at_index i : extends (at_index i).
Proof. unfold at_index. destruct (i <? _); [apply extends_ret | apply extends_undefined]. Qed.

#[local] Hint Resolve extends_ret extends_throw extends_this extends_assign
  extends_call extends_undefined extends_at_index : trace_extension.

(** Known pieces first, so that none of them is taken apart again. *)
Ltac extends_step :=
  first
    [ solve [auto 1 with trace_extension]
    | apply extends_for_loopM; intros ?
    | match goal with
      | |- extends (if ?b then _ else _) => destruct b
      | |- extends (match ?x with _ => _ end) => destruct x
      | |- extends (bind _ _) => apply extends_bind; [| intros ?]
      end ].

Ltac extends_auto := repeat extends_step.

Lemma extends_Release h : extends (Release outside h).
Proof. unfold Release. extends_auto. Qed.

Lemma extends_VKThrowIfFailed r info : extends (VKThrowIfFailed r info).
Proof. unfold VKThrowIfFailed. extends_auto. Qed.

#[local] Hint Resolve extends_Release extends_VKThrowIfFailed : trace_extension.

Lemma extends_CreatePresentSemaphores : extends (CreatePresentSemaphores outside).
Proof. unfold CreatePresentSemaphores, CreateGpuSemaphore. extends_auto. Qed.

Lemma extends_CreateGpuSurface : extends (CreateGpuSurface outside platform).
Proof. unfold CreateGpuSurface. extends_auto. Qed.

Lemma extends_ReleaseRenderBuffers : extends (ReleaseRenderBuffers outside).
Proof. unfold ReleaseRenderBuffers, for_each_index. extends_auto. Qed.

Lemma extends_AcquireNextPresentImage : extends (AcquireNextPresentImage outside).
Proof. unfold AcquireNextPresentImage. extends_auto. Qed.

Lemma extends_CreateSwapChainImageViews : extends (CreateSwapChainImageViews outside).
Proof. unfold CreateSwapChainImageViews, for_each_index. extends_auto. Qed.

#[local] Hint Resolve extends_AcquireNextPresentImage
  extends_CreateSwapChainImageViews : trace_extension.

Lemma extends_CreateSwapChain resolution vsync :
  extends (CreateSwapChain outside resolution vsync).
Proof. unfold CreateSwapChain. extends_auto. Qed.

Lemma extends_CreateSwapChainFramebuffers :
  extends (CreateSwapChainFramebuffers outside).
Proof. unfold CreateSwapChainFramebuffers, for_each_index. extends_auto. Qed.

Lemma extends_CreateColorBuffers resolution :
  extends (CreateColorBuffers outside resolution).
Proof. unfold CreateColorBuffers, for_each_index. extends_auto. Qed.

Lemma extends_CreateDepthStencilBuffer resolution :
  extends (CreateDepthStencilBuffer outside resolution).
Proof. unfold CreateDepthStencilBuffer. extends_auto. Qed.

#[local] Hint Resolve extends_CreateSwapChain extends_CreateSwapChainFramebuffers
  extends_CreateColorBuffers extends_CreateDepthStencilBuffer : trace_extension.

Lemma extends_CreateResolutionDependentResources resolution :
  extends (CreateResolutionDependentResources outside resolution).
Proof. unfold CreateResolutionDependentResources. extends_auto. Qed.

#[local] Hint Resolve extends_CreatePresentSemaphores extends_CreateGpuSurface
  extends_ReleaseRenderBuffers extends_CreateResolutionDependentResources
  : trace_extension.

(** With a resolution other than the current extent, the first thing a resize
    does is wait for the graphics queue to be idle. *)
Lemma ResizeBuffersPrimary_idles_first (resolution : Extent2D) (w : World) :
  width2 (swapChainExtent_ (ctx w)) <> res_width resolution \/
  height2 (swapChainExtent_ (ctx w)) <> res_height resolution ->
  exists t,
    trace (snd (ResizeBuffersPrimary resolution w)) =
    trace w ++ vkQueueWaitIdle (graphicsQueue_ (ctx w)) :: t.
Proof.
  intros Hdiff.
  assert (C : negb (width2 (swapChainExtent_ (ctx w)) =? res_width resolution) ||
              negb (height2 (swapChainExtent_ (ctx w)) =? res_height resolution) = true).
  { apply orb_true_iff. destruct Hdiff as [H | H]; [left | right];
      apply negb_true_iff, Z.eqb_neq; exact H. }
  assert (R : extends (CreatePresentSemaphores outside ;;
                       CreateGpuSurface outside platform ;;
                       ReleaseRenderBuffers outside ;;
                       CreateResolutionDependentResources outside resolution ;;
                       ret true)).
  { extends_auto. }
  specialize (R {| ctx := ctx w;
                   trace := trace w ++ [vkQueueWaitIdle (graphicsQueue_ (ctx w))] |}).
  destruct R as [t R]. exists t.
  unfold VKRenderContext.ResizeBuffersPrimary.
  unfold bind at 1. unfold this at 1. cbv iota beta. rewrite C.
  unfold bind at 1 2. unfold call at 1. cbv iota beta zeta.
  cbn [trace ctx] in R |- *. rewrite <- app_assoc in R. cbn [app] in R.
  rewrite <- R. clear R.
  unfold bind.
  repeat match goal with
         | |- context [match ?m ?x with (_, _) => _ end] =>
             destruct (m x) as [[? | ? |] ?]
         end; reflexivity.
Qed.

End SwapChainProperties.

(** ** The compute pipeline state of Direct3D 12 *)

Section ComputePSOProperties.

Import D3D12.

Variable device : D3D12_COMPUTE_PIPELINE_STATE_DESC -> HRESULT * Z.
Variable ChooseRootSignature : option Z -> Z -> Z.

Abbreviation D3D12ComputePSO_new := (D3D12ComputePSO_new device ChooseRootSignature).

(** C8. Constructing a [D3D12ComputePSO] from a descriptor whose compute shader
    is null throws "cannot create D3D compute pipeline without compute shader"
    and calls neither the device nor anything else; with a compute shader
    present the constructor goes on to ask the device for the native pipeline
    state, with the byte code of that shader, and the outcome is the device's. *)
Theorem D3D12ComputePSO_requires_compute_shader
    (defaultPipelineLayout : Z) (desc : ComputePipelineDescriptor)
    (pipelineCache : option D3D12PipelineCache) (calls : list Call) :
  (computeShader desc = None ->
   D3D12ComputePSO_new defaultPipelineLayout desc pipelineCache calls =
     (Throw "cannot create D3D compute pipeline without compute shader", calls)) /\
  (forall shader, computeShader desc = Some shader ->
   exists stateDesc,
     CS stateDesc = GetByteCode shader /\
     pRootSignature stateDesc =
       ChooseRootSignature (pipelineLayout desc) defaultPipelineLayout /\
     CachedPSO stateDesc =
       match pipelineCache with
       | Some cache => GetCachedPSO cache
       | None => {| pCachedBlob := 0; CachedBlobSizeInBytes := 0 |}
       end /\
     D3D12ComputePSO_new defaultPipelineLayout desc pipelineCache calls =
       if FAILED (fst (device stateDesc))
       then (Throw "ID3D12PipelineState",
             calls ++ [CreateComputePipelineState stateDesc])
       else (Ok {| GetRootSignature := pRootSignature stateDesc;
                   GetNative := snd (device stateDesc) |},
             calls ++ [CreateComputePipelineState stateDesc;
                       SetNativeAndUpdateCache (snd (device stateDesc)) pipelineCache])).
Proof.
  unfold D3D12.D3D12ComputePSO_new. split.
  - intros ->. reflexivity.
  - intros shader ->.
    destruct pipelineCache as [cache |];
      unfold CreateNativePSO, CreateDXComputePipelineState; cbn.
    + exists {| pRootSignature :=
                  ChooseRootSignature (pipelineLayout desc) defaultPipelineLayout;
                CS := GetByteCode shader;
                CachedPSO := GetCachedPSO cache |}.
      repeat split. destruct (device _) as [hr native]. cbn.
      destruct (FAILED hr); [reflexivity |]. now rewrite <- app_assoc.
    + exists {| pRootSignature :=
                  ChooseRootSignature (pipelineLayout desc) defaultPipelineLayout;
                CS := GetByteCode shader;
                CachedPSO := {| pCachedBlob := 0; CachedBlobSizeInBytes := 0 |} |}.
      repeat split. destruct (device _) as [hr native]. cbn.
      destruct (FAILED hr); [reflexivity |]. now rewrite <- app_assoc.
Qed.

End ComputePSOProperties.

(** ** Concrete runs of the render context and of the constructor *)

Section ContextRuns.

Import VKRenderContext ContextExamples D3D12Examples.

Lemma PickSwapChainSize_clamps_witness :
  clamped_into 2 3 10 (PickSwapChainSize (context_800_600 caps_2_3) 10) /\
  PickSwapChainSize (context_800_600 caps_2_3) 1 = 2 /\
  PickSwapChainSize (context_800_600 caps_2_3) 10 = 3.
Proof.
  destruct (PickSwapChainSize_clamps (context_800_600 caps_2_3) 10)
    as (_ & _ & Hone & Hin).
  destruct Hin as [Hclamped Hten]; [cbn; lia |].
  split; [exact Hclamped | split; [apply Hone | apply Hten]]; reflexivity.
Defined.

(** C5 as it is written, for all bounds a surface reports: where the surface
    reports no upper limit (maxImageCount = 0) with a minimum of 2, a request
    for 10 images yields 2, which is not 10 clamped into [2, 0]; the interval
    is empty. *)
Lemma PickSwapChainSize_clamps_counterexample :
  let c := context_800_600 caps_2_unlimited in
  minImageCount (caps (surfaceSupportDetails_ c)) = 2 /\
  maxImageCount (caps (surfaceSupportDetails_ c)) = 0 /\
  PickSwapChainSize c 10 = 2 /\
  ~ clamped_into (minImageCount (caps (surfaceSupportDetails_ c)))
                 (maxImageCount (caps (surfaceSupportDetails_ c)))
                 10 (PickSwapChainSize c 10).
Proof.
  cbv zeta. repeat split. unfold clamped_into. cbn. lia.
Qed.

Lemma PickSwapChainSize_without_upper_limit_witness :
  PickSwapChainSize (context_800_600 caps_2_unlimited) 3 = 2 /\
  PickSwapChainSize (context_800_600 caps_2_unlimited) 3 = Z.max 2 (Z.min 3 0).
Proof.
  apply (PickSwapChainSize_without_upper_limit (context_800_600 caps_2_unlimited) 3);
    [unfold is_uint32, uint32_max; lia
    | unfold is_uint32, uint32_max; cbn; lia
    | reflexivity].
Defined.

Lemma ResizeBuffersPrimary_same_resolution_witness :
  ResizeBuffersPrimary willing LLGL_OS_LINUX
    {| res_width := 800; res_height := 600 |} world_800_600 = (Ok true, world_800_600).
Proof.
  apply (proj1 (ResizeBuffersPrimary_same_resolution willing LLGL_OS_LINUX
                  {| res_width := 800; res_height := 600 |} world_800_600));
    reflexivity.
Defined.


Lemma D3D12ComputePSO_requires_compute_shader_witness :
  D3D12.D3D12ComputePSO_new creating default_root 1 no_shader None [] =
    (D3D12.Throw "cannot create D3D compute pipeline without compute shader", []).
Proof.
  apply (proj1 (D3D12ComputePSO_requires_compute_shader creating default_root
                  1 no_shader None [])).
  reflexivity.
Defined.

(** A resize to another resolution under a willing driver: the queue is idled,
    semaphores, surface, swap chain, views and framebuffers are made anew. *)
Example resize_1024_768 :
  let r := ResizeBuffersPrimary willing LLGL_OS_LINUX
             {| res_width := 1024; res_height := 768 |} world_800_600 in
  fst r = Ok true /\
  swapChainExtent_ (ctx (snd r)) = {| width2 := 1024; height2 := 768 |} /\
  List.length (trace (snd r)) = 26%nat /\
  nth 0 (trace (snd r)) GetNativeHandle = vkQueueWaitIdle 7.
Proof. vm_compute. repeat split. Qed.

(** A driver that fails the submit: [Present] throws after the one call. *)
Example present_device_lost :
  Present lost world_800_600 =
    (Throw "failed to submit semaphore to Vulkan graphics queue",
     {| ctx := ctx world_800_600;
        trace := [vkQueueSubmit 7 (PresentSubmitInfo (ctx world_800_600))
                    VK_NULL_HANDLE] |}).
Proof. reflexivity. Qed.

(** With a shader, the constructor reaches the device. *)
Example compute_pso_created :
  D3D12.D3D12ComputePSO_new creating default_root 1 some_shader None [] =
    (D3D12.Ok {| D3D12.GetRootSignature := 1; D3D12.GetNative := 77 |},
     [D3D12.CreateComputePipelineState
        {| D3D12.pRootSignature := 1;
           D3D12.CS := {| D3D12.pShaderBytecode := 4096; D3D12.BytecodeLength := 512 |};
           D3D12.CachedPSO := {| D3D12.pCachedBlob := 0;
                                 D3D12.CachedBlobSizeInBytes := 0 |} |};
      D3D12.SetNativeAndUpdateCache 77 None]).
Proof. reflexivity. Qed.

End ContextRuns.

(** * Further properties of the code *)

(** ** Layouts after MIP-map generation *)

Section GenerateMipsLayouts.

Import LayoutTracker VKDevice.

Variable Format : Type.
Variable VKTypes_Unmap : VkFormat -> Format.
Variable IsDepthOrStencilFormat : Format -> bool.
Variable IsStencilFormat : Format -> bool.

Abbreviation GenerateMips' :=
  (VKDevice.GenerateMips Format VKTypes_Unmap IsDepthOrStencilFormat IsStencilFormat).

(** A barrier over one level of one layer changes one cell. *)
Lemma exec_one_cell s d f b st i m l :
  levelCount (subresourceRange b) = 1 ->
  range_layerCount (subresourceRange b) = 1 ->
  exec (CmdPipelineBarrier s d f b) st i m l =
  if (i =? image b) && (m =? range_baseMipLevel (subresourceRange b)) &&
     (l =? range_baseArrayLayer (subresourceRange b))
  then newLayout b else st i m l.
Proof.
  intros Hc Hl. unfold exec, covers, in_range. rewrite Hc, Hl.
  destruct (i =? image b); cbn [andb]; [| reflexivity].
  destruct (Z.eqb_spec m (range_baseMipLevel (subresourceRange b)));
    destruct (Z.eqb_spec l (range_baseArrayLayer (subresourceRange b)));
    destruct (Z.leb_spec (range_baseMipLevel (subresourceRange b)) m);
    destruct (Z.ltb_spec m (range_baseMipLevel (subresourceRange b) + 1));
    destruct (Z.leb_spec (range_baseArrayLayer (subresourceRange b)) l);
    destruct (Z.ltb_spec l (range_baseArrayLayer (subresourceRange b) + 1));
    cbn [andb]; try reflexivity; lia.
Qed.

Lemma exec_blit a b c d e f st : exec (CmdBlitImage a b c d e f) st = st.
Proof. reflexivity. Qed.

(** One round of the inner loop leaves the level it read from in
    shader-read-only layout and changes no other cell. *)
Lemma MipLevelBody_layouts img aspect sub layer i b e cb :
  levelCount (subresourceRange b) = 1 ->
  range_layerCount (subresourceRange b) = 1 ->
  let r := MipLevelBody img aspect sub layer i (b, e, cb) in
  image (fst (fst r)) = image b /\
  levelCount (subresourceRange (fst (fst r))) = 1 /\
  range_layerCount (subresourceRange (fst (fst r))) = 1 /\
  range_baseArrayLayer (subresourceRange (fst (fst r))) =
    uint32 (sub_baseArrayLayer sub + layer) /\
  forall st i' m l,
    run (snd r) st i' m l =
    if (i' =? image b) && (m =? uint32 (sub_baseMipLevel sub + i - 1)) &&
       (l =? uint32 (sub_baseArrayLayer sub + layer))
    then VK_IMAGE_LAYOUT_SHADER_READ_ONLY_OPTIMAL else run cb st i' m l.
Proof.
  intros Hc Hl r. subst r. unfold MipLevelBody. cbn [fst snd].
  repeat split; try first [exact Hc | exact Hl].
  intros st i' m l. rewrite !run_app. cbn [run fold_left].
  rewrite (exec_one_cell _ _ _ _ _ i' m l); [| exact Hc | exact Hl].
  rewrite exec_blit.
  rewrite (exec_one_cell _ _ _ _ _ i' m l); [| exact Hc | exact Hl].
  cbn. now destruct ((i' =? image b) && _ && _).
Qed.


Lemma uint32_small v : 0 <= v < 2 ^ 32 -> uint32 v = v.
Proof. intros Hv. unfold uint32. now apply Z.mod_small. Qed.

Ltac decide_cells :=
  repeat match goal with
         | |- context [Z.eqb ?a ?b] => destruct (Z.eqb_spec a b)
         | |- context [Z.leb ?a ?b] => destruct (Z.leb_spec a b)
         | |- context [Z.ltb ?a ?b] => destruct (Z.ltb_spec a b)
         end;
  cbn [andb orb negb]; try reflexivity; try lia.

(** The rounds of the inner loop put the levels they read from, one after the
    other, into shader-read-only layout. *)
Lemma level_loop_layouts img aspect sub layer n :
  0 <= sub_baseArrayLayer sub + layer < 2 ^ 32 ->
  forall i b e cb,
    0 <= sub_baseMipLevel sub + i - 1 ->
    sub_baseMipLevel sub + i - 1 + Z.of_nat n <= 2 ^ 32 ->
    image b = img ->
    levelCount (subresourceRange b) = 1 ->
    range_layerCount (subresourceRange b) = 1 ->
    let r := for_loop n i (MipLevelBody img aspect sub layer) (b, e, cb) in
    image (fst (fst r)) = img /\
    levelCount (subresourceRange (fst (fst r))) = 1 /\
    range_layerCount (subresourceRange (fst (fst r))) = 1 /\
    range_baseArrayLayer (subresourceRange (fst (fst r))) =
      (if 0 <? Z.of_nat n then sub_baseArrayLayer sub + layer
       else range_baseArrayLayer (subresourceRange b)) /\
    forall st i' m l,
      run (snd r) st i' m l =
      if (i' =? img) && (l =? sub_baseArrayLayer sub + layer) &&
         (sub_baseMipLevel sub + i - 1 <=? m) &&
         (m <? sub_baseMipLevel sub + i - 1 + Z.of_nat n)
      then VK_IMAGE_LAYOUT_SHADER_READ_ONLY_OPTIMAL else run cb st i' m l.
Proof.
  intros HL. induction n as [| n IH]; intros i b e cb Hlo Hhi Hi Hc Hl.
  - cbn [for_loop fst snd]. repeat split; try assumption.
    intros st i' m l. cbn [Z.of_nat]. decide_cells.
  - cbn [for_loop].
    pose proof (MipLevelBody_layouts img aspect sub layer i b e cb Hc Hl) as P.
    cbv zeta in P.
    destruct (MipLevelBody img aspect sub layer i (b, e, cb)) as [[b1 e1] cb1].
    cbn [fst snd] in P. destruct P as (Pi & Pc & Pl & Pb & Prun).
    assert (Hi1 : image b1 = img) by congruence.
    specialize (IH (i + 1) b1 e1 cb1 ltac:(lia) ltac:(lia) Hi1 Pc Pl).
    cbv zeta in IH. destruct IH as (Ii & Ic & Il & Ib & Irun).
    repeat split; try assumption.
    + rewrite Ib, Pb, uint32_small by lia.
      destruct (Z.ltb_spec 0 (Z.of_nat n)); destruct (Z.ltb_spec 0 (Z.of_nat (S n)));
        try reflexivity; lia.
    + intros st i' m l. rewrite Irun, Prun, Hi.
      rewrite !uint32_small by lia. rewrite Nat2Z.inj_succ. decide_cells.
Qed.

(** One pass of the outer loop: the levels below the last of the layer, and
    level [numMipLevels - 1] of the layer the barrier names at its end. *)
Lemma MipLayerBody_layouts img aspect extent sub layer b cb :
  sub_baseMipLevel sub = 0 ->
  1 <= numMipLevels sub <= 2 ^ 32 ->
  0 <= sub_baseArrayLayer sub + layer < 2 ^ 32 ->
  image b = img ->
  levelCount (subresourceRange b) = 1 ->
  range_layerCount (subresourceRange b) = 1 ->
  let r := MipLayerBody img aspect extent sub layer (b, cb) in
  let last_layer := if 2 <=? numMipLevels sub
                    then sub_baseArrayLayer sub + layer
                    else range_baseArrayLayer (subresourceRange b) in
  image (fst r) = img /\
  levelCount (subresourceRange (fst r)) = 1 /\
  range_layerCount (subresourceRange (fst r)) = 1 /\
  range_baseArrayLayer (subresourceRange (fst r)) = last_layer /\
  forall st i' m l,
    run (snd r) st i' m l =
    if (i' =? img) &&
       ((l =? sub_baseArrayLayer sub + layer) && (0 <=? m) &&
        (m <? numMipLevels sub - 1)
        || (l =? last_layer) && (m =? numMipLevels sub - 1))
    then VK_IMAGE_LAYOUT_SHADER_READ_ONLY_OPTIMAL else run cb st i' m l.
Proof.
  intros HB HK HL Hi Hc Hl r last_layer. subst r. unfold MipLayerBody, for_subrange.
  pose proof (level_loop_layouts img aspect sub layer
                (Z.to_nat (numMipLevels sub - 1)) HL 1 b extent cb
                ltac:(lia) ltac:(lia) Hi Hc Hl) as P.
  cbv zeta in P.
  destruct (for_loop (Z.to_nat (numMipLevels sub - 1)) 1
              (MipLevelBody img aspect sub layer) (b, extent, cb)) as [[b1 e1] cb1].
  cbn [fst snd] in P |- *. destruct P as (Pi & Pc & Pl & Pb & Prun).
  rewrite Z2Nat.id in Pb, Prun by lia.
  assert (Eb : range_baseArrayLayer (subresourceRange b1) = last_layer).
  { rewrite Pb. subst last_layer.
    destruct (Z.ltb_spec 0 (numMipLevels sub - 1));
      destruct (Z.leb_spec 2 (numMipLevels sub)); try reflexivity; lia. }
  repeat split; try assumption.
  intros st i' m l. rewrite run_app. cbn [run fold_left].
  rewrite (exec_one_cell _ _ _ _ _ i' m l); [| exact Pc | exact Pl].
  cbn [image newLayout set_layouts set_access set_baseMipLevel set_range
       subresourceRange range_baseMipLevel range_baseArrayLayer].
  rewrite Prun, Pi, Eb, HB, uint32_small by lia.
  decide_cells.
Qed.


Lemma layer_loop_layouts img aspect extent sub n :
  sub_baseMipLevel sub = 0 ->
  2 <= numMipLevels sub <= 2 ^ 32 ->
  forall a b cb,
    0 <= sub_baseArrayLayer sub + a ->
    sub_baseArrayLayer sub + a + Z.of_nat n <= 2 ^ 32 ->
    image b = img ->
    levelCount (subresourceRange b) = 1 ->
    range_layerCount (subresourceRange b) = 1 ->
    forall st i' m l,
      run (snd (for_loop n a (MipLayerBody img aspect extent sub) (b, cb))) st i' m l =
      if (i' =? img) && (sub_baseArrayLayer sub + a <=? l) &&
         (l <? sub_baseArrayLayer sub + a + Z.of_nat n) &&
         (0 <=? m) && (m <? numMipLevels sub)
      then VK_IMAGE_LAYOUT_SHADER_READ_ONLY_OPTIMAL else run cb st i' m l.
Proof.
  intros HB HK. induction n as [| n IH]; intros a b cb Hlo Hhi Hi Hc Hl st i' m l.
  - cbn [for_loop snd Z.of_nat]. decide_cells.
  - cbn [for_loop].
    pose proof (MipLayerBody_layouts img aspect extent sub a b cb HB
                  ltac:(lia) ltac:(lia) Hi Hc Hl) as P.
    cbv zeta in P.
    destruct (MipLayerBody img aspect extent sub a (b, cb)) as [b1 cb1].
    cbn [fst snd] in P. destruct P as (Pi & Pc & Pl & Pb & Prun).
    rewrite (IH (a + 1) b1 cb1 ltac:(lia) ltac:(lia) Pi Pc Pl), Prun.
    rewrite Nat2Z.inj_succ.
    destruct (Z.leb_spec 2 (numMipLevels sub)); [| lia].
    decide_cells.
Qed.

Lemma layer_loop_layouts_one_level img aspect extent sub n :
  sub_baseMipLevel sub = 0 ->
  numMipLevels sub = 1 ->
  forall a b cb,
    0 <= sub_baseArrayLayer sub + a ->
    sub_baseArrayLayer sub + a + Z.of_nat n <= 2 ^ 32 ->
    image b = img ->
    levelCount (subresourceRange b) = 1 ->
    range_layerCount (subresourceRange b) = 1 ->
    forall st i' m l,
      run (snd (for_loop n a (MipLayerBody img aspect extent sub) (b, cb))) st i' m l =
      if (0 <? Z.of_nat n) && (i' =? img) &&
         (l =? range_baseArrayLayer (subresourceRange b)) && (m =? 0)
      then VK_IMAGE_LAYOUT_SHADER_READ_ONLY_OPTIMAL else run cb st i' m l.
Proof.
  intros HB HK. induction n as [| n IH]; intros a b cb Hlo Hhi Hi Hc Hl st i' m l.
  - reflexivity.
  - cbn [for_loop].
    pose proof (MipLayerBody_layouts img aspect extent sub a b cb HB
                  ltac:(lia) ltac:(lia) Hi Hc Hl) as P.
    cbv zeta in P.
    destruct (MipLayerBody img aspect extent sub a (b, cb)) as [b1 cb1].
    cbn [fst snd] in P. destruct P as (Pi & Pc & Pl & Pb & Prun).
    rewrite (IH (a + 1) b1 cb1 ltac:(lia) ltac:(lia) Pi Pc Pl), Prun, Pb, HK.
    rewrite Nat2Z.inj_succ. cbn [Z.leb Z.compare Pos.compare Pos.compare_cont].
    change (2 <=? 1) with false. cbv iota.
    decide_cells.
Qed.

(** X1. For a range that starts at MIP level 0 and has either at least two
    levels or at most one layer, [GenerateMips] leaves every subresource of
    the range in shader-read-only layout, whatever layout it was in, and
    changes the layout of nothing else. *)
Theorem GenerateMips_restores_shader_read_only cb img format extent sub :
  sub_baseMipLevel sub = 0 ->
  1 <= numMipLevels sub <= uint32_max ->
  0 <= sub_baseArrayLayer sub ->
  0 <= numArrayLayers sub ->
  sub_baseArrayLayer sub + numArrayLayers sub <= 2 ^ 32 ->
  2 <= numMipLevels sub \/ numArrayLayers sub <= 1 ->
  forall st i' m l,
    run (GenerateMips' cb img format extent sub) st i' m l =
    if (i' =? img) && in_subresource sub m l
    then VK_IMAGE_LAYOUT_SHADER_READ_ONLY_OPTIMAL else run cb st i' m l.
Proof.
  intros HB HK HBL HL Hsum Hshape st i' m l.
  unfold VKDevice.GenerateMips, for_range, for_subrange. rewrite Z.sub_0_r.
  destruct (TransitionImageLayout_records Format VKTypes_Unmap IsDepthOrStencilFormat
              IsStencilFormat cb img VK_FORMAT_UNDEFINED
              VK_IMAGE_LAYOUT_SHADER_READ_ONLY_OPTIMAL
              VK_IMAGE_LAYOUT_TRANSFER_DST_OPTIMAL sub) as (c0 & E0 & _ & X0).
  rewrite E0. unfold uint32_max in HK.
  destruct (Z_le_gt_dec 2 (numMipLevels sub)) as [H2 | H1].
  - rewrite (layer_loop_layouts img _ extent sub
               (Z.to_nat (numArrayLayers sub)) HB ltac:(lia) 0);
      [| lia | rewrite Z2Nat.id; lia | reflexivity | reflexivity | reflexivity].
    rewrite run_app. cbn [run fold_left]. rewrite X0.
    unfold in_subresource. rewrite HB, Z2Nat.id by lia. decide_cells.
  - assert (HK1 : numMipLevels sub = 1) by lia.
    rewrite (layer_loop_layouts_one_level img _ extent sub
               (Z.to_nat (numArrayLayers sub)) HB HK1 0);
      [| lia | rewrite Z2Nat.id; lia | reflexivity | reflexivity | reflexivity].
    rewrite run_app. cbn [run fold_left]. rewrite X0.
    cbn [subresourceRange range_baseArrayLayer].
    unfold in_subresource. rewrite HB, HK1, Z2Nat.id by lia. decide_cells.
Qed.

(** X2. With one MIP level and several layers the closing barrier is recorded
    once per layer but always for the first layer of the range: that layer ends
    in shader-read-only layout and every other layer of the range is left in
    transfer-dst layout. *)
Theorem GenerateMips_one_level_other_layers_stay_transfer_dst
    cb img format extent sub :
  sub_baseMipLevel sub = 0 ->
  numMipLevels sub = 1 ->
  0 <= sub_baseArrayLayer sub ->
  sub_baseArrayLayer sub + numArrayLayers sub <= 2 ^ 32 ->
  forall st l,
    sub_baseArrayLayer sub <= l < sub_baseArrayLayer sub + numArrayLayers sub ->
    run (GenerateMips' cb img format extent sub) st img 0 l =
    if l =? sub_baseArrayLayer sub
    then VK_IMAGE_LAYOUT_SHADER_READ_ONLY_OPTIMAL
    else VK_IMAGE_LAYOUT_TRANSFER_DST_OPTIMAL.
Proof.
  intros HB HK HBL Hsum st l Hl.
  unfold VKDevice.GenerateMips, for_range, for_subrange. rewrite Z.sub_0_r.
  destruct (TransitionImageLayout_records Format VKTypes_Unmap IsDepthOrStencilFormat
              IsStencilFormat cb img VK_FORMAT_UNDEFINED
              VK_IMAGE_LAYOUT_SHADER_READ_ONLY_OPTIMAL
              VK_IMAGE_LAYOUT_TRANSFER_DST_OPTIMAL sub) as (c0 & E0 & _ & X0).
  rewrite E0.
  rewrite (layer_loop_layouts_one_level img _ extent sub
             (Z.to_nat (numArrayLayers sub)) HB HK 0);
    [| lia | rewrite Z2Nat.id; lia | reflexivity | reflexivity | reflexivity].
  rewrite run_app. cbn [run fold_left]. rewrite X0.
  cbn [subresourceRange range_baseArrayLayer].
  unfold in_subresource. rewrite HB, HK, Z2Nat.id by lia. decide_cells.
Qed.

End GenerateMipsLayouts.

(** ** Barriers of copies, and bytes of buffers *)

Section CopyAndBufferProperties.

Import LayoutTracker VKDevice.

Variable Format : Type.
Variable VKTypes_Unmap : VkFormat -> Format.
Variable IsDepthOrStencilFormat : Format -> bool.
Variable IsStencilFormat : Format -> bool.

Abbreviation CopyImage' :=
  (VKDevice.CopyImage Format VKTypes_Unmap IsDepthOrStencilFormat IsStencilFormat).
Abbreviation ResolveImage' :=
  (VKDevice.ResolveImage Format VKTypes_Unmap IsDepthOrStencilFormat IsStencilFormat).

(** X3. In [CopyImage] and [ResolveImage] the two barriers on the source image
    carry empty access masks and the stages top-of-pipe -> bottom-of-pipe,
    whatever the source layout is.  The barrier that takes the destination
    into transfer-dst has the transfer stage and transfer-write access exactly
    when the destination layout is undefined, and the one that takes it back
    has masks of its own exactly when that layout is shader-read-only. *)
Theorem CopyImage_ResolveImage_barrier_masks
    cb srcImage Ls dstImage Ld (region : VkImageCopy) format :
  let shape (native : Command) (recorded : VkCommandBuffer) :=
    exists b1 s2 d2 b2 b3 s4 d4 b4,
      recorded =
        cb ++ [CmdPipelineBarrier VK_PIPELINE_STAGE_TOP_OF_PIPE_BIT
                                  VK_PIPELINE_STAGE_BOTTOM_OF_PIPE_BIT 0 b1;
               CmdPipelineBarrier s2 d2 0 b2;
               native;
               CmdPipelineBarrier VK_PIPELINE_STAGE_TOP_OF_PIPE_BIT
                                  VK_PIPELINE_STAGE_BOTTOM_OF_PIPE_BIT 0 b3;
               CmdPipelineBarrier s4 d4 0 b4] /\
      srcAccessMask b1 = 0 /\ dstAccessMask b1 = 0 /\
      srcAccessMask b3 = 0 /\ dstAccessMask b3 = 0 /\
      (s2, d2, srcAccessMask b2, dstAccessMask b2) =
        (if Ld =? VK_IMAGE_LAYOUT_UNDEFINED
         then (VK_PIPELINE_STAGE_TOP_OF_PIPE_BIT, VK_PIPELINE_STAGE_TRANSFER_BIT,
               0, VK_ACCESS_TRANSFER_WRITE_BIT)
         else (VK_PIPELINE_STAGE_TOP_OF_PIPE_BIT, VK_PIPELINE_STAGE_BOTTOM_OF_PIPE_BIT,
               0, 0)) /\
      (s4, d4, srcAccessMask b4, dstAccessMask b4) =
        (if Ld =? VK_IMAGE_LAYOUT_SHADER_READ_ONLY_OPTIMAL
         then (VK_PIPELINE_STAGE_TRANSFER_BIT, VK_PIPELINE_STAGE_FRAGMENT_SHADER_BIT,
               VK_ACCESS_TRANSFER_WRITE_BIT, VK_ACCESS_SHADER_READ_BIT)
         else (VK_PIPELINE_STAGE_TOP_OF_PIPE_BIT, VK_PIPELINE_STAGE_BOTTOM_OF_PIPE_BIT,
               0, 0)) in
  shape (CmdCopyImage srcImage VK_IMAGE_LAYOUT_TRANSFER_SRC_OPTIMAL
                      dstImage VK_IMAGE_LAYOUT_TRANSFER_DST_OPTIMAL region)
        (CopyImage' cb srcImage Ls dstImage Ld region format) /\
  shape (CmdResolveImage srcImage VK_IMAGE_LAYOUT_TRANSFER_SRC_OPTIMAL
                         dstImage VK_IMAGE_LAYOUT_TRANSFER_DST_OPTIMAL region)
        (ResolveImage' cb srcImage Ls dstImage Ld region format).
Proof.
  cbv zeta beta.
  unfold VKDevice.CopyImage, VKDevice.ResolveImage, VKDevice.TransitionImageLayout,
    VKDevice.TransitionBarrier.
  change (VK_IMAGE_LAYOUT_TRANSFER_SRC_OPTIMAL =? VK_IMAGE_LAYOUT_TRANSFER_DST_OPTIMAL)
    with false.
  change (VK_IMAGE_LAYOUT_TRANSFER_SRC_OPTIMAL =? VK_IMAGE_LAYOUT_SHADER_READ_ONLY_OPTIMAL)
    with false.
  change (VK_IMAGE_LAYOUT_TRANSFER_SRC_OPTIMAL =? VK_IMAGE_LAYOUT_UNDEFINED)
    with false.
  change (VK_IMAGE_LAYOUT_TRANSFER_DST_OPTIMAL =? VK_IMAGE_LAYOUT_UNDEFINED)
    with false.
  change (VK_IMAGE_LAYOUT_TRANSFER_DST_OPTIMAL =? VK_IMAGE_LAYOUT_TRANSFER_DST_OPTIMAL)
    with true.
  change (VK_IMAGE_LAYOUT_SHADER_READ_ONLY_OPTIMAL =? VK_IMAGE_LAYOUT_UNDEFINED)
    with false.
  rewrite !andb_false_r. cbn [andb].
  split.
  all: destruct (Ld =? VK_IMAGE_LAYOUT_UNDEFINED) eqn:Eu;
    destruct (Ld =? VK_IMAGE_LAYOUT_SHADER_READ_ONLY_OPTIMAL) eqn:Er.
  all: try (apply Z.eqb_eq in Eu; apply Z.eqb_eq in Er; exfalso;
            rewrite Eu in Er; discriminate Er).
  all: cbv beta iota zeta delta [andb]; do 8 eexists; rewrite <- !app_assoc;
    cbn [app];
    (split; [reflexivity |]); cbn; repeat split.
Qed.

Variable Map : Handle -> Z -> Z -> bool.

(** X4. Bytes written with [WriteBuffer] come back with [ReadBuffer]: when the
    buffer has a memory region and both mappings succeed, reading [size] bytes
    at the same offset into [out] delivers, byte for byte, what was at [data]
    when it was written. *)
Theorem WriteBuffer_then_ReadBuffer
    (buffer : VKDeviceBuffer) (data out size offset : Z) (m : Memory) region k :
  GetMemoryRegion buffer = Some region ->
  Map (GetParentChunk region) (uint64 (GetOffset region + offset)) size = true ->
  0 <= k < size ->
  hostBytes (snd (ReadBuffer Map buffer out size offset
                    (snd (WriteBuffer Map buffer data size offset m))))
            (out + k) =
  hostBytes m (data + k).
Proof.
  intros E F Hk. unfold ReadBuffer, WriteBuffer. rewrite E, F.
  cbn [snd fst memcpy_to_host memcpy_to_device hostBytes deviceBytes].
  rewrite Z.eqb_refl.
  replace (out + k - out) with k by lia.
  replace (uint64 (GetOffset region + offset) + k - uint64 (GetOffset region + offset))
    with k by lia.
  destruct (Z.leb_spec out (out + k)); [| lia].
  destruct (Z.ltb_spec (out + k) (out + size)); [| lia].
  destruct (Z.leb_spec (uint64 (GetOffset region + offset))
              (uint64 (GetOffset region + offset) + k)); [| lia].
  destruct (Z.ltb_spec (uint64 (GetOffset region + offset) + k)
              (uint64 (GetOffset region + offset) + size)); [| lia].
  reflexivity.
Qed.

(** X5. [WriteBuffer] never changes host memory, and changes device memory
    only within the [size] bytes of the region's chunk that start at the
    region's offset plus [offset]; [ReadBuffer] never changes device memory,
    and changes host memory only within the [size] bytes from [data].  Neither
    raises an error. *)
Theorem WriteBuffer_ReadBuffer_frame
    (buffer : VKDeviceBuffer) (data size offset : Z) (m : Memory) :
  let w := WriteBuffer Map buffer data size offset m in
  let r := ReadBuffer Map buffer data size offset m in
  fst w = Returned /\ fst r = Returned /\
  hostBytes (snd w) = hostBytes m /\
  deviceBytes (snd r) = deviceBytes m /\
  (forall chunk a,
      (forall region, GetMemoryRegion buffer = Some region ->
                      chunk <> GetParentChunk region \/
                      a < uint64 (GetOffset region + offset) \/
                      uint64 (GetOffset region + offset) + size <= a) ->
      deviceBytes (snd w) chunk a = deviceBytes m chunk a) /\
  (forall a, a < data \/ data + size <= a ->
             hostBytes (snd r) a = hostBytes m a).
Proof.
  unfold WriteBuffer, ReadBuffer.
  destruct (GetMemoryRegion buffer) as [region |]; [| cbn; now repeat split].
  destruct (Map _ _ _); [| cbn; now repeat split].
  cbn [fst snd memcpy_to_host memcpy_to_device hostBytes deviceBytes].
  repeat split.
  - intros chunk a H. specialize (H region eq_refl).
    destruct (Z.eqb_spec chunk (GetParentChunk region)); cbn [andb]; [| reflexivity].
    destruct (Z.leb_spec (uint64 (GetOffset region + offset)) a); cbn [andb];
      [| reflexivity].
    destruct (Z.ltb_spec a (uint64 (GetOffset region + offset) + size));
      [| reflexivity].
    exfalso. destruct H as [H | [H | H]]; [contradiction | lia | lia].
  - intros a H.
    destruct (Z.leb_spec data a); cbn [andb]; [| reflexivity].
    destruct (Z.ltb_spec a (data + size)); [| reflexivity]. lia.
Qed.

End CopyAndBufferProperties.

(** ** Picking the parameters of the swap chain *)

Section PickProperties.

Import VKRenderContext.

(** X6. [PickSwapPresentMode] answers FIFO unless the v-sync interval is 0 and
    the surface lists MAILBOX or IMMEDIATE; then it answers the one of the two
    that the surface lists first.  So the mode is always FIFO or a mode the
    surface offers. *)
Theorem PickSwapPresentMode_first_unblocked (presentModes : list Z) (vsyncInterval : Z) :
  let unblocked mode := mode = VK_PRESENT_MODE_MAILBOX_KHR \/
                        mode = VK_PRESENT_MODE_IMMEDIATE_KHR in
  let mode := PickSwapPresentMode presentModes vsyncInterval in
  (mode = VK_PRESENT_MODE_FIFO_KHR \/ (In mode presentModes /\ vsyncInterval = 0)) /\
  (vsyncInterval <> 0 -> mode = VK_PRESENT_MODE_FIFO_KHR) /\
  (vsyncInterval = 0 ->
   (forall m, In m presentModes -> ~ unblocked m) -> mode = VK_PRESENT_MODE_FIFO_KHR) /\
  (vsyncInterval = 0 ->
   forall before first after,
     presentModes = before ++ first :: after ->
     (forall m, In m before -> ~ unblocked m) -> unblocked first ->
     mode = first).
Proof.
  cbv zeta. unfold PickSwapPresentMode.
  set (test := fun mode => (mode =? VK_PRESENT_MODE_MAILBOX_KHR) ||
                           (mode =? VK_PRESENT_MODE_IMMEDIATE_KHR)).
  assert (T : forall m, test m = true <->
                        (m = VK_PRESENT_MODE_MAILBOX_KHR \/
                         m = VK_PRESENT_MODE_IMMEDIATE_KHR)).
  { intros m. unfold test. rewrite orb_true_iff, !Z.eqb_eq. tauto. }
  repeat split.
  - destruct (Z.eqb_spec vsyncInterval 0) as [E | E]; [| now left].
    destruct (find test presentModes) as [m |] eqn:F; [| now left].
    right. split; [| exact E]. now apply find_some in F.
  - intros Hv. destruct (Z.eqb_spec vsyncInterval 0); [contradiction | reflexivity].
  - intros -> Hnone. cbn.
    destruct (find test presentModes) as [m |] eqn:F; [| reflexivity].
    apply find_some in F as [Fi Ft]. apply T in Ft. now destruct (Hnone m Fi).
  - intros -> before first after -> Hbefore Hfirst. cbn.
    induction before as [| m before IH]; cbn [app find].
    + apply T in Hfirst. now rewrite Hfirst.
    + destruct (test m) eqn:Tm.
      * apply T in Tm. now destruct (Hbefore m (or_introl eq_refl)).
      * apply IH. intros m' Hm'. apply Hbefore. now right.
Qed.

(** X7. [PickSwapSurfaceFormat] throws exactly when the surface lists no format.
    Otherwise it answers B8G8R8A8_UNORM with the sRGB colour space whenever the
    list holds that pair, or holds nothing but one entry of undefined format;
    in every other case it answers the first entry of the list. *)
Theorem PickSwapSurfaceFormat_prefers_bgra8 (surfaceFormats : list VkSurfaceFormatKHR) :
  let preferred := {| sf_format := VK_FORMAT_B8G8R8A8_UNORM;
                      colorSpace := VK_COLOR_SPACE_SRGB_NONLINEAR_KHR |} in
  (surfaceFormats = [] <->
   PickSwapSurfaceFormat surfaceFormats = Throw "no Vulkan surface formats available") /\
  (forall front rest, surfaceFormats = front :: rest ->
     (In preferred surfaceFormats \/ (rest = [] /\ sf_format front = VK_FORMAT_UNDEFINED) ->
      PickSwapSurfaceFormat surfaceFormats = Ok preferred) /\
     (~ In preferred surfaceFormats ->
      ~ (rest = [] /\ sf_format front = VK_FORMAT_UNDEFINED) ->
      PickSwapSurfaceFormat surfaceFormats = Ok front)).
Proof.
  cbv zeta.
  set (preferred := {| sf_format := VK_FORMAT_B8G8R8A8_UNORM;
                       colorSpace := VK_COLOR_SPACE_SRGB_NONLINEAR_KHR |}).
  set (test := fun f => (sf_format f =? VK_FORMAT_B8G8R8A8_UNORM) &&
                        (colorSpace f =? VK_COLOR_SPACE_SRGB_NONLINEAR_KHR)).
  assert (T : forall f, test f = true <-> f = preferred).
  { intros [fmt cs]. unfold test, preferred. cbn.
    rewrite andb_true_iff, !Z.eqb_eq. split.
    - intros [-> ->]. reflexivity.
    - intros H. injection H as -> ->. now split. }
  assert (Single : forall front rest,
             (Z.of_nat (List.length (front :: rest)) =? 1) &&
             (sf_format front =? VK_FORMAT_UNDEFINED) = true <->
             rest = [] /\ sf_format front = VK_FORMAT_UNDEFINED).
  { intros front rest. rewrite andb_true_iff, !Z.eqb_eq. cbn [List.length].
    destruct rest; cbn [List.length]; split; intros [A B]; split;
      try reflexivity; try assumption; try discriminate; lia. }
  split.
  - split.
    + intros ->. reflexivity.
    + destruct surfaceFormats as [| front rest]; [reflexivity |].
      unfold PickSwapSurfaceFormat. fold test.
      destruct (_ && _); [discriminate |].
      destruct (find test (front :: rest)); discriminate.
  - intros front rest ->. unfold PickSwapSurfaceFormat. fold test. split.
    + intros H.
      destruct ((Z.of_nat (List.length (front :: rest)) =? 1) &&
                (sf_format front =? VK_FORMAT_UNDEFINED)) eqn:S1; [reflexivity |].
      destruct H as [Hin | Hs]; [| apply Single in Hs; congruence].
      destruct (find test (front :: rest)) as [f |] eqn:F.
      * apply find_some in F as [_ Ft]. apply T in Ft. now subst f.
      * exfalso. pose proof (find_none _ _ F _ Hin) as N.
        assert (test preferred = true) by now apply T. congruence.
    + intros Hnot Hmany.
      destruct ((Z.of_nat (List.length (front :: rest)) =? 1) &&
                (sf_format front =? VK_FORMAT_UNDEFINED)) eqn:S1.
      * apply Single in S1. contradiction.
      * destruct (find test (front :: rest)) as [f |] eqn:F; [| reflexivity].
        apply find_some in F as [Fi Ft]. apply T in Ft. subst f. contradiction.
Qed.

(** X8. The candidates for the depth-stencil format never repeat a format and
    always hold D24_UNORM_S8_UINT and D16_UNORM_S8_UINT.  Only a request for
    32 depth bits together with stencil bits gets candidates that all have a
    stencil part; a request for stencil bits with any other depth still lists
    D32_SFLOAT and D16_UNORM, which have none. *)
Theorem GetDepthStencilFormatPreference_candidates (depthBits stencilBits : Z) :
  let candidates := GetDepthStencilFormatPreference depthBits stencilBits in
  NoDup candidates /\
  In VK_FORMAT_D24_UNORM_S8_UINT candidates /\
  In VK_FORMAT_D16_UNORM_S8_UINT candidates /\
  (forallb has_stencil candidates = true <-> (stencilBits <> 0 /\ depthBits = 32)) /\
  (depthBits <> 32 ->
   In VK_FORMAT_D32_SFLOAT candidates /\ In VK_FORMAT_D16_UNORM candidates).
Proof.
  cbv zeta. unfold GetDepthStencilFormatPreference.
  destruct (Z.eqb_spec stencilBits 0) as [Hs | Hs];
    destruct (Z.eqb_spec depthBits 32) as [Hd | Hd].
  all: repeat split.
  all: try (repeat constructor; cbn; intuition discriminate).
  all: try (cbn; tauto).
  all: try (cbn; intros; discriminate).
  all: try (intros [A B]; contradiction).
  all: try (intros; assumption).
  all: try contradiction.
Qed.

End PickProperties.

(** ** What the context keeps and what it calls *)

Section ContextInvariants.

Import VKRenderContext.

Variable outside : list Call -> Answer.
Variable platform : Platform.
Variable GetResolution : Extent2D.

(** *** Members that code leaves alone *)

Section Keeps.

Variable X : Type.
Variable f : Context -> X.

Abbreviation keeps m := (relates (fun c c' => f c' = f c) m).

Lemma keeps_ret {A} (a : A) : keeps (ret a).
Proof. intros w. reflexivity. Qed.

Lemma keeps_throw {A} what : keeps (@throw A what).
Proof. intros w. reflexivity. Qed.

Lemma keeps_undefined {A} : keeps (@undefined A).
Proof. intros w. reflexivity. Qed.

Lemma keeps_this : keeps this.
Proof. intros w. reflexivity. Qed.

Lemma keeps_call c : keeps (call outside c).
Proof. intros w. reflexivity. Qed.

Lemma keeps_assign g : (forall c, f (g c) = f c) -> keeps (assign g).
Proof. intros H w. apply H. Qed.

Lemma keeps_bind {A B} (m : M A) (k : A -> M B) :
  keeps m -> (forall a, keeps (k a)) -> keeps (bind m k).
Proof.
  intros Hm Hk w. unfold bind. specialize (Hm w).
  destruct (m w) as [[a | what |] w1]; cbn [snd] in Hm |- *.
  - now rewrite (Hk a w1).
  - exact Hm.
  - exact Hm.
Qed.

Lemma keeps_for_loopM body n :
  (forall i, keeps (body i)) -> forall i, keeps (for_loopM n i body).
Proof.
  intros Hb. induction n as [| n IH]; intros i; cbn [for_loopM].
  - apply keeps_ret.
  - apply keeps_bind; [apply Hb | intros _; apply IH].
Qed.

End Keeps.

Ltac open_calls :=
  progress cbv beta zeta delta
    [VKThrowIfFailed Release CreateGpuSemaphore CreatePresentSemaphores
     CreateGpuSurface AcquireNextPresentImage CreateSwapChainImageViews
     CreateSwapChain CreateSwapChainFramebuffers CreateDepthStencilBuffer
     CreateColorBuffers ReleaseRenderBuffers CreateResolutionDependentResources
     for_each_index at_index].

Ltac keeps_step :=
  first
    [ apply keeps_ret | apply keeps_throw | apply keeps_undefined | apply keeps_this
    | apply keeps_call
    | apply keeps_assign; intros ?; reflexivity
    | apply keeps_for_loopM; intros ?
    | match goal with
      | |- relates _ (if ?b then _ else _) => destruct b
      | |- relates _ (match ?x with _ => _ end) => destruct x
      | |- relates _ (bind _ _) => apply keeps_bind; [| intros ?]
      end
    | open_calls ].

Ltac keeps_auto := repeat keeps_step.

(** *** Calls that code makes *)

Section Emits.

Variable p : Call -> bool.

Lemma emits_ret {A} (a : A) : emits p (ret a).
Proof. intros w. exists []. cbn. now rewrite app_nil_r. Qed.

Lemma emits_throw {A} what : emits p (@throw A what).
Proof. intros w. exists []. cbn. now rewrite app_nil_r. Qed.

Lemma emits_undefined {A} : emits p (@undefined A).
Proof. intros w. exists []. cbn. now rewrite app_nil_r. Qed.

Lemma emits_this : emits p this.
Proof. intros w. exists []. cbn. now rewrite app_nil_r. Qed.

Lemma emits_assign g : emits p (assign g).
Proof. intros w. exists []. cbn. now rewrite app_nil_r. Qed.

Lemma emits_call c : p c = true -> emits p (call outside c).
Proof. intros H w. exists [c]. cbn. now rewrite H. Qed.

Lemma emits_bind {A B} (m : M A) (k : A -> M B) :
  emits p m -> (forall a, emits p (k a)) -> emits p (bind m k).
Proof.
  intros Hm Hk w. unfold bind. destruct (Hm w) as (t1 & E1 & P1).
  destruct (m w) as [[a | what |] w1]; cbn [snd] in E1.
  - destruct (Hk a w1) as (t2 & E2 & P2). exists (t1 ++ t2). split.
    + now rewrite E2, E1, app_assoc.
    + now rewrite forallb_app, P1, P2.
  - exists t1. now split.
  - exists t1. now split.
Qed.

Lemma emits_for_loopM body n :
  (forall i, emits p (body i)) -> forall i, emits p (for_loopM n i body).
Proof.
  intros Hb. induction n as [| n IH]; intros i; cbn [for_loopM].
  - apply emits_ret.
  - apply emits_bind; [apply Hb | intros _; apply IH].
Qed.

End Emits.

Ltac emits_step :=
  first
    [ apply emits_ret | apply emits_throw | apply emits_undefined | apply emits_this
    | apply emits_assign
    | apply emits_call; reflexivity
    | apply emits_for_loopM; intros ?
    | match goal with
      | |- emits _ (if ?b then _ else _) => destruct b
      | |- emits _ (match ?x with _ => _ end) => destruct x
      | |- emits _ (bind _ _) => apply emits_bind; [| intros ?]
      end
    | open_calls ].

Ltac emits_auto := repeat emits_step.

(** *** Taking apart code that returned *)

Lemma bind_returned {A B} (m : M A) (k : A -> M B) w b w' :
  bind m k w = (Ok b, w') ->
  exists a w1, m w = (Ok a, w1) /\ k a w1 = (Ok b, w').
Proof.
  unfold bind. destruct (m w) as [[a | what |] w1]; intros H.
  - now exists a, w1.
  - discriminate.
  - discriminate.
Qed.

Ltac returned H :=
  let a := fresh "a" in
  let w := fresh "w" in
  let H1 := fresh H "_head" in
  apply bind_returned in H as (a & w & H1 & H); cbv beta in H.

(** *** Resizing *)

Abbreviation ResizeBuffersPrimary' := (ResizeBuffersPrimary outside platform).

Lemma resize_same_extent resolution w :
  swapChainExtent_ (ctx w) =
    {| width2 := res_width resolution; height2 := res_height resolution |} ->
  ResizeBuffersPrimary' resolution w = (Ok true, w).
Proof.
  intros E. unfold ResizeBuffersPrimary, bind, this, ret.
  rewrite E. cbn [width2 height2]. now rewrite !Z.eqb_refl.
Qed.

Lemma CreateSwapChain_extent resolution vsync w a w' :
  CreateSwapChain outside resolution vsync w = (Ok a, w') ->
  swapChainExtent_ (ctx w') =
  PickSwapExtent (caps (surfaceSupportDetails_ (ctx w'))) resolution.
Proof.
  unfold CreateSwapChain. intros H. returned H.
  injection H_head as _ <-.
  match type of H with
  | ?rest _ = _ =>
      assert (K : relates (fun c c' =>
                             (swapChainExtent_ c', surfaceSupportDetails_ c') =
                             (swapChainExtent_ c, surfaceSupportDetails_ c)) rest)
        by keeps_auto;
      specialize (K {| ctx := set_swapChainExtent_
                                (PickSwapExtent (caps (surfaceSupportDetails_ (ctx w)))
                                   resolution) (ctx w);
                       trace := trace w |})
  end.
  cbv beta in K. rewrite H in K. cbn [snd ctx] in K.
  injection K as -> ->. reflexivity.
Qed.

Lemma CreateResolutionDependentResources_extent resolution w a w' :
  CreateResolutionDependentResources outside resolution w = (Ok a, w') ->
  swapChainExtent_ (ctx w') =
  PickSwapExtent (caps (surfaceSupportDetails_ (ctx w'))) resolution.
Proof.
  unfold CreateResolutionDependentResources. intros H.
  returned H. injection H_head as <- <-. returned H.
  apply CreateSwapChain_extent in H_head.
  match type of H with
  | ?rest ?w1 = _ =>
      assert (K : relates (fun c c' =>
                             (swapChainExtent_ c', surfaceSupportDetails_ c') =
                             (swapChainExtent_ c, surfaceSupportDetails_ c)) rest)
        by keeps_auto;
      specialize (K w1)
  end.
  cbv beta in K. rewrite H in K. cbn [snd] in K.
  injection K as -> ->. exact H_head.
Qed.

(** *** Counting the calls of code that returned *)

Lemma tally_app p t1 t2 : tally p (t1 ++ t2) = (tally p t1 + tally p t2)%nat.
Proof. unfold tally. now rewrite filter_app, length_app. Qed.

Lemma tally_none p t : forallb (fun c => negb (p c)) t = true -> tally p t = 0%nat.
Proof.
  unfold tally. induction t as [| c t IH]; cbn; [reflexivity |].
  intros H. apply andb_prop in H as [Hc Ht]. apply negb_true_iff in Hc.
  rewrite Hc. now apply IH.
Qed.

(** Code that makes no call passing [p] leaves the tally as it is. *)
Lemma quiet_returned {A} p (m : M A) w a w' :
  emits (fun c => negb (p c)) m ->
  m w = (Ok a, w') -> tally p (trace w') = tally p (trace w).
Proof.
  intros E H. destruct (E w) as (t & Et & Ep). rewrite H in Et. cbn [snd] in Et.
  rewrite Et, tally_app, (tally_none _ _ Ep). lia.
Qed.

Lemma returned_quiet {A B} p (m : M A) (k : A -> M B) w b w' :
  emits (fun c => negb (p c)) m ->
  bind m k w = (Ok b, w') ->
  exists a w1, m w = (Ok a, w1) /\ k a w1 = (Ok b, w') /\
               tally p (trace w1) = tally p (trace w).
Proof.
  intros E H. apply bind_returned in H as (a & w1 & H1 & H2).
  exists a, w1. split; [exact H1 | split; [exact H2 |]].
  now apply (quiet_returned p m w a w1).
Qed.

Lemma returned_call {B} c (k : Answer -> M B) w b w' :
  bind (call outside c) k w = (Ok b, w') ->
  k (outside (trace w ++ [c])) {| ctx := ctx w; trace := trace w ++ [c] |} = (Ok b, w').
Proof. intros H. exact H. Qed.

(** A loop whose rounds each add one call passing [p]. *)
Lemma for_loopM_made p body n :
  (forall i w a w', body i w = (Ok a, w') ->
                    tally p (trace w') = S (tally p (trace w))) ->
  forall i w a w', for_loopM n i body w = (Ok a, w') ->
                   tally p (trace w') = (tally p (trace w) + n)%nat.
Proof.
  intros Hb. induction n as [| n IH]; intros i w a w' H; cbn [for_loopM] in H.
  - injection H as _ <-. lia.
  - apply bind_returned in H as (a1 & w1 & H1 & H2).
    apply Hb in H1. apply IH in H2. lia.
Qed.

(** The first step of [H] makes no call that passes [p]. *)
Ltac quiet p H :=
  let a := fresh "a" in
  let w := fresh "w" in
  let H1 := fresh H "_head" in
  let T := fresh "T" in
  match type of H with
  | bind ?m _ _ = _ =>
      let E := fresh "E" in
      assert (E : emits (fun c => negb (p c)) m) by emits_auto;
      apply (returned_quiet p _ _ _ _ _ E) in H as (a & w & H1 & H & T);
      clear E; cbv beta in H
  end.

Lemma CreateSwapChainImageViews_made w a w' :
  CreateSwapChainImageViews outside w = (Ok a, w') ->
  tally creates_image_view (trace w') =
    (tally creates_image_view (trace w) + Z.to_nat (numSwapChainBuffers_ (ctx w)))%nat.
Proof.
  unfold CreateSwapChainImageViews, for_each_index. intros H.
  returned H. injection H_head as <- <-.
  apply (for_loopM_made creates_image_view) in H; [exact H |].
  clear. intros i w a w' H.
  quiet creates_image_view H. quiet creates_image_view H.
  apply returned_call in H.
  quiet creates_image_view H. quiet creates_image_view H.
  apply (quiet_returned creates_image_view) in H; [| emits_auto].
  cbn [trace] in *. rewrite tally_app in *.
  change (tally creates_image_view [vkCreateImageView _ _ _]) with 1%nat in *.
  lia.
Qed.

Lemma CreateSwapChainFramebuffers_made w a w' :
  CreateSwapChainFramebuffers outside w = (Ok a, w') ->
  tally creates_framebuffer (trace w') =
    (tally creates_framebuffer (trace w) + Z.to_nat (numSwapChainBuffers_ (ctx w)))%nat.
Proof.
  unfold CreateSwapChainFramebuffers, for_each_index. intros H.
  returned H. injection H_head as <- <-.
  apply (for_loopM_made creates_framebuffer) in H; [exact H |].
  clear. intros i w a w' H.
  quiet creates_framebuffer H. quiet creates_framebuffer H. cbv zeta in H.
  apply returned_call in H.
  quiet creates_framebuffer H. quiet creates_framebuffer H.
  apply (quiet_returned creates_framebuffer) in H; [| emits_auto].
  cbn [trace] in *. rewrite tally_app in *.
  change (tally creates_framebuffer [vkCreateFramebuffer _ _]) with 1%nat in *.
  lia.
Qed.

(** When [CreateSwapChain] returns, the driver reported no more images than
    the arrays hold, and one image view was created for each. *)
Lemma CreateSwapChain_made resolution vsync w a w' :
  CreateSwapChain outside resolution vsync w = (Ok a, w') ->
  numSwapChainBuffers_ (ctx w') <= g_maxNumColorBuffers /\
  tally creates_image_view (trace w') =
    (tally creates_image_view (trace w) + Z.to_nat (numSwapChainBuffers_ (ctx w')))%nat.
Proof.
  unfold CreateSwapChain. intros H.
  do 7 quiet creates_image_view H. cbv zeta in H.
  do 9 quiet creates_image_view H.
  (* the second query, and the images it writes *)
  apply returned_call in H.
  match type of H with
  | context [count (outside ?h)] => set (answer := outside h) in H
  end.
  apply bind_returned in H as (? & ? & Hset & H). injection Hset as <- <-.
  apply bind_returned in H as (? & ? & Hwrite & H). cbv beta in H.
  destruct (Z.leb_spec (count answer) g_maxNumColorBuffers) as [Hle | Hgt];
    [| discriminate Hwrite].
  injection Hwrite as <- <-. cbn [ctx trace] in H.
  apply bind_returned in H as (? & ? & Hcheck & H).
  unfold VKThrowIfFailed, ret, throw in Hcheck.
  destruct (result answer =? VK_SUCCESS); [| discriminate Hcheck].
  injection Hcheck as _ <-.
  apply bind_returned in H as (? & wv & Hviews & H).
  assert (Kv : relates (fun c c' => numSwapChainBuffers_ c' = numSwapChainBuffers_ c)
                 (CreateSwapChainImageViews outside)) by keeps_auto.
  assert (Ka : relates (fun c c' => numSwapChainBuffers_ c' = numSwapChainBuffers_ c)
                 (AcquireNextPresentImage outside)) by keeps_auto.
  specialize (Ka wv). rewrite H in Ka. cbn [snd] in Ka.
  match type of Hviews with
  | _ ?wq = _ => specialize (Kv wq)
  end.
  rewrite Hviews in Kv. cbn in Kv.
  apply CreateSwapChainImageViews_made in Hviews. cbn in Hviews.
  apply (quiet_returned creates_image_view) in H; [| emits_auto].
  rewrite Ka, Kv. split; [exact Hle |].
  unfold tally in *. rewrite filter_app, length_app in Hviews. cbn in Hviews. lia.
Qed.


Lemma CreateResolutionDependentResources_count resolution w a w' :
  CreateResolutionDependentResources outside resolution w = (Ok a, w') ->
  numSwapChainBuffers_ (ctx w') <= g_maxNumColorBuffers.
Proof.
  unfold CreateResolutionDependentResources. intros H.
  returned H. injection H_head as <- <-. returned H.
  apply CreateSwapChain_made in H_head as [B _].
  match type of H with
  | ?rest ?w1 = _ =>
      assert (K : relates (fun c c' => numSwapChainBuffers_ c' = numSwapChainBuffers_ c)
                    rest)
        by keeps_auto;
      specialize (K w1)
  end.
  cbv beta in K. rewrite H in K. cbn [snd] in K. now rewrite K.
Qed.

(** X9. A resize to a resolution other than the current extent that returns
    has returned true, has stored as extent the requested resolution clamped
    by the extents the surface has just reported, and has found no more swap
    chain images than the arrays of the context hold.  When the clamped
    extent is the requested resolution, as it is whenever the resolution lies
    within the reported extents, the same resize asked again makes no call and
    changes nothing.  When the clamped extent differs from the request, as it
    does whenever the resolution lies outside reported extents whose minimum
    is not above their maximum, the same resize asked again does not take
    that early exit: it begins by waiting for the graphics queue once more. *)
Theorem ResizeBuffersPrimary_settles_extent resolution w b w' :
  ResizeBuffersPrimary' resolution w = (Ok b, w') ->
  width2 (swapChainExtent_ (ctx w)) <> res_width resolution \/
  height2 (swapChainExtent_ (ctx w)) <> res_height resolution ->
  let reported := caps (surfaceSupportDetails_ (ctx w')) in
  let asked := {| width2 := res_width resolution; height2 := res_height resolution |} in
  b = true /\
  swapChainExtent_ (ctx w') = PickSwapExtent reported resolution /\
  numSwapChainBuffers_ (ctx w') <= g_maxNumColorBuffers /\
  (within (minImageExtent reported) (maxImageExtent reported) resolution ->
   PickSwapExtent reported resolution = asked) /\
  (width2 (minImageExtent reported) <= width2 (maxImageExtent reported) ->
   height2 (minImageExtent reported) <= height2 (maxImageExtent reported) ->
   ~ within (minImageExtent reported) (maxImageExtent reported) resolution ->
   PickSwapExtent reported resolution <> asked) /\
  (PickSwapExtent reported resolution = asked ->
   ResizeBuffersPrimary' resolution w' = (Ok true, w')) /\
  (PickSwapExtent reported resolution <> asked ->
   exists t,
     trace (snd (ResizeBuffersPrimary' resolution w')) =
     trace w' ++ vkQueueWaitIdle (graphicsQueue_ (ctx w')) :: t).
Proof.
  intros H Hdiff reported asked.
  assert (C : negb (width2 (swapChainExtent_ (ctx w)) =? res_width resolution) ||
              negb (height2 (swapChainExtent_ (ctx w)) =? res_height resolution) = true).
  { apply orb_true_iff. destruct Hdiff as [D | D]; [left | right];
      apply negb_true_iff, Z.eqb_neq; exact D. }
  unfold ResizeBuffersPrimary in H. returned H. injection H_head as <- <-.
  rewrite C in H. returned H. injection H as <- <-.
  do 4 returned H_head.
  pose proof (CreateResolutionDependentResources_count _ _ _ _ H_head) as Hcount.
  apply CreateResolutionDependentResources_extent in H_head.
  fold reported in H_head.
  split; [reflexivity | split; [exact H_head | split; [exact Hcount |]]].
  split; [| split; [| split]].
  - intros [[W1 W2] [H1 H2]]. unfold PickSwapExtent, asked.
    rewrite !std_max_spec, !std_min_spec. f_equal; lia.
  - intros Mw Mh Hout E. apply Hout. unfold PickSwapExtent, asked in E.
    rewrite !std_max_spec, !std_min_spec in E. injection E as Ew Eh.
    unfold within. lia.
  - intros E. apply resize_same_extent. now rewrite H_head, E.
  - intros Hout. apply ResizeBuffersPrimary_idles_first.
    rewrite H_head.
    destruct (Z.eq_dec (width2 (PickSwapExtent reported resolution))
                (res_width resolution)) as [Ew | Ew]; [| now left].
    destruct (Z.eq_dec (height2 (PickSwapExtent reported resolution))
                (res_height resolution)) as [Eh | Eh]; [| now right].
    exfalso. apply Hout. unfold asked. rewrite <- Ew, <- Eh.
    now destruct (PickSwapExtent reported resolution).
Qed.

(** *** Changing the v-sync interval *)

Abbreviation SetVsyncInterval' := (SetVsyncInterval outside GetResolution).

(** Single steps of code, run. *)
Lemma bind_assign {B} g (k : unit -> M B) w :
  bind (assign g) k w = k tt {| ctx := g (ctx w); trace := trace w |}.
Proof. reflexivity. Qed.

Lemma bind_this {B} (k : Context -> M B) w : bind this k w = k (ctx w) w.
Proof. reflexivity. Qed.

Lemma bind_call {B} c (k : Answer -> M B) w :
  bind (call outside c) k w =
  k (outside (trace w ++ [c])) {| ctx := ctx w; trace := trace w ++ [c] |}.
Proof. reflexivity. Qed.

Lemma bind_Release {B} held (k : unit -> M B) w :
  bind (Release outside held) k w =
  k tt {| ctx := ctx w;
          trace := trace w ++ (if held =? VK_NULL_HANDLE then [] else [vkDestroy held]) |}.
Proof.
  unfold Release. destruct (held =? VK_NULL_HANDLE).
  - unfold bind, ret. rewrite app_nil_r. now destruct w.
  - reflexivity.
Qed.

(** Code that begins with the calls [pre] still does so when more code
    follows it. *)
Lemma begins_bind {A B} (m : M A) (k : A -> M B) w pre :
  (exists t, trace (snd (m w)) = trace w ++ pre ++ t) ->
  (forall a, emits (fun _ => true) (k a)) ->
  exists t, trace (snd (bind m k w)) = trace w ++ pre ++ t.
Proof.
  intros [t1 E1] Hk. unfold bind.
  destruct (m w) as [[a | what |] w1]; cbn [snd] in E1 |- *.
  - destruct (Hk a w1) as (t2 & E2 & _). exists (t1 ++ t2).
    now rewrite E2, E1, <- !app_assoc.
  - now exists t1.
  - now exists t1.
Qed.

(** [CreateSwapChain] asks for the queue families and the two queues, destroys
    the swap chain it holds and creates the new one, with the present mode
    picked for the interval and the extent picked for the resolution. *)
Lemma CreateSwapChain_begins resolution vsync w :
  let c := ctx w in
  let find := VKFindQueueFamilies (physicalDevice_ c) VK_QUEUE_GRAPHICS_BIT (surface_ c) in
  let q := families (outside (trace w ++ [find])) in
  exists createInfo,
    (exists t,
        trace (snd (CreateSwapChain outside resolution vsync w)) =
          trace w
          ++ ([find; vkGetDeviceQueue (device_ c) (graphicsFamily q) 0;
               vkGetDeviceQueue (device_ c) (presentFamily q) 0]
              ++ (if swapChain_ c =? VK_NULL_HANDLE then [] else [vkDestroy (swapChain_ c)])
              ++ [vkCreateSwapchainKHR (device_ c) createInfo])
          ++ t) /\
    ci_presentMode createInfo =
      PickSwapPresentMode (presentModes (surfaceSupportDetails_ c)) vsync /\
    imageExtent createInfo = PickSwapExtent (caps (surfaceSupportDetails_ c)) resolution /\
    ci_minImageCount createInfo = numSwapChainBuffers_ c /\
    oldSwapchain createInfo = VK_NULL_HANDLE.
Proof.
  cbv zeta. unfold CreateSwapChain.
  rewrite bind_assign, bind_this, bind_call. cbv zeta.
  rewrite bind_call, bind_assign, bind_call, bind_assign, bind_Release, bind_call.
  cbn [ctx trace].
  eexists. split.
  - match goal with
    | |- exists t, trace (snd (?rest ?w0)) = _ =>
        assert (E : emits (fun _ => true) rest) by emits_auto;
        destruct (E w0) as (t & Et & _)
    end.
    exists t. rewrite Et. cbn [trace]. rewrite <- !app_assoc. reflexivity.
  - repeat split.
Qed.

(** X10. [SetVsyncInterval] with the interval in force makes no call and
    changes nothing.  With another interval it recreates the swap chain: it
    asks for the queue families and the queues, destroys the swap chain it
    holds and creates a new one with the present mode picked for the new
    interval and the extent picked for the current resolution.  Unless the
    driver reports more images than the arrays of the context hold (the
    behaviour is then undefined), it never waits for the queue, never creates
    a surface or a semaphore, never creates or releases the depth-stencil
    buffer or a multi-sampled colour buffer, and leaves those members as they
    are.  Whenever it returns it returns true with the new interval stored;
    with another interval the driver then reported no more images than the
    arrays hold, and one image view and one framebuffer were created for each
    of them. *)
Theorem SetVsyncInterval_spares_buffers (vsyncInterval : Z) (w : World) :
  let c := ctx w in
  let run := SetVsyncInterval' vsyncInterval w in
  let buffers (c' : Context) :=
    (depthStencilBuffer_ c', colorBuffers_ c', surface_ c',
     imageAvailableSemaphore_ c', renderFinishedSemaphore_ c') in
  let find := VKFindQueueFamilies (physicalDevice_ c) VK_QUEUE_GRAPHICS_BIT (surface_ c) in
  let q := families (outside (trace w ++ [find])) in
  (vsyncInterval_ c = vsyncInterval -> run = (Ok true, w)) /\
  (vsyncInterval_ c <> vsyncInterval ->
   exists createInfo t,
     trace (snd run) =
       trace w
       ++ [find; vkGetDeviceQueue (device_ c) (graphicsFamily q) 0;
           vkGetDeviceQueue (device_ c) (presentFamily q) 0]
       ++ (if swapChain_ c =? VK_NULL_HANDLE then [] else [vkDestroy (swapChain_ c)])
       ++ vkCreateSwapchainKHR (device_ c) createInfo :: t /\
     ci_presentMode createInfo =
       PickSwapPresentMode (presentModes (surfaceSupportDetails_ c)) vsyncInterval /\
     imageExtent createInfo = PickSwapExtent (caps (surfaceSupportDetails_ c)) GetResolution /\
     ci_minImageCount createInfo = numSwapChainBuffers_ c /\
     oldSwapchain createInfo = VK_NULL_HANDLE) /\
  (fst run <> Undefined ->
   buffers (ctx (snd run)) = buffers c /\
   exists t, trace (snd run) = trace w ++ t /\
             forallb (fun call => negb (heavy call)) t = true) /\
  (forall b w', run = (Ok b, w') ->
     b = true /\ vsyncInterval_ (ctx w') = vsyncInterval /\
     (vsyncInterval_ c <> vsyncInterval ->
      numSwapChainBuffers_ (ctx w') <= g_maxNumColorBuffers /\
      tally creates_image_view (trace w') =
        (tally creates_image_view (trace w) +
         Z.to_nat (numSwapChainBuffers_ (ctx w')))%nat /\
      tally creates_framebuffer (trace w') =
        (tally creates_framebuffer (trace w) +
         Z.to_nat (numSwapChainBuffers_ (ctx w')))%nat)).
Proof.
  cbv zeta. split; [| split; [| split]].
  - intros E. unfold SetVsyncInterval, bind, this, ret.
    now rewrite E, Z.eqb_refl.
  - intros Hne. apply Z.eqb_neq in Hne.
    destruct (CreateSwapChain_begins GetResolution vsyncInterval w)
      as (createInfo & Begins & Fields).
    exists createInfo.
    assert (B : exists t,
               trace (snd (SetVsyncInterval' vsyncInterval w)) =
               trace w ++
               ([VKFindQueueFamilies (physicalDevice_ (ctx w)) VK_QUEUE_GRAPHICS_BIT
                   (surface_ (ctx w));
                 vkGetDeviceQueue (device_ (ctx w))
                   (graphicsFamily
                      (families (outside (trace w ++
                         [VKFindQueueFamilies (physicalDevice_ (ctx w))
                            VK_QUEUE_GRAPHICS_BIT (surface_ (ctx w))])))) 0;
                 vkGetDeviceQueue (device_ (ctx w))
                   (presentFamily
                      (families (outside (trace w ++
                         [VKFindQueueFamilies (physicalDevice_ (ctx w))
                            VK_QUEUE_GRAPHICS_BIT (surface_ (ctx w))])))) 0]
                ++ (if swapChain_ (ctx w) =? VK_NULL_HANDLE then []
                    else [vkDestroy (swapChain_ (ctx w))])
                ++ [vkCreateSwapchainKHR (device_ (ctx w)) createInfo]) ++ t).
    { unfold SetVsyncInterval. rewrite bind_this, Hne. cbn [negb].
      apply begins_bind; [| intros ?; emits_auto].
      apply begins_bind; [exact Begins | intros ?; emits_auto]. }
    destruct B as [t B]. exists t. split; [| exact Fields].
    rewrite B. now rewrite <- !app_assoc.
  - intros Hdef. split.
    + assert (K : relates
                    (fun c c' =>
                       (depthStencilBuffer_ c', colorBuffers_ c', surface_ c',
                        imageAvailableSemaphore_ c', renderFinishedSemaphore_ c') =
                       (depthStencilBuffer_ c, colorBuffers_ c, surface_ c,
                        imageAvailableSemaphore_ c, renderFinishedSemaphore_ c))
                    (SetVsyncInterval' vsyncInterval)).
      { unfold SetVsyncInterval. keeps_auto. }
      apply K.
    + assert (E : emits (fun c => negb (heavy c)) (SetVsyncInterval' vsyncInterval)).
      { unfold SetVsyncInterval. emits_auto. }
      apply E.
  - intros b w' H.
    unfold SetVsyncInterval in H. returned H. injection H_head as <- <-.
    returned H. injection H as <- <-.
    destruct (Z.eqb_spec (vsyncInterval_ (ctx w)) vsyncInterval) as [E | E];
      cbn [negb] in H_head.
    + injection H_head as _ <-. split; [reflexivity | split; [exact E |]].
      intros Hne. contradiction.
    + split; [reflexivity |].
      apply bind_returned in H_head as (? & w1 & Hchain & H).
      apply bind_returned in H as (? & w2 & Hframes & H).
      injection H as _ <-. cbn [ctx trace vsyncInterval_ set_vsyncInterval_].
      split; [reflexivity |]. intros _.
      apply CreateSwapChain_made in Hchain as Made. destruct Made as [Hle Hviews].
      assert (Kf : relates (fun c c' => numSwapChainBuffers_ c' = numSwapChainBuffers_ c)
                     (CreateSwapChainFramebuffers outside)) by keeps_auto.
      specialize (Kf w1). rewrite Hframes in Kf. cbn [snd] in Kf.
      assert (Ec : emits (fun call => negb (creates_framebuffer call))
                     (CreateSwapChain outside GetResolution vsyncInterval))
        by (unfold CreateSwapChain; emits_auto).
      assert (Ef : emits (fun call => negb (creates_image_view call))
                     (CreateSwapChainFramebuffers outside))
        by (unfold CreateSwapChainFramebuffers; emits_auto).
      pose proof (quiet_returned _ _ _ _ _ Ec Hchain) as Qc.
      pose proof (quiet_returned _ _ _ _ _ Ef Hframes) as Qf.
      apply CreateSwapChainFramebuffers_made in Hframes.
      cbn [numSwapChainBuffers_ set_vsyncInterval_]. rewrite Kf.
      split; [exact Hle | split; lia].
Qed.

(** *** Recreating the surface *)

Lemma Release_returns held w :
  exists t, Release outside held w = (Ok tt, {| ctx := ctx w; trace := trace w ++ t |}).
Proof.
  unfold Release. destruct (held =? VK_NULL_HANDLE).
  - exists []. unfold ret. rewrite app_nil_r. now destruct w.
  - exists [vkDestroy held]. reflexivity.
Qed.

(** X11. [CreateGpuSurface] destroys the swap chain before anything else and
    the surface only after it, then creates the new surface; whatever happens
    afterwards, the context ends without a swap chain.  On a platform that is
    neither Win32 nor Linux no surface is created. *)
Theorem CreateGpuSurface_destroys_swap_chain_first (w : World) :
  let after := snd (CreateGpuSurface outside platform w) in
  swapChain_ (ctx after) = VK_NULL_HANDLE /\
  (swapChain_ (ctx w) <> VK_NULL_HANDLE ->
   surface_ (ctx w) <> VK_NULL_HANDLE ->
   platform <> LLGL_OS_OTHER ->
   exists window t,
     trace after =
     trace w ++ [vkDestroy (swapChain_ (ctx w)); GetNativeHandle;
                 vkDestroy (surface_ (ctx w));
                 vkCreateSurfaceKHR (instance_ (ctx w)) window] ++ t) /\
  (platform = LLGL_OS_OTHER ->
   surface_ (ctx after) = surface_ (ctx w) /\
   exists t, trace after = trace w ++ t /\
             forallb (fun c => match c with
                               | vkCreateSurfaceKHR _ _ => false
                               | _ => true
                               end) t = true).
Proof.
  cbv zeta. split; [| split].
  - unfold CreateGpuSurface. unfold bind at 1. unfold this at 1. cbv iota beta.
    unfold bind at 1.
    destruct (Release_returns (swapChain_ (ctx w)) w) as [t0 E]. rewrite E.
    unfold bind at 1. unfold assign at 1. cbv iota beta.
    match goal with
    | |- swapChain_ (ctx (snd (?rest ?w2))) = _ =>
        assert (K : relates (fun c c' => swapChain_ c' = swapChain_ c) rest)
          by keeps_auto;
        rewrite (K w2)
    end.
    reflexivity.
  - intros Hsc Hsf Hp.
    apply Z.eqb_neq in Hsc. apply Z.eqb_neq in Hsf.
    unfold CreateGpuSurface. unfold bind at 1. unfold this at 1. cbv iota beta.
    unfold bind at 1. unfold Release at 1. rewrite Hsc.
    unfold bind at 1. unfold call at 1. cbv iota beta zeta.
    unfold ret at 1. cbv iota beta.
    unfold bind at 1. unfold assign at 1. cbv iota beta. cbn [ctx trace].
    unfold bind at 1. unfold call at 1. cbv iota beta zeta. cbn [ctx trace].
    unfold bind at 1.
    set (window := object (outside ((trace w ++ [vkDestroy (swapChain_ (ctx w))]) ++
                                    [GetNativeHandle]))).
    exists window.
    match goal with
    | |- context [match ?p ?w2 with (_, _) => _ end] =>
        assert (P : exists t1, trace (snd (p w2)) =
                               trace w2 ++ [vkDestroy (surface_ (ctx w));
                                            vkCreateSurfaceKHR (instance_ (ctx w)) window]
                               ++ t1 /\
                               forall a w3, p w2 = (Ok a, w3) -> True);
        [| destruct P as (t1 & P & _); destruct (p w2) as [[[] | what |] w3] eqn:E ]
    end.
    { destruct platform; [| | contradiction].
      all: unfold bind at 1; unfold Release at 1; rewrite Hsf.
      all: unfold bind at 1; unfold call at 1; cbv iota beta zeta; unfold ret at 1;
        cbv iota beta.
      all: unfold bind at 1; unfold call at 1; cbv iota beta zeta; cbn [ctx trace].
      all: unfold bind at 1; unfold assign at 1; cbv iota beta; cbn [ctx trace].
      all: unfold VKThrowIfFailed; destruct (_ =? VK_SUCCESS);
        exists []; (split; [cbn; now rewrite <- !app_assoc | trivial]). }
    + cbn [snd] in P.
      match goal with
      | |- exists t, trace (snd (?rest w3)) = _ =>
          assert (X : emits (fun _ => true) rest) by emits_auto;
          destruct (X w3) as (t2 & X2 & _)
      end.
      exists (t1 ++ t2). rewrite X2, P. cbn [trace].
      now rewrite <- !app_assoc.
    + cbn [snd] in P |- *. exists t1. rewrite P. cbn [trace].
      now rewrite <- !app_assoc.
    + cbn [snd] in P |- *. exists t1. rewrite P. cbn [trace].
      now rewrite <- !app_assoc.
  - intros ->. split.
    + assert (K : relates (fun c c' => surface_ c' = surface_ c)
                    (CreateGpuSurface outside LLGL_OS_OTHER))
        by (unfold CreateGpuSurface; keeps_auto).
      apply K.
    + assert (E : emits (fun c => match c with
                                  | vkCreateSurfaceKHR _ _ => false
                                  | _ => true
                                  end) (CreateGpuSurface outside LLGL_OS_OTHER))
        by (unfold CreateGpuSurface; emits_auto).
      apply E.
Qed.

End ContextInvariants.

(** ** Presenting when the driver fails *)

Section PresentFailure.

Import VKRenderContext.

Variable outside : list Call -> Answer.


End PresentFailure.

(** ** One-off command buffers and the logical device *)

Section DeviceCallProperties.

Import VKDeviceCalls.

Variable outside : list Call -> Answer.
Variable default_begin default_release : bool.

Abbreviation FlushCommandBuffer' := (FlushCommandBuffer outside).
Abbreviation CopyBuffer' := (CopyBuffer outside default_begin default_release).
Abbreviation CreateLogicalDevice' := (CreateLogicalDevice outside).

(** X13. [FlushCommandBuffer] checks the result of ending the recording and
    nothing after it.  If ending fails it throws, having submitted nothing and
    freed nothing.  Otherwise, once its fence exists, it submits, waits for the
    fence, destroys the fence, frees the command buffer if asked to, and
    returns normally: the result of [vkQueueSubmit] has no influence. *)
Theorem FlushCommandBuffer_ignores_submit_result (cmdBuffer : Handle) (release : bool)
    (w : World) :
  let d := dev w in
  let ended := trace w ++ [vkEndCommandBuffer cmdBuffer] in
  let fenced := ended ++ [VKFence_create (device_ d)] in
  let fence := object (outside fenced) in
  (result (outside ended) <> VK_SUCCESS ->
   FlushCommandBuffer' cmdBuffer release w =
     (Throw "failed to end recording Vulkan command buffer",
      {| dev := d; trace := ended |})) /\
  (result (outside ended) = VK_SUCCESS ->
   thrown (outside fenced) = None ->
   FlushCommandBuffer' cmdBuffer release w =
     (Ok tt,
      {| dev := d;
         trace := fenced
                  ++ [vkQueueSubmit (graphicsQueue_ d) [cmdBuffer] fence;
                      VKFence_Wait fence (device_ d) ULLONG_MAX]
                  ++ (if fence =? VK_NULL_HANDLE then [] else [vkDestroy fence])
                  ++ (if release
                      then [vkFreeCommandBuffers (device_ d) (commandPool_ d) cmdBuffer]
                      else []) |})).
Proof.
  cbv zeta. unfold FlushCommandBuffer, VKThrowIfFailed, Release, finally,
    bind, this, call, ret, throw.
  cbn [dev trace]. split.
  - intros E. apply Z.eqb_neq in E. now rewrite E.
  - intros E F. rewrite E.
    change (VK_SUCCESS =? VK_SUCCESS) with true. cbv beta iota. cbn [dev trace].
    rewrite F. cbv beta iota. cbn [dev trace fst snd].
    destruct (object (outside ((trace w ++ [vkEndCommandBuffer cmdBuffer]) ++
                               [VKFence_create (device_ (dev w))])) =? VK_NULL_HANDLE);
      destruct release; cbn [fst snd dev trace]; f_equal; f_equal;
      rewrite <- ?app_assoc; cbn [app]; rewrite ?app_nil_r; reflexivity.
Qed.

Ltac split_outcomes :=
  repeat (cbv beta iota; cbn [dev trace fst snd];
          match goal with
          | |- context [if ?b then _ else _] => destruct b eqn:?
          | |- context [match thrown ?a with _ => _ end] => destruct (thrown a) eqn:?
          end);
  cbv beta iota; cbn [dev trace fst snd].

(** X14. When [CopyBuffer] throws, the device is unchanged and the command
    buffer has not been handed back to the pool, although the first call made
    was its allocation: no exception path frees it. *)
Theorem CopyBuffer_throw_never_frees
    (srcBuffer dstBuffer : Handle) (size srcOffset dstOffset : Z)
    (w w' : World) (what : string) :
  CopyBuffer' srcBuffer dstBuffer size srcOffset dstOffset w = (Throw what, w') ->
  dev w' = dev w /\
  exists t,
    trace w' =
      trace w ++ vkAllocateCommandBuffers (device_ (dev w)) (commandPool_ (dev w)) 1 :: t /\
    forallb not_free t = true.
Proof.
  unfold CopyBuffer, AllocCommandBuffer, CopyBuffer_into, FlushCommandBuffer,
    VKThrowIfFailed, Release, finally, bind, this, call, ret, throw.
  split_outcomes.
  all: intros H; try discriminate H; injection H as _ <-.
  all: split; [reflexivity |]; cbn [trace]; rewrite <- ?app_assoc; cbn [app];
    eexists; split; reflexivity.
Qed.

(** X15. [CreateLogicalDevice] asks for one queue of the graphics family and,
    only when the present family is another one, one queue of that: no family
    is named twice.  When creating the device fails it throws at once: no
    queue is fetched and no command pool is created. *)
Theorem CreateLogicalDevice_queue_families
    (physicalDevice features numExtensions : Z) (w : World) :
  let found := trace w ++ [VKFindQueueFamilies physicalDevice 7] in
  let q := families (outside found) in
  let released := found ++ (if device_ (dev w) =? VK_NULL_HANDLE then []
                            else [vkDestroy (device_ (dev w))]) in
  exists createInfo t,
    trace (snd (CreateLogicalDevice' physicalDevice features numExtensions w)) =
      released ++ vkCreateDevice physicalDevice createInfo :: t /\
    NoDup (queueFamilies createInfo) /\
    (forall family, In family (queueFamilies createInfo) <->
                    family = graphicsFamily q \/ family = presentFamily q) /\
    (result (outside (released ++ [vkCreateDevice physicalDevice createInfo]))
       <> VK_SUCCESS ->
     t = [] /\
     fst (CreateLogicalDevice' physicalDevice features numExtensions w) =
       Throw "failed to create Vulkan logical device").
Proof.
  cbv zeta.
  unfold CreateLogicalDevice, CreateCommandPool, VKThrowIfFailed, Release,
    bind, this, call, assign, ret, throw.
  cbn [dev trace device_ queueFamilyIndices_ graphicsQueue_ commandPool_].
  change (Z.lor (Z.lor VK_QUEUE_GRAPHICS_BIT VK_QUEUE_COMPUTE_BIT)
            VK_QUEUE_TRANSFER_BIT) with 7.
  set (q := families (outside (trace w ++ [VKFindQueueFamilies physicalDevice 7]))).
  set (infos := [graphicsFamily q] ++
                (if negb (graphicsFamily q =? presentFamily q)
                 then [presentFamily q] else [])).
  assert (Families :
            NoDup infos /\
            forall family,
              In family infos <->
              family = graphicsFamily q \/ family = presentFamily q).
  { subst infos.
    destruct (Z.eqb_spec (graphicsFamily q) (presentFamily q)) as [E | E]; cbn.
    - split; [repeat constructor; intros [] |]. intros family. rewrite <- E. intuition.
    - split.
      + repeat constructor; cbn; intuition.
      + intros family. intuition. }
  destruct Families as [Nd Mem].
  exists {| queueFamilies := infos; enabledLayerCount := 0;
            enabledExtensionCount := numExtensions; pEnabledFeatures := features |}.
  destruct (device_ (dev w) =? VK_NULL_HANDLE) eqn:Hd.
  all: cbv beta iota; cbn [dev trace device_ queueFamilyIndices_ graphicsQueue_
                           commandPool_ fst snd].
  all: rewrite ?app_nil_r.
  all: match goal with
       | |- context [result (outside ?h) =? VK_SUCCESS] =>
           destruct (Z.eqb_spec (result (outside h)) VK_SUCCESS) as [Ok1 | Ko1]
       end.
  all: split_outcomes.
  all: eexists; split; [cbn [trace]; rewrite <- ?app_assoc; cbn [app]; reflexivity |].
  all: split; [exact Nd | split; [exact Mem |]].
  all: intros Hfail; try (rewrite <- ?app_assoc in Hfail; cbn [app] in Hfail;
                          rewrite <- ?app_assoc in Ok1; cbn [app] in Ok1;
                          contradiction).
  all: split; reflexivity.
Qed.

End DeviceCallProperties.

(** ** Creating the Direct3D 12 device and choosing a sample count *)

Section D3D12DeviceProperties.

Import D3D12 D3D12Device.

Variable D3D12CreateDevice : Z -> Z -> HRESULT * Z.
Variable CheckFeatureSupport : Z -> Z -> HRESULT * Z.

Abbreviation CreateDXDevice' := (CreateDXDevice D3D12CreateDevice).
Abbreviation TryFeatureLevels' := (TryFeatureLevels D3D12CreateDevice).
Abbreviation FindSuitableSampleDesc' := (FindSuitableSampleDesc CheckFeatureSupport).
Abbreviation SampleDescLoop' := (SampleDescLoop CheckFeatureSupport).
Abbreviation FindSuitableSampleDescForFormats' :=
  (FindSuitableSampleDescForFormats CheckFeatureSupport).

Lemma TryFeatureLevels_stops adapter before level after hr d tried :
  (forall l, In l before -> SUCCEEDED (fst (D3D12CreateDevice adapter l)) = false) ->
  SUCCEEDED (fst (D3D12CreateDevice adapter level)) = true ->
  TryFeatureLevels' adapter (before ++ level :: after) hr d tried =
  (fst (D3D12CreateDevice adapter level),
   {| device_ := snd (D3D12CreateDevice adapter level); featureLevel_ := level |},
   tried ++ before ++ [level]).
Proof.
  revert hr d tried. induction before as [| l before IH]; intros hr d tried Hb Hl.
  - cbn. destruct (D3D12CreateDevice adapter level) as [hr' created].
    cbn in Hl |- *. now rewrite Hl.
  - cbn [app TryFeatureLevels].
    pose proof (Hb l (or_introl eq_refl)) as Hfail.
    destruct (D3D12CreateDevice adapter l) as [hr' created]. cbn in Hfail.
    rewrite Hfail, IH by (auto; intros; apply Hb; now right).
    now rewrite <- app_assoc.
Qed.

Lemma TryFeatureLevels_fails adapter levels hr d tried :
  (forall l, In l levels -> SUCCEEDED (fst (D3D12CreateDevice adapter l)) = false) ->
  TryFeatureLevels' adapter levels hr d tried =
  (match levels with
   | [] => hr
   | _ => fst (D3D12CreateDevice adapter (last levels 0))
   end,
   {| device_ := match levels with
                 | [] => device_ d
                 | _ => snd (D3D12CreateDevice adapter (last levels 0))
                 end;
      featureLevel_ := featureLevel_ d |},
   tried ++ levels).
Proof.
  revert hr d tried. induction levels as [| l levels IH]; intros hr d tried Hall.
  - cbn. rewrite app_nil_r. now destruct d.
  - cbn [TryFeatureLevels].
    pose proof (Hall l (or_introl eq_refl)) as Hfail.
    destruct (D3D12CreateDevice adapter l) as [hr' created] eqn:E. cbn in Hfail.
    rewrite Hfail, IH by (intros; apply Hall; now right).
    rewrite <- app_assoc. cbn [app featureLevel_ device_].
    destruct levels as [| l' levels]; [cbn [last]; now rewrite E |]. reflexivity.
Qed.

(** X16. [CreateDXDevice] tries the feature levels in the order given and stops
    at the first one the driver accepts, which it stores together with the
    device; the levels after it are not tried.  If the driver accepts none,
    every level was tried, the stored feature level is unchanged and the
    result is the failure of the last attempt.  With no feature level at all
    it reports success (S_OK) without having tried to create a device. *)
Theorem CreateDXDevice_first_accepted (featureLevels : list Z) (adapter : Z) (d : Device) :
  (featureLevels = [] ->
   CreateDXDevice' featureLevels adapter d = (S_OK, d, [])) /\
  (forall before level after,
     featureLevels = before ++ level :: after ->
     (forall l, In l before -> SUCCEEDED (fst (D3D12CreateDevice adapter l)) = false) ->
     SUCCEEDED (fst (D3D12CreateDevice adapter level)) = true ->
     CreateDXDevice' featureLevels adapter d =
       (fst (D3D12CreateDevice adapter level),
        {| device_ := snd (D3D12CreateDevice adapter level); featureLevel_ := level |},
        before ++ [level])) /\
  (featureLevels <> [] ->
   (forall l, In l featureLevels ->
              SUCCEEDED (fst (D3D12CreateDevice adapter l)) = false) ->
   let '(hr, d', tried) := CreateDXDevice' featureLevels adapter d in
   hr = fst (D3D12CreateDevice adapter (last featureLevels 0)) /\
   SUCCEEDED hr = false /\
   featureLevel_ d' = featureLevel_ d /\
   tried = featureLevels).
Proof.
  unfold CreateDXDevice. repeat split.
  - intros ->. reflexivity.
  - intros before level after -> Hb Hl. now rewrite TryFeatureLevels_stops.
  - intros Hne Hall. rewrite TryFeatureLevels_fails by exact Hall.
    destruct featureLevels as [| l levels]; [contradiction |].
    repeat split. apply Hall.
    assert (L : forall (xs : list Z) x, In (last (x :: xs) 0) (x :: xs)).
    { induction xs as [| y xs IHxs]; intros x; [now left |].
      right. apply (IHxs y). }
    apply L.
Qed.

(** More rounds than the counter asks for change nothing. *)
Lemma SampleDescLoop_spec format n :
  forall c,
    0 <= c <= Z.of_nat n -> c <= uint32_max ->
    let desc := SampleDescLoop' n format c in
    let supported k := fst (CheckFeatureSupport format k) = S_OK /\
                       0 < snd (CheckFeatureSupport format k) in
    1 <= Count desc /\ Count desc <= Z.max 1 c /\
    (1 < Count desc ->
     supported (Count desc) /\
     Quality desc = uint32 (snd (CheckFeatureSupport format (Count desc)) - 1)) /\
    (Count desc = 1 -> Quality desc = 0) /\
    (forall k, Count desc < k <= c -> 1 < k -> ~ supported k).
Proof.
  unfold uint32_max.
  induction n as [| n IH]; intros c Hc Hu; cbv zeta.
  - cbn. repeat split; intros; lia.
  - cbn [SampleDescLoop].
    destruct (Z.ltb_spec 1 c) as [H1 | H1].
    2: { cbn. repeat split; intros; lia. }
    assert (U : uint32 (c - 1) = c - 1).
    { unfold uint32. apply Z.mod_small. lia. }
    pose proof (IH (c - 1) ltac:(lia) ltac:(lia)) as I. cbv zeta in I.
    destruct I as (I1 & I2 & I3 & I4 & I5).
    destruct (CheckFeatureSupport format c) as [hr q] eqn:E.
    destruct (Z.eqb_spec hr S_OK) as [Hhr | Hhr];
      [destruct (Z.ltb_spec 0 q) as [Hq | Hq] |]; cbn [andb].
    + cbn [Count Quality]. rewrite E. cbn [fst snd].
      split; [lia |]. split; [lia |]. split; [intros _; now repeat split |].
      split; [intros; lia |]. intros; lia.
    + rewrite U.
      split; [exact I1 |]. split; [lia |]. split; [exact I3 |]. split; [exact I4 |].
      intros k Hk Hk1 [S1 S2].
      destruct (Z.eq_dec k c) as [-> | Hne].
      * rewrite E in S2. cbn in S2. lia.
      * apply (I5 k); [lia | lia | now split].
    + rewrite U.
      split; [exact I1 |]. split; [lia |]. split; [exact I3 |]. split; [exact I4 |].
      intros k Hk Hk1 [S1 S2].
      destruct (Z.eq_dec k c) as [-> | Hne].
      * rewrite E in S1. cbn in S1. contradiction.
      * apply (I5 k); [lia | lia | now split].
Qed.

(** The count found for one format lies between 1 and the maximum, and a
    count above 1 is one the device supports. *)
Lemma FindSuitableSampleDesc_count (format maxSampleCount : Z) :
  is_uint32 maxSampleCount ->
  1 <= Count (FindSuitableSampleDesc' format maxSampleCount) <= Z.max 1 maxSampleCount /\
  (1 < Count (FindSuitableSampleDesc' format maxSampleCount) ->
   fst (CheckFeatureSupport format
          (Count (FindSuitableSampleDesc' format maxSampleCount))) = S_OK /\
   0 < snd (CheckFeatureSupport format
              (Count (FindSuitableSampleDesc' format maxSampleCount)))).
Proof.
  intros [H0 H1]. unfold FindSuitableSampleDesc.
  destruct (SampleDescLoop_spec format (Z.to_nat maxSampleCount) maxSampleCount)
    as (P1 & P2 & P3 & _); [rewrite Z2Nat.id; lia | exact H1 |].
  split; [split; assumption |]. intros H. now destruct (P3 H).
Qed.

(** X17. For a format and a maximal sample count, [FindSuitableSampleDesc]
    answers the largest sample count above 1 and not above the maximum for
    which the device reports success with at least one quality level, with the
    highest quality level; if there is none, it answers one sample of quality
    0.  The count is never 0, even if 0 was passed as maximum. *)
Theorem FindSuitableSampleDesc_largest_supported (format maxSampleCount : Z) :
  is_uint32 maxSampleCount ->
  let desc := FindSuitableSampleDesc' format maxSampleCount in
  let supported k := fst (CheckFeatureSupport format k) = S_OK /\
                     0 < snd (CheckFeatureSupport format k) in
  1 <= Count desc /\ Count desc <= Z.max 1 maxSampleCount /\
  (1 < Count desc ->
   supported (Count desc) /\
   Quality desc = uint32 (snd (CheckFeatureSupport format (Count desc)) - 1)) /\
  (Count desc = 1 -> Quality desc = 0) /\
  (forall k, Count desc < k <= maxSampleCount -> 1 < k -> ~ supported k).
Proof.
  intros [H0 H1]. unfold FindSuitableSampleDesc.
  apply SampleDescLoop_spec; [rewrite Z2Nat.id; lia | exact H1].
Qed.

(** X18. Over several formats the description answered is the one found for
    the last format that is not DXGI_FORMAT_UNKNOWN, searched from the count
    that the formats before it left over: that format supports the count
    answered, and the earlier formats are not asked again about it.  The count
    never exceeds the maximum passed in (or 1).  When every format is unknown,
    the maximum is answered unchecked with quality 0. *)
Theorem FindSuitableSampleDescForFormats_last_known (formats : list Z) (maxSampleCount : Z) :
  is_uint32 maxSampleCount ->
  ((forall f, In f formats -> f = DXGI_FORMAT_UNKNOWN) ->
   FindSuitableSampleDescForFormats' formats maxSampleCount =
     {| Count := maxSampleCount; Quality := 0 |}) /\
  (forall before f after,
     formats = before ++ f :: after ->
     f <> DXGI_FORMAT_UNKNOWN ->
     (forall g, In g after -> g = DXGI_FORMAT_UNKNOWN) ->
     let left_over := Count (FindSuitableSampleDescForFormats' before maxSampleCount) in
     let desc := FindSuitableSampleDescForFormats' formats maxSampleCount in
     desc = FindSuitableSampleDesc' f left_over /\
     0 <= left_over <= Z.max 1 maxSampleCount /\
     1 <= Count desc <= Z.max 1 left_over /\
     (1 < Count desc ->
      fst (CheckFeatureSupport f (Count desc)) = S_OK /\
      0 < snd (CheckFeatureSupport f (Count desc)))).
Proof.
  intros Hmax.
  set (step := fun sampleDesc format =>
                 if negb (format =? DXGI_FORMAT_UNKNOWN)
                 then FindSuitableSampleDesc' format (Count sampleDesc)
                 else sampleDesc).
  assert (Skip : forall fs start,
             (forall f, In f fs -> f = DXGI_FORMAT_UNKNOWN) ->
             fold_left step fs start = start).
  { induction fs as [| f fs IH]; intros start Hall; [reflexivity |].
    cbn [fold_left]. unfold step at 2.
    rewrite (Hall f (or_introl eq_refl)), Z.eqb_refl. cbn [negb].
    apply IH. intros g Hg. apply Hall. now right. }
  assert (Bound : forall fs start,
             0 <= Count start <= uint32_max ->
             0 <= Count (fold_left step fs start) <= Z.max 1 (Count start)).
  { induction fs as [| f fs IH]; intros start Hs; [cbn; lia |].
    cbn [fold_left]. unfold step at 2 4. destruct (negb (f =? DXGI_FORMAT_UNKNOWN)).
    - destruct (FindSuitableSampleDesc_count f (Count start) Hs) as [[P1 P2] _].
      assert (Hn : 0 <= Count (FindSuitableSampleDesc' f (Count start)) <= uint32_max)
        by (unfold uint32_max in *; lia).
      specialize (IH _ Hn). lia.
    - apply IH. exact Hs. }
  unfold FindSuitableSampleDescForFormats. fold step. split.
  - intros Hall. now apply Skip.
  - intros before f after -> Hf Hafter. cbv zeta.
    assert (Last : fold_left step (before ++ f :: after)
                     {| Count := maxSampleCount; Quality := 0 |} =
                   FindSuitableSampleDesc' f
                     (Count (fold_left step before
                               {| Count := maxSampleCount; Quality := 0 |}))).
    { rewrite fold_left_app. cbn [fold_left]. rewrite (Skip after _ Hafter).
      unfold step at 1. apply Z.eqb_neq in Hf. now rewrite Hf. }
    rewrite Last.
    pose proof (Bound before {| Count := maxSampleCount; Quality := 0 |} Hmax) as B.
    cbn [Count] in B.
    assert (Hl : is_uint32 (Count (fold_left step before
                                     {| Count := maxSampleCount; Quality := 0 |}))).
    { destruct Hmax. unfold is_uint32, uint32_max in *. lia. }
    destruct (FindSuitableSampleDesc_count f _ Hl) as [P12 P3].
    split; [reflexivity |]. split; [exact B |]. split; [exact P12 | exact P3].
Qed.

End D3D12DeviceProperties.

(** ** The further properties at concrete inputs *)

Section LayoutRuns.

Import LayoutTracker VKDevice DeviceExamples SampleExamples.

Lemma GenerateMips_restores_shader_read_only_witness :
  let cb := GenerateMips unit aspect_unit never never [] 7 VK_FORMAT_B8G8R8A8_UNORM
              {| width := 256; height := 256; depth := 1 |} nine_levels in
  run cb layouts0 7 8 0 = VK_IMAGE_LAYOUT_SHADER_READ_ONLY_OPTIMAL /\
  run cb layouts0 7 9 0 = VK_IMAGE_LAYOUT_COLOR_ATTACHMENT_OPTIMAL.
Proof.
  cbv zeta.
  assert (H := GenerateMips_restores_shader_read_only unit aspect_unit never never
                 [] 7 VK_FORMAT_B8G8R8A8_UNORM
                 {| width := 256; height := 256; depth := 1 |} nine_levels).
  cbn in H. unfold uint32_max in H.
  specialize (H eq_refl ltac:(lia) ltac:(lia) ltac:(lia) ltac:(lia) ltac:(lia)).
  split; [exact (H layouts0 7 8 0) | exact (H layouts0 7 9 0)].
Defined.

Lemma GenerateMips_one_level_other_layers_stay_transfer_dst_witness :
  let cb := GenerateMips unit aspect_unit never never [] 7 VK_FORMAT_B8G8R8A8_UNORM
              {| width := 256; height := 256; depth := 1 |} one_level_two_layers in
  run cb layouts0 7 0 0 = VK_IMAGE_LAYOUT_SHADER_READ_ONLY_OPTIMAL /\
  run cb layouts0 7 0 1 = VK_IMAGE_LAYOUT_TRANSFER_DST_OPTIMAL.
Proof.
  cbv zeta.
  assert (H := GenerateMips_one_level_other_layers_stay_transfer_dst
                 unit aspect_unit never never
                 [] 7 VK_FORMAT_B8G8R8A8_UNORM
                 {| width := 256; height := 256; depth := 1 |} one_level_two_layers).
  cbn in H.
  specialize (H eq_refl eq_refl ltac:(lia) ltac:(lia)).
  split; [exact (H layouts0 0 ltac:(lia)) | exact (H layouts0 1 ltac:(lia))].
Defined.

Lemma WriteBuffer_then_ReadBuffer_witness :
  hostBytes (snd (ReadBuffer (fun _ _ _ => true) region_5_64 2000 16 0
                    (snd (WriteBuffer (fun _ _ _ => true) region_5_64 1000 16 0
                            marked_host))))
            2003 = Byte.x2a.
Proof.
  apply (WriteBuffer_then_ReadBuffer (fun _ _ _ => true) region_5_64 1000 2000 16 0
           marked_host {| GetParentChunk := 5; GetOffset := 64; GetSize := 256 |} 3);
    [reflexivity | reflexivity | lia].
Defined.

End LayoutRuns.

Section ContextFurtherRuns.

Import VKRenderContext ContextExamples.

Lemma ResizeBuffersPrimary_settles_extent_witness :
  let resolution := {| res_width := 1024; res_height := 768 |} in
  let w' := snd (ResizeBuffersPrimary willing LLGL_OS_LINUX resolution world_800_600) in
  swapChainExtent_ (ctx w') = {| width2 := 1024; height2 := 768 |} /\
  ResizeBuffersPrimary willing LLGL_OS_LINUX resolution w' = (Ok true, w').
Proof.
  cbv zeta.
  assert (R : ResizeBuffersPrimary willing LLGL_OS_LINUX
                {| res_width := 1024; res_height := 768 |} world_800_600 =
              (Ok true,
               snd (ResizeBuffersPrimary willing LLGL_OS_LINUX
                      {| res_width := 1024; res_height := 768 |} world_800_600)))
    by (vm_compute; reflexivity).
  assert (D : width2 (swapChainExtent_ (ctx world_800_600)) <> 1024 \/
              height2 (swapChainExtent_ (ctx world_800_600)) <> 768)
    by (left; cbn; lia).
  destruct (ResizeBuffersPrimary_settles_extent willing LLGL_OS_LINUX
              {| res_width := 1024; res_height := 768 |} world_800_600 true _ R D)
    as (_ & E & _ & Inside & _ & Again & _).
  split; [exact E | apply Again, Inside; vm_compute; intuition discriminate].
Defined.

(** With four swap-chain images the driver writes past the three entries of
    [swapChainImages_]: the resize neither returns nor throws, and its last
    call is the query that wrote the images. *)
Example resize_four_images :
  let r := ResizeBuffersPrimary four_images LLGL_OS_LINUX
             {| res_width := 1024; res_height := 768 |} world_800_600 in
  fst r = Undefined /\
  last (trace (snd r)) GetNativeHandle = vkGetSwapchainImagesKHR 3 115 4 true.
Proof. vm_compute. split; reflexivity. Qed.

(** Switching v-sync off under a willing driver: one swap chain, and a view
    and a framebuffer for each of its two images. *)
Example vsync_off_recreates :
  let r := SetVsyncInterval willing {| res_width := 800; res_height := 600 |} 0
             world_800_600 in
  fst r = Ok true /\
  vsyncInterval_ (ctx (snd r)) = 0 /\
  tally creates_image_view (trace (snd r)) = 2%nat /\
  tally creates_framebuffer (trace (snd r)) = 2%nat.
Proof. vm_compute. repeat split. Qed.


End ContextFurtherRuns.

Section DeviceCallRuns.

Import VKDeviceCalls DeviceCallExamples.

Lemma CopyBuffer_throw_never_frees_witness :
  let run := CopyBuffer cannot_end true true 21 22 16 0 0 world0 in
  fst run = Throw "failed to end recording Vulkan command buffer" /\
  dev (snd run) = device0 /\
  exists t, trace (snd run) = vkAllocateCommandBuffers 3 11 1 :: t /\
            forallb not_free t = true.
Proof.
  cbv zeta.
  assert (T : CopyBuffer cannot_end true true 21 22 16 0 0 world0 =
              (Throw "failed to end recording Vulkan command buffer",
               snd (CopyBuffer cannot_end true true 21 22 16 0 0 world0)))
    by reflexivity.
  split; [reflexivity |].
  exact (CopyBuffer_throw_never_frees cannot_end true true 21 22 16 0 0 world0 _ _ T).
Defined.

End DeviceCallRuns.

Section SampleCountRuns.

Import D3D12 D3D12Device SampleExamples.

Lemma FindSuitableSampleDesc_largest_supported_witness :
  is_uint32 16 /\
  FindSuitableSampleDesc quality_levels 28 16 = {| Count := 8; Quality := 2 |} /\
  (forall k, 8 < k <= 16 -> 1 < k ->
             ~ (fst (quality_levels 28 k) = S_OK /\ 0 < snd (quality_levels 28 k))).
Proof.
  assert (U : is_uint32 16) by (unfold is_uint32, uint32_max; lia).
  split; [exact U |]. split; [reflexivity |].
  exact (proj2 (proj2 (proj2 (proj2
           (FindSuitableSampleDesc_largest_supported quality_levels 28 16 U))))).
Defined.

Lemma FindSuitableSampleDescForFormats_last_known_witness :
  is_uint32 16 /\
  FindSuitableSampleDescForFormats quality_levels [28; 0; 45; 0] 16 =
    FindSuitableSampleDesc quality_levels 45 8 /\
  FindSuitableSampleDesc quality_levels 45 8 = {| Count := 4; Quality := 2 |}.
Proof.
  assert (U : is_uint32 16) by (unfold is_uint32, uint32_max; lia).
  split; [exact U |]. split; [| reflexivity].
  refine (proj1 (proj2 (FindSuitableSampleDescForFormats_last_known quality_levels
                          [28; 0; 45; 0] 16 U) [28; 0] 45 [0] eq_refl _ _)).
  - discriminate.
  - intros g [<- | []]. reflexivity.
Defined.

End SampleCountRuns.
